(** * Dataset distribution utilities: a shallow embedding and its properties

    The repository holds two scripts,
    [scripts/utils/CsvDatasetDistribution.py] and
    [scripts/utils/JsonDatasetDistribution.py].  Each computes the frequency
    distribution of one field over the records of a dataset, writes a
    three-column summary CSV and renders a bar chart and a pie chart.

    The development is organised as follows.
    - [PyNum]: Python numbers as the scripts use them: [int] as [Z], [float]
      as IEEE 754 binary64 ([spec_float] and the operations of the Standard
      Library), with [str], [repr] and the [.Nf] format.
    - [Py]: the Python values that [json.load] and pandas hand to the
      scripts, dictionary-key equality, [collections.Counter].
    - [Io]: exceptions, the file system and the state-and-exception monad
      in which the scripts run.
    - [Pandas]: the part of pandas the scripts call, taken as a parameter;
      [PandasRef] is one instance, used to run the scripts on samples.
    - [JsonDist] and [CsvDist]: the two scripts, function by function.
    - [Summary]: reading a summary file back and re-aggregating it.
    - [Spec] and [FloatSpec]: the vocabulary of the statements.
    - The properties: facts about the counter, about a run, about the
      rows, about binary64 division, multiplication and formatting, and
      then the claims C1 to C10 of the specification.
    - Further properties X1 to X21: how the scripts fail, what a run
      writes and what it leaves alone, the rows and the percent column as
      a whole, the charts and the three outputs of
      [compute_and_plot_distribution].

    What is outside the model: the quoting of CSV fields (a file is the
    list of its rows of fields), failures of the storage layer other than
    a missing input file, the drawing done by matplotlib (a chart is the
    data handed to it), and numpy's 64-bit wrap-around in [sum]. *)

From Stdlib Require Import ZArith String Ascii List Bool Lia.
From Stdlib Require Import DecimalString DecimalZ DecimalPos.
From Stdlib Require Import Floats.SpecFloat.
From Stdlib Require Import Sorting.Sorted Sorting.Permutation.
From Stdlib Require Import QArith Qpower Qabs Qfield Lqa.
From stdpp Require Import base tactics option list strings gmap.

Set Warnings "-register-all".
Local Open Scope string_scope.

(* ===================================================================== *)
(** ** Python numbers *)
(* ===================================================================== *)

Module PyNum.
Local Open Scope Z_scope.

(** [str(n)] for a Python [int]. *)
Definition str_int (z : Z) : string := NilZero.string_of_int (Z.to_int z).

(** The inverse reading of a decimal integer literal (sign and digits). *)
Definition parse_int (s : string) : option Z :=
  option_map Z.of_int (NilZero.int_of_string s).

(** Python's [float] is IEEE 754 binary64. *)
Definition prec : Z := 53.
Definition emax : Z := 1024.
Abbreviation float := spec_float.

(** [float(n)] for an integer, rounded to nearest even; [of_int 100] is
    the literal [100.0]. *)
Definition of_int (z : Z) : float := binary_normalize prec emax z 0 false.

(** [x / y] and [x * y] on floats. *)
Definition fdiv : float -> float -> float := SFdiv prec emax.
Definition fmul : float -> float -> float := SFmul prec emax.

(** [a / b] on two Python [int]s ([long_true_divide]): the exact quotient
    rounded once.  Only called with [b <> 0].  Iterating a pandas
    [Series], as [counts.items()] and [zip(x, y)] do, yields Python
    scalars, so every division of the two scripts is this one. *)
Definition int_truediv (a b : Z) : float :=
  match a with
  | Z0 => S754_zero (b <? 0)
  | _ => fdiv (S754_finite (a <? 0) (Z.to_pos (Z.abs a)) 0)
              (S754_finite (b <? 0) (Z.to_pos (Z.abs b)) 0)
  end.

(** Round the quotient [n / d] ([d > 0]) to the nearest integer, ties to
    even. *)
Definition round_half_even (n d : Z) : Z :=
  let q := n / d in
  match (2 * (n mod d) ?= d) with
  | Lt => q
  | Gt => q + 1
  | Eq => if Z.even q then q else q + 1
  end.

(** [|x| * 10^digits] rounded to an integer, for [|x| = m * 2^e]. *)
Definition scaled_round (digits : nat) (m : positive) (e : Z) : Z :=
  if 0 <=? e then Z.pos m * 2 ^ e * 10 ^ Z.of_nat digits
  else round_half_even (Z.pos m * 10 ^ Z.of_nat digits) (2 ^ (- e)).

Fixpoint zeros (n : nat) : string :=
  match n with O => "" | S n' => String "0" (zeros n') end.

(** Left-pad a digit string with zeros up to [width] characters. *)
Definition zfill (width : nat) (s : string) : string :=
  zeros (width - String.length s) +:+ s.

Definition sign_str (s : bool) : string := if s then "-" else "".

(** The fixed-point rendering of a non-negative integer [n] standing for
    [n / 10^digits]. *)
Definition fixed_point (digits : nat) (n : Z) : string :=
  let p := 10 ^ Z.of_nat digits in
  str_int (n / p) +:+
  match digits with
  | O => ""
  | _ => "." +:+ zfill digits (str_int (n mod p))
  end.

(** [f"{x:.Nf}"]: correctly rounded (ties to even on the exact binary
    value), sign kept also when the digits are all zero. *)
Definition format_f (digits : nat) (x : float) : string :=
  match x with
  | S754_nan => "nan"
  | S754_infinity s => sign_str s +:+ "inf"
  | S754_zero s => sign_str s +:+ fixed_point digits 0
  | S754_finite s m e => sign_str s +:+ fixed_point digits (scaled_round digits m e)
  end.

(** *** [repr(x)]: the shortest decimal string that reads back as [x] *)

(** [m * 2^e] with [m] odd: the same value, trailing zero bits moved into
    the exponent. *)
Fixpoint strip_twos (m : positive) (e : Z) : positive * Z :=
  match m with
  | xO p => strip_twos p (e + 1)
  | _ => (m, e)
  end.

(** A finite value in canonical form: 53 significant bits, or exponent
    [-1074] for subnormals. *)
Definition canonical (m : positive) (e : Z) : positive * Z :=
  let '(m1, e1) := strip_twos m e in
  shl_align m1 e1 (fexp prec emax (Z.pos (digits2_pos m1) + e1)).

(** [10^k <= m * 2^e]. *)
Definition ge_pow10 (m : positive) (e k : Z) : bool :=
  10 ^ Z.max k 0 * 2 ^ Z.max (- e) 0 <=? Z.pos m * 2 ^ Z.max e 0 * 10 ^ Z.max (- k) 0.

(** The decimal exponent of the leading digit of [m * 2^e]. *)
Definition log10_floor (m : positive) (e : Z) : Z :=
  let k0 := (Z.log2 (Z.pos m) + e) * 30103 / 100000 in
  if ge_pow10 m e (k0 + 1) then k0 + 1
  else if ge_pow10 m e k0 then k0 else k0 - 1.

(** The multiple of [10^k] closest to [x = m * 2^e] among those that round
    to [x] when read back, if there is one.  The interval of such numbers
    ends at the midpoints between [x] and its two neighbours; the ends
    belong to it when [m] is even. *)
Definition repr_candidate (m : positive) (e k : Z) : option Z :=
  let s := e - 2 in
  let up := 2 ^ Z.max s 0 in
  let den := 2 ^ Z.max (- s) 0 in
  let x4 := 4 * Z.pos m in
  let lo4 := if (Z.pos m =? 2 ^ 52) && (-1074 <? e) then x4 - 1 else x4 - 2 in
  let hi4 := x4 + 2 in
  let p := 10 ^ Z.max (- k) 0 in
  let q := den * 10 ^ Z.max k 0 in
  let xs := x4 * up * p in
  let ls := lo4 * up * p in
  let hs := hi4 * up * p in
  let a := xs / q in
  let inside c :=
    (ls <? c) && (c <? hs) || Z.even (Z.pos m) && ((c =? ls) || (c =? hs)) in
  let ca := a * q in
  let cb := (a + 1) * q in
  match inside ca, inside cb with
  | true, true =>
      Some match (xs - ca ?= cb - xs) with
           | Lt => a
           | Gt => a + 1
           | Eq => if Z.even a then a else a + 1
           end
  | true, false => Some a
  | false, true => Some (a + 1)
  | false, false => None
  end.

(** Try 1, 2, ... significant digits: the unit goes down from [10^k]. *)
Fixpoint shortest_from (fuel : nat) (m : positive) (e k : Z) : Z * Z :=
  match fuel with
  | O => (round_half_even (Z.pos m * 2 ^ Z.max e 0 * 10 ^ Z.max (- k) 0)
                          (2 ^ Z.max (- e) 0 * 10 ^ Z.max k 0), k)
  | S fuel' =>
      match repr_candidate m e k with
      | Some c => (c, k)
      | None => shortest_from fuel' m e (k - 1)
      end
  end.

Fixpoint strip_zeros (fuel : nat) (c k : Z) : Z * Z :=
  match fuel with
  | O => (c, k)
  | S fuel' => if (c mod 10 =? 0) && negb (c =? 0)
               then strip_zeros fuel' (c / 10) (k + 1) else (c, k)
  end.

(** Digits and the position of the decimal point, as [dtoa] returns them. *)
Definition shortest_digits (m : positive) (e : Z) : string * Z :=
  let '(m', e') := canonical m e in
  let '(c, k) := shortest_from 16 m' e' (log10_floor m' e') in
  let '(c', k') := strip_zeros 17 c k in
  let ds := str_int c' in
  (ds, Z.of_nat (String.length ds) + k').

(** The layout [float.__repr__] gives to the digits. *)
Definition repr_layout (ds : string) (decpt : Z) : string :=
  let nd := Z.of_nat (String.length ds) in
  if (decpt <=? -4) || (16 <? decpt) then
    let ex := decpt - 1 in
    substring 0 1 ds +:+
    (if 1 <? nd then "." +:+ substring 1 (String.length ds - 1) ds else "") +:+
    "e" +:+ (if ex <? 0 then "-" else "+") +:+ zfill 2 (str_int (Z.abs ex))
  else if decpt <=? 0 then "0." +:+ zeros (Z.to_nat (- decpt)) +:+ ds
  else if nd <=? decpt then ds +:+ zeros (Z.to_nat (decpt - nd)) +:+ ".0"
  else substring 0 (Z.to_nat decpt) ds +:+ "." +:+
       substring (Z.to_nat decpt) (Z.to_nat (nd - decpt)) ds.

(** [repr(x)], which is also [str(x)], for a [float]. *)
Definition repr_float (x : float) : string :=
  match x with
  | S754_nan => "nan"
  | S754_infinity s => sign_str s +:+ "inf"
  | S754_zero s => sign_str s +:+ "0.0"
  | S754_finite s m e =>
      let '(ds, decpt) := shortest_digits m e in
      sign_str s +:+ repr_layout ds decpt
  end.

End PyNum.

(* ===================================================================== *)
(** ** Python values *)
(* ===================================================================== *)

Module Py.
Import PyNum.

(** The hashable values: what [json.load] yields below lists and objects,
    and what a pandas cell holds ([NaN] is the float [S754_nan]). *)
Inductive scalar :=
  | SNone
  | SBool (b : bool)
  | SInt (z : Z)
  | SFloat (x : float)
  | SStr (s : string).

(** A value returned by [json.load].  An object is the list of its items
    in insertion order; keys are strings. *)
Inductive json :=
  | JScalar (a : scalar)
  | JList (l : list json)
  | JDict (d : list (string * json)).

Definition JNone : json := JScalar SNone.

(** [type(v)] as it prints. *)
Definition type_name (v : json) : string :=
  match v with
  | JScalar SNone => "NoneType"
  | JScalar (SBool _) => "bool"
  | JScalar (SInt _) => "int"
  | JScalar (SFloat _) => "float"
  | JScalar (SStr _) => "str"
  | JList _ => "list"
  | JDict _ => "dict"
  end.

(** [str(type(v))], as an f-string renders [{type(data)}]. *)
Definition type_repr (v : json) : string :=
  "<class '" +:+ type_name v +:+ "'>".

(** [d.get(key)]: the value stored under [key], or [None]. *)
Fixpoint dict_get (d : list (string * json)) (key : string) : json :=
  match d with
  | [] => JNone
  | (k, v) :: d' => if decide (k = key) then v else dict_get d' key
  end.

(** *** Dictionary keys

    Two hashable values are the same dictionary key when they are equal
    under [==] (and have equal hashes): [True], [1] and [1.0] are one key,
    [1] and ["1"] are two.  [key_of] maps a value to the class it belongs
    to: numbers go to their exact value [m * 2^e] with [m] odd.  The
    decoder returns one and the same object for every [NaN] of a JSON
    file, and pandas groups all [NaN] when [dropna=False], so [NaN] is a
    class of its own. *)
Inductive key :=
  | KNone
  | KNum (m e : Z)
  | KInf (neg : bool)
  | KNaN
  | KStr (s : string).

Global Instance key_eq_dec : EqDecision key.
Proof. solve_decision. Defined.

(** The class of the number [n * 2^e]. *)
Definition num_key (n e : Z) : key :=
  match n with
  | Z0 => KNum 0 0
  | Zpos p => let '(p', e') := strip_twos p e in KNum (Zpos p') e'
  | Zneg p => let '(p', e') := strip_twos p e in KNum (Zneg p') e'
  end.

(** The class of a hashable value. *)
Definition key_of (a : scalar) : key :=
  match a with
  | SNone => KNone
  | SBool b => num_key (if b then 1 else 0) 0
  | SInt z => num_key z 0
  | SFloat (S754_zero _) => KNum 0 0
  | SFloat (S754_infinity s) => KInf s
  | SFloat S754_nan => KNaN
  | SFloat (S754_finite s m e) => num_key (if s then Zneg m else Zpos m) e
  | SStr s => KStr s
  end.

(** [a] and [b] are the same dictionary key. *)
Definition same_key (a b : scalar) : Prop := key_of a = key_of b.

Global Instance same_key_dec a b : Decision (same_key a b).
Proof. unfold same_key. apply _. Defined.

(** [str(v)]. *)
Definition str (a : scalar) : string :=
  match a with
  | SNone => "None"
  | SBool b => if b then "True" else "False"
  | SInt z => str_int z
  | SFloat x => repr_float x
  | SStr s => s
  end.

(** A field as [csv.writer] writes it: [None] is the empty string, a
    string is itself, anything else is [str(v)]. *)
Definition csv_field (a : scalar) : string :=
  match a with
  | SNone => ""
  | _ => str a
  end.

(** *** [collections.Counter]

    The items of the counter in insertion order.  Counting an element adds
    one to the entry with the same key, or appends a new entry holding the
    element itself: the stored key is the first element of its class. *)
Abbreviation counter := (list (scalar * Z)).

Fixpoint counter_incr (a : scalar) (c : counter) : counter :=
  match c with
  | [] => [(a, 1%Z)]
  | (b, n) :: c' =>
      if decide (same_key b a) then (b, (n + 1)%Z) :: c'
      else (b, n) :: counter_incr a c'
  end.

(** Counting the elements of a list, left to right, into [c]. *)
Fixpoint count_elements (l : list scalar) (c : counter) : counter :=
  match l with
  | [] => c
  | a :: l' => count_elements l' (counter_incr a c)
  end.

Definition count_values (l : list scalar) : counter := count_elements l [].

(** [sum(counts.values())]. *)
Definition total_count (c : counter) : Z := foldr Z.add 0%Z (map snd c).

(** [Counter.most_common()] is
    [sorted(self.items(), key=itemgetter(1), reverse=True)].  The sort is
    stable, so entries with equal counts keep their insertion order;
    insertion into the sorted tail, after the entries with a larger count
    only, computes that order. *)
Fixpoint insert_by_count (x : scalar * Z) (l : counter) : counter :=
  match l with
  | [] => [x]
  | y :: l' => if (x.2 <? y.2)%Z then y :: insert_by_count x l' else x :: y :: l'
  end.

Fixpoint most_common (c : counter) : counter :=
  match c with
  | [] => []
  | x :: c' => insert_by_count x (most_common c')
  end.

(** *** What a counter holds, stated on the list that was counted *)

(** The number of elements of [l] that are the key [a]. *)
Definition occurrences (a : scalar) (l : list scalar) : Z :=
  Z.of_nat (length (filter (same_key a) l)).

(** The elements of [l] whose key is neither in [seen] nor the key of an
    earlier element, in the order of [l]. *)
Fixpoint first_occurrences (seen : list key) (l : list scalar) : list scalar :=
  match l with
  | [] => []
  | a :: l' =>
      if decide (key_of a ∈ seen) then first_occurrences seen l'
      else a :: first_occurrences (key_of a :: seen) l'
  end.

(** The position in [l] of the first element that is the key [a]. *)
Definition first_index (a : scalar) (l : list scalar) : option nat :=
  fst <$> list_find (same_key a) l.

End Py.

(* ===================================================================== *)
(** ** Exceptions, files and the monad of the scripts *)
(* ===================================================================== *)

Module Io.
Import PyNum Py.

(** The exceptions that reach the caller.  The scripts raise [ValueError]
    themselves; the others come from the libraries. *)
Inductive exn :=
  | ValueError (msg : string)
  | TypeError (msg : string)
  | FileNotFoundError (path : string)
  | JSONDecodeError (path : string)
  | ParserError (msg : string)
  | KeyError (key : string)
  | IndexError (msg : string).

Inductive outcome (A : Type) :=
  | Ok (a : A)
  | Raise (e : exn).
Arguments Ok {A} a.
Arguments Raise {A} e.

(** What a chart is made of: the arguments the scripts pass to matplotlib. *)
Record bar_chart := BarChart {
  bar_x : list string;
  bar_y : list Z;
  bar_xlabel : string;
  bar_ylabel : string;
  bar_title : string;
  bar_texts : list string
}.

Record pie_chart := PieChart {
  pie_sizes : list Z;
  pie_legend : list string;
  pie_legend_title : string;
  pie_title : string
}.

(** A file, by the reading its producer or its consumer gives it: the
    value [json.load] returns, the rows of fields of a CSV file, or an
    image. *)
Inductive file :=
  | JsonText (v : json)
  | CsvText (rows : list (list string))
  | BarPng (c : bar_chart)
  | PiePng (c : pie_chart).

Record fs := Fs {
  files : gmap string file;
  dirs : gset string
}.

(** A computation reads and changes the file system and either returns or
    raises; the file system as it is when the exception is raised is kept. *)
Definition M (A : Type) : Type := fs -> outcome A * fs.

(** [return a], [raise e], sequencing, and a pure step that may raise. *)
Definition ret {A} (a : A) : M A := fun s => (Ok a, s).
Definition raise {A} (e : exn) : M A := fun s => (Raise e, s).
Definition bind {A B} (m : M A) (k : A -> M B) : M B :=
  fun s => match m s with
           | (Ok a, s') => k a s'
           | (Raise e, s') => (Raise e, s')
           end.
Definition lift {A} (o : outcome A) : M A := fun s => (o, s).

Notation "x <- m ;; k" := (bind m (fun x => k))
  (at level 100, m at next level, right associativity).
Notation "m ;;; k" := (bind m (fun _ => k))
  (at level 100, right associativity).

(** [with path.open("r") as f: json.load(f)]. *)
Definition json_load (path : string) : M json :=
  fun s => match files s !! path with
           | Some (JsonText v) => (Ok v, s)
           | Some _ => (Raise (JSONDecodeError path), s)
           | None => (Raise (FileNotFoundError path), s)
           end.

(** [out_dir.mkdir(parents=True, exist_ok=True)]: the directory exists
    afterwards; nothing happens when it already does. *)
Definition mkdir (dir : string) : M unit :=
  fun s => (Ok tt, Fs (files s) ({[dir]} ∪ dirs s)).

(** Opening [path] with mode ["w"] and writing the content: an existing
    file is replaced. *)
Definition write_file (path : string) (f : file) : M unit :=
  fun s => (Ok tt, Fs (<[path := f]> (files s)) (dirs s)).

(** *** Paths ([pathlib.Path] as its string) *)

(** [dir / name]. *)
Definition path_join (dir name : string) : string := dir +:+ "/" +:+ name.

(** The text before the last occurrence of [c] and the text after it. *)
Fixpoint rsplit (c : ascii) (s : string) : option (string * string) :=
  match s with
  | EmptyString => None
  | String a s' =>
      match rsplit c s' with
      | Some (l, r) => Some (String a l, r)
      | None => if decide (a = c) then Some ("", s') else None
      end
  end.

(** [path.parent] with its separator, and [path.name]. *)
Definition path_split (path : string) : string * string :=
  match rsplit "/" path with
  | Some (d, n) => (d +:+ "/", n)
  | None => ("", path)
  end.

(** [name] cut before its last suffix.  A leading or a trailing dot does
    not start a suffix. *)
Definition name_stem (name : string) : string :=
  match rsplit "." name with
  | Some (l, r) => if decide (l = "" ∨ r = "") then name else l
  | None => name
  end.

(** [path.stem]. *)
Definition path_stem (path : string) : string := name_stem (path_split path).2.

(** [path.with_suffix(suffix)]. *)
Definition with_suffix (path suffix : string) : string :=
  let '(d, n) := path_split path in d +:+ name_stem n +:+ suffix.

End Io.

(* ===================================================================== *)
(** ** The part of pandas the scripts call *)
(* ===================================================================== *)

Module Pandas.
Import PyNum Py Io.

(** A [DataFrame]: the columns in order, each with its label and cells. *)
Abbreviation DataFrame := (list (string * list scalar)).

(** [list(df.columns)]. *)
Definition columns (df : DataFrame) : list string := map fst df.

(** [df[label]]. *)
Fixpoint getitem (df : DataFrame) (label : string) : outcome (list scalar) :=
  match df with
  | [] => Raise (KeyError label)
  | (c, cells) :: df' => if decide (c = label) then Ok cells else getitem df' label
  end.

(** [series.astype(str)]. *)
Definition astype_str (cells : list scalar) : list string := map str cells.

(** The functions whose result depends on pandas' parser, on its type
    inference and on the order in which it lists equal counts.  They are
    parameters of the scripts.
    - [read_csv]: [pd.read_csv] on the rows of a CSV file;
    - [value_counts]: [series.value_counts(dropna=False)], as the list of
      its [items()];
    - [astype_int]: [series.astype(int)]. *)
Record api := Api {
  read_csv : list (list string) -> outcome DataFrame;
  value_counts : list scalar -> list (scalar * Z);
  astype_int : list scalar -> outcome (list Z)
}.

(** What the scripts rely on: [value_counts] lists every distinct value
    once with the number of cells that hold it, in some order. *)
Definition value_counts_ok (pd : api) : Prop :=
  forall cells, value_counts pd cells ≡ₚ count_values cells.

(** [pd.read_csv(path)]. *)
Definition pd_read_csv (pd : api) (path : string) : M DataFrame :=
  fun s => match files s !! path with
           | Some (CsvText rows) => (read_csv pd rows, s)
           | Some _ => (Raise (ParserError path), s)
           | None => (Raise (FileNotFoundError path), s)
           end.

End Pandas.

(* ===================================================================== *)
(** ** Helpers shared by the two scripts *)
(* ===================================================================== *)

Module Common.
Import PyNum Py Io.

(** [template.format(column=c)] for a template whose only replacement
    field is [{column}]. *)
Fixpoint format_column_from (skip : nat) (template c : string) : string :=
  match template with
  | EmptyString => ""
  | String a t =>
      match skip with
      | S k => format_column_from k t c
      | O => if String.prefix "{column}" template
             then c +:+ format_column_from 7 t c
             else String a (format_column_from 0 t c)
      end
  end.

Definition format_column (template c : string) : string :=
  format_column_from 0 template c.

(** [sum] of a list of integers. *)
Definition sum_list (l : list Z) : Z := foldr Z.add 0%Z l.

(** A row as the scripts hand it to [writer.writerow]:
    [[value, int(count), f"{pct:.3f}"]]. *)
Abbreviation entry := (scalar * Z * string)%type.

Definition entry_value (r : entry) : scalar := r.1.1.
Definition entry_count (r : entry) : Z := r.1.2.
Definition entry_percent (r : entry) : string := r.2.

(** [writer.writerow(row)]: the three fields of the row in the file. *)
Definition writerow (r : entry) : list string :=
  [csv_field (entry_value r); str_int (entry_count r); entry_percent r].

(** A summary file: the header row and one row per entry. *)
Definition summary_file (field : string) (entries : list entry) : file :=
  CsvText ([field; "count"; "percent"] :: map writerow entries).

End Common.

(* ===================================================================== *)
(** ** scripts/utils/JsonDatasetDistribution.py *)
(* ===================================================================== *)

Module JsonDist.
Import PyNum Py Io Pandas Common.

Definition DEFAULT_BAR_TITLE_TEMPLATE : string :=
  "Distribution of the dataset after combining rare species into OTHERS".
Definition DEFAULT_PIE_TITLE_TEMPLATE : string :=
  "Distribution of the dataset after combining rare species into OTHERS".

(** The loop over the records (lines 69-75): [rec.get(key)] for a dict,
    [None] for anything else. *)
Definition extract (key : string) (rec : json) : json :=
  match rec with
  | JDict d => dict_get d key
  | _ => JNone
  end.

(** [Counter(values)] (line 77) hashes every value: a list or a dict among
    them raises [TypeError]. *)
Fixpoint hashable (values : list json) : outcome (list scalar) :=
  match values with
  | [] => Ok []
  | JScalar a :: vs =>
      match hashable vs with
      | Ok l => Ok (a :: l)
      | Raise e => Raise e
      end
  | v :: _ => Raise (TypeError ("unhashable type: '" +:+ type_name v +:+ "'"))
  end.

(** [pct] of line 89 and its rendering on line 90. *)
Definition percent (count total : Z) : string :=
  format_f 3 (if (0 <? total)%Z
              then fmul (int_truediv count total) (of_int 100)
              else S754_zero false).

(** The rows written by the loop of lines 88-90, with [total] of line 78. *)
Definition summary_entries (counts : counter) : list entry :=
  let total := total_count counts in
  map (fun '(value, count) => (value, count, percent count total))
      (most_common counts).

(** Lines 61-92. *)
Definition compute_key_distribution
    (json_path key out_dir : string) (output_name : option string) : M string :=
  data <- json_load json_path ;;
  match data with
  | JList recs =>
      let values := map (extract key) recs in
      scalars <- lift (hashable values) ;;
      let counts := count_values scalars in
      mkdir out_dir ;;;
      let output_name :=
        match output_name with
        | Some n => n
        | None => path_stem json_path +:+ "_" +:+ key +:+ "_distribution.csv"
        end in
      let out_path := path_join out_dir output_name in
      write_file out_path (summary_file key (summary_entries counts)) ;;;
      ret out_path
  | _ =>
      raise (ValueError ("Expected a list of records in " +:+ json_path
                         +:+ ", got " +:+ type_repr data))
  end.

Section WithPandas.
Context (pd : api).

(** Lines 113-157.  The drawing calls only record what they are given. *)
Definition plot_distribution
    (summary_csv : string) (value_column : option string)
    (out_png : option string) : M string :=
  df <- pd_read_csv pd summary_csv ;;
  let cols := columns df in
  if (length cols <? 2)%nat then
    raise (ValueError (summary_csv +:+ " must have at least two columns."))
  else
  value_column <-
    match value_column with
    | Some c => ret c
    | None => match cols with
              | c :: _ => ret c
              | [] => raise (IndexError "list index out of range")
              end
    end ;;
  if negb (bool_decide (value_column ∈ cols)) then
    raise (ValueError ("Column '" +:+ value_column +:+ "' not found in "
                       +:+ summary_csv))
  else if negb (bool_decide ("count" ∈ cols)) then
    raise (ValueError ("'count' column not found in " +:+ summary_csv))
  else
  let out_png :=
    match out_png with
    | Some p => p
    | None => with_suffix summary_csv ".png"
    end in
  xs <- lift (getitem df value_column) ;;
  let x := astype_str xs in
  ys <- lift (getitem df "count") ;;
  y <- lift (astype_int pd ys) ;;
  write_file out_png
    (BarPng {| bar_x := x; bar_y := y;
               bar_xlabel := value_column; bar_ylabel := "count";
               bar_title := format_column DEFAULT_BAR_TITLE_TEMPLATE value_column;
               bar_texts := map str_int y |}) ;;;
  ret out_png.

(** The legend of the pie chart (lines 223-226). *)
Definition legend_labels (x : list string) (y : list Z) (total : Z)
  : list string :=
  if (0 <? total)%Z then
    zip_with (fun name cnt =>
                name +:+ " (" +:+
                format_f 1 (fmul (int_truediv cnt total) (of_int 100)) +:+ "%)")
             x y
  else x.

(** The pie chart of [compute_and_plot_distribution], lines 210-241: the
    summary is read again, the wedges are drawn without labels and the
    legend is attached. *)
Definition plot_pie (summary_csv key pie_path : string) : M unit :=
  df <- pd_read_csv pd summary_csv ;;
  xs <- lift (getitem df key) ;;
  let x := astype_str xs in
  ys <- lift (getitem df "count") ;;
  y <- lift (astype_int pd ys) ;;
  let total := if (0 <? length y)%nat then sum_list y else 0%Z in
  write_file pie_path
    (PiePng {| pie_sizes := y;
               pie_legend := legend_labels x y total;
               pie_legend_title := key;
               pie_title := format_column DEFAULT_PIE_TITLE_TEMPLATE key |}).

(** Lines 185-243. *)
Definition compute_and_plot_distribution
    (json_path key out_dir : string)
    (output_name plot_name pie_name : option string)
  : M (string * string * string) :=
  summary_csv <- compute_key_distribution json_path key out_dir output_name ;;
  let bar_path := option_map (path_join out_dir) plot_name in
  bar_png <- plot_distribution summary_csv (Some key) bar_path ;;
  let pie_path :=
    match pie_name with
    | None => with_suffix summary_csv ".pie.png"
    | Some n => path_join out_dir n
    end in
  plot_pie summary_csv key pie_path ;;;
  ret (summary_csv, bar_png, pie_path).

End WithPandas.
End JsonDist.

(* ===================================================================== *)
(** ** scripts/utils/CsvDatasetDistribution.py *)
(* ===================================================================== *)

Module CsvDist.
Import PyNum Py Io Pandas Common.

Definition FOLDER_NAME : string := "test_split_distribution".
Definition DEFAULT_BAR_TITLE_TEMPLATE : string := FOLDER_NAME.
Definition DEFAULT_PIE_TITLE_TEMPLATE : string := FOLDER_NAME.

(** [pct] of line 82 and its rendering on line 83. *)
Definition percent (count total : Z) : string :=
  format_f 3 (if (0 <? total)%Z
              then fmul (int_truediv count total) (of_int 100)
              else S754_zero false).

(** The rows written by the loop of lines 81-83, for the items of
    [counts] in their order, with [total] of line 75. *)
Definition summary_entries (counts : list (scalar * Z)) : list entry :=
  let total := sum_list (map snd counts) in
  map (fun '(value, count) => (value, count, percent count total)) counts.

Section WithPandas.
Context (pd : api).

(** Lines 60-85. *)
Definition compute_column_distribution
    (csv_path column out_dir : string) (output_name : option string) : M string :=
  df <- pd_read_csv pd csv_path ;;
  if negb (bool_decide (column ∈ columns df)) then
    raise (ValueError ("Column '" +:+ column +:+ "' not found in " +:+ csv_path))
  else
  mkdir out_dir ;;;
  let output_name :=
    match output_name with
    | Some n => n
    | None => path_stem csv_path +:+ "_" +:+ column +:+ "_distribution.csv"
    end in
  let out_path := path_join out_dir output_name in
  cells <- lift (getitem df column) ;;
  let counts := value_counts pd cells in
  write_file out_path (summary_file column (summary_entries counts)) ;;;
  ret out_path.

(** Lines 105-150.  The drawing calls only record what they are given. *)
Definition plot_distribution
    (summary_csv : string) (value_column : option string)
    (out_png : option string) : M string :=
  df <- pd_read_csv pd summary_csv ;;
  let cols := columns df in
  if (length cols <? 2)%nat then
    raise (ValueError (summary_csv +:+ " must have at least two columns."))
  else
  value_column <-
    match value_column with
    | Some c => ret c
    | None => match cols with
              | c :: _ => ret c
              | [] => raise (IndexError "list index out of range")
              end
    end ;;
  if negb (bool_decide (value_column ∈ cols)) then
    raise (ValueError ("Column '" +:+ value_column +:+ "' not found in "
                       +:+ summary_csv))
  else if negb (bool_decide ("count" ∈ cols)) then
    raise (ValueError ("'count' column not found in " +:+ summary_csv))
  else
  let out_png :=
    match out_png with
    | Some p => p
    | None => with_suffix summary_csv ".png"
    end in
  xs <- lift (getitem df value_column) ;;
  let x := astype_str xs in
  ys <- lift (getitem df "count") ;;
  y <- lift (astype_int pd ys) ;;
  write_file out_png
    (BarPng {| bar_x := x; bar_y := y;
               bar_xlabel := value_column; bar_ylabel := "count";
               bar_title := format_column DEFAULT_BAR_TITLE_TEMPLATE value_column;
               bar_texts := map str_int y |}) ;;;
  ret out_png.

(** The legend of the pie chart (lines 217-220). *)
Definition legend_labels (x : list string) (y : list Z) (total : Z)
  : list string :=
  if (0 <? total)%Z then
    zip_with (fun name cnt =>
                name +:+ " (" +:+
                format_f 1 (fmul (int_truediv cnt total) (of_int 100)) +:+ "%)")
             x y
  else x.

(** The pie chart of [compute_and_plot_distribution], lines 202-235: the
    summary is read again, the wedges are drawn without labels and the
    legend is attached. *)
Definition plot_pie (summary_csv column pie_path : string) : M unit :=
  df <- pd_read_csv pd summary_csv ;;
  xs <- lift (getitem df column) ;;
  let x := astype_str xs in
  ys <- lift (getitem df "count") ;;
  y <- lift (astype_int pd ys) ;;
  let total := if (0 <? length y)%nat then sum_list y else 0%Z in
  write_file pie_path
    (PiePng {| pie_sizes := y;
               pie_legend := legend_labels x y total;
               pie_legend_title := column;
               pie_title := format_column DEFAULT_PIE_TITLE_TEMPLATE column |}).

(** Lines 177-237. *)
Definition compute_and_plot_distribution
    (csv_path column out_dir : string)
    (output_name plot_name pie_name : option string)
  : M (string * string * string) :=
  summary_csv <- compute_column_distribution csv_path column out_dir output_name ;;
  let bar_path := option_map (path_join out_dir) plot_name in
  bar_png <- plot_distribution summary_csv (Some column) bar_path ;;
  let pie_path :=
    match pie_name with
    | None => with_suffix summary_csv ".pie.png"
    | Some n => path_join out_dir n
    end in
  plot_pie summary_csv column pie_path ;;;
  ret (summary_csv, bar_png, pie_path).

End WithPandas.
End CsvDist.

(* ===================================================================== *)
(** ** Reading a summary file back *)
(* ===================================================================== *)

(** The scripts write summaries and read them back only for plotting.
    This module says, in the words of the specification, what it is to
    re-read a written summary table and to re-aggregate its own count
    column by value. *)
Module Summary.
Import PyNum Py Io Common.

(** A data row of a summary file: the value text and the count. *)
Definition parse_row (row : list string) : option (string * Z) :=
  match row with
  | [v; c; _] => match parse_int c with
                 | Some n => Some (v, n)
                 | None => None
                 end
  | _ => None
  end.

(** The header and the data rows of a summary file. *)
Definition read_summary (rows : list (list string))
  : option (list string * list (string * Z)) :=
  match rows with
  | [] => None
  | header :: data =>
      match mapM parse_row data with
      | Some entries => Some (header, entries)
      | None => None
      end
  end.

(** Adding the count [n] of one row to the group of the value text [v];
    groups are kept in the order in which their texts first appear. *)
Fixpoint group_add (v : string) (n : Z) (g : list (string * Z))
  : list (string * Z) :=
  match g with
  | [] => [(v, n)]
  | (w, m) :: g' =>
      if decide (w = v) then (w, (m + n)%Z) :: g'
      else (w, m) :: group_add v n g'
  end.

Fixpoint group_rows (entries : list (string * Z)) (g : list (string * Z))
  : list (string * Z) :=
  match entries with
  | [] => g
  | (v, n) :: entries' => group_rows entries' (group_add v n g)
  end.

(** Re-aggregating the count column of a summary file by value: the
    counts of the rows with the same value text are added up and the
    percentages are computed anew, by [percent], from the new counts and
    their total. *)
Definition reaggregate (percent : Z -> Z -> string) (rows : list (list string))
  : option (list (list string)) :=
  match read_summary rows with
  | Some (header, entries) =>
      let groups := group_rows entries [] in
      let total := sum_list (map snd groups) in
      Some (header :: map (fun '(v, n) => [v; str_int n; percent n total]) groups)
  | None => None
  end.

(** What reading back makes of a written row. *)
Definition text_entry (r : entry) : string * Z :=
  (csv_field (entry_value r), entry_count r).

(** The value column of a summary file: the first field of every data
    row. *)
Definition value_texts (rows : list (list string)) : list string :=
  map (fun row => default "" (head row)) (tail rows).

End Summary.

(* ===================================================================== *)
(** ** A pandas to run the scripts with *)
(* ===================================================================== *)

Module PandasRef.
Import PyNum Py Io Pandas Common.

(** A cell read from text: empty is [NaN], an integer literal is an
    integer, anything else is the string itself. *)
Definition read_cell (s : string) : scalar :=
  if decide (s = "") then SFloat S754_nan
  else match parse_int s with
       | Some z => SInt z
       | None => SStr s
       end.

(** The [i]-th field of every row. *)
Definition field_column (i : nat) (rows : list (list string)) : list scalar :=
  map (fun row => read_cell (default "" (row !! i))) rows.

Definition read_csv (rows : list (list string)) : outcome DataFrame :=
  match rows with
  | [] => Raise (ParserError "No columns to parse from file")
  | header :: data => Ok (imap (fun i c => (c, field_column i data)) header)
  end.

(** Most frequent first, equal counts in the order of first appearance. *)
Definition value_counts (cells : list scalar) : list (scalar * Z) :=
  most_common (count_values cells).

Fixpoint astype_int (cells : list scalar) : outcome (list Z) :=
  match cells with
  | [] => Ok []
  | a :: cells' =>
      match a, astype_int cells' with
      | SInt z, Ok l => Ok (z :: l)
      | SBool b, Ok l => Ok ((if b then 1%Z else 0%Z) :: l)
      | (SInt _ | SBool _), Raise e => Raise e
      | _, _ => Raise (ValueError ("invalid literal for int(): " +:+ str a))
      end
  end.

Definition pandas : api := Api read_csv value_counts astype_int.

End PandasRef.

(* ===================================================================== *)
(** ** Vocabulary of the statements *)
(* ===================================================================== *)

Module Spec.
Import PyNum Py Io Pandas Common.

(** The entries partition the observations: every observation falls into
    exactly one entry, and the count of an entry is the number of
    observations that fall into it. *)
Definition partitions (observations : list scalar) (entries : list entry)
  : Prop :=
  sum_list (map entry_count entries) = Z.of_nat (length observations)
  /\ Forall (fun r => entry_count r = occurrences (entry_value r) observations)
            entries
  /\ NoDup (map (fun r => key_of (entry_value r)) entries)
  /\ forall a, a ∈ observations ->
               exists r, r ∈ entries /\ same_key (entry_value r) a.

(** The record has no value under [key]: it is a dict without the key, or
    no dict at all. *)
Definition lacks_key (key : string) (rec : json) : Prop :=
  match rec with
  | JDict d => key ∉ map fst d
  | _ => True
  end.

(** The count column does not increase from one row to the next. *)
Definition most_common_first (entries : list entry) : Prop :=
  Sorted (fun r1 r2 => (entry_count r2 <= entry_count r1)%Z) entries.

(** The keys of a counter, in its order. *)
Definition keys (c : counter) : list key := map (fun x => key_of x.1) c.

(** Counts are born at one and only grow. *)
Definition positive_counts (c : counter) : Prop :=
  Forall (fun x : scalar * Z => (0 < x.2)%Z) c.

(** [x] stands before [y] only if its count is not smaller. *)
Definition count_ge (x y : scalar * Z) : Prop := (y.2 <= x.2)%Z.

(** What counting [a] does to one entry. *)
Definition bump (a : scalar) (x : scalar * Z) : scalar * Z :=
  (x.1, (x.2 + (if decide (same_key x.1 a) then 1 else 0))%Z).

(** The path of the summary file. *)
Definition out_path_of (src field out_dir : string) (output_name : option string)
  : string :=
  path_join out_dir
    match output_name with
    | Some n => n
    | None => path_stem src +:+ "_" +:+ field +:+ "_distribution.csv"
    end.

(** The file system after a summary was written. *)
Definition fs_after (s : fs) (out_dir out_path : string) (f : file) : fs :=
  Fs (<[out_path := f]> (files s)) ({[out_dir]} ∪ dirs s).

(** The keys of a counter with their counts. *)
Definition key_counts_of (c : counter) : list (key * Z) :=
  map (fun x => (key_of x.1, x.2)) c.

(** A row by the key of its value. *)
Definition keyed_row (r : entry) : key * Z * string :=
  (key_of (entry_value r), entry_count r, entry_percent r).

(** The chart [plot_distribution] draws from the columns it read. *)
Definition bar_chart_of (title : string) (value_column : string)
    (xs : list scalar) (y : list Z) : bar_chart :=
  {| bar_x := astype_str xs; bar_y := y;
     bar_xlabel := value_column; bar_ylabel := "count";
     bar_title := title; bar_texts := map str_int y |}.

(** The paths of the two charts of [compute_and_plot_distribution]. *)
Definition bar_path_of (summary_csv out_dir : string) (plot_name : option string)
  : string :=
  match plot_name with
  | Some n => path_join out_dir n
  | None => with_suffix summary_csv ".png"
  end.

Definition pie_path_of (summary_csv out_dir : string) (pie_name : option string)
  : string :=
  match pie_name with
  | Some n => path_join out_dir n
  | None => with_suffix summary_csv ".pie.png"
  end.

(** What a successful run of [plot_distribution] leaves: the chart at
    [p], and nothing else changed. *)
Definition bar_written (title : string) (summary_csv : string)
    (value_column out_png : option string) (s : fs) (p : string) (s' : fs)
  : Prop :=
  p = match out_png with
      | Some q => q
      | None => with_suffix summary_csv ".png"
      end
  /\ dirs s' = dirs s
  /\ (forall q, q <> p -> files s' !! q = files s !! q)
  /\ exists chart,
       files s' !! p = Some (BarPng chart)
       /\ bar_title chart = title
       /\ bar_ylabel chart = "count"
       /\ (forall c, value_column = Some c -> bar_xlabel chart = c)
       /\ bar_texts chart = map str_int (bar_y chart).

(** What a successful run of [compute_and_plot_distribution] leaves: the
    output directory and three writes, the summary, the bar chart and the
    pie chart, in this order; both charts show the counts of one reading
    of the summary. *)
Definition pipeline_written (bar_title_is pie_title_is : string)
    (legend : list string -> list Z -> Z -> list string)
    (src field out_dir : string) (output_name plot_name pie_name : option string)
    (s : fs) (summary bar pie : string) (s' : fs) : Prop :=
  summary = out_path_of src field out_dir output_name
  /\ bar = bar_path_of summary out_dir plot_name
  /\ pie = pie_path_of summary out_dir pie_name
  /\ bar <> summary
  /\ dirs s' = {[out_dir]} ∪ dirs s
  /\ exists rows bc pc,
       files s'
       = <[pie := PiePng pc]>
           (<[bar := BarPng bc]>
              (<[summary := CsvText ([field; "count"; "percent"] :: rows)]>
                 (files s)))
       /\ bar_title bc = bar_title_is
       /\ pie_title pc = pie_title_is
       /\ bar_xlabel bc = field
       /\ pie_legend_title pc = field
       /\ pie_sizes pc = bar_y bc
       /\ pie_legend pc = legend (bar_x bc) (bar_y bc) (sum_list (bar_y bc)).

End Spec.

(* ===================================================================== *)
(** ** Vocabulary of the statements about floating point *)
(* ===================================================================== *)

Module FloatSpec.
Import PyNum.
Local Open Scope Z_scope.

(** The position of [P/Q] in [0,1): at [0], below, at or above one half. *)
Definition loc_of (P Q : Z) : location :=
  if P =? 0 then loc_Exact else loc_Inexact (2 * P ?= Q).

(** The round and sticky bits say where [P/Q] lies. *)
Definition bits_ok (P Q : Z) (r s : bool) : Prop :=
  r = (Q <=? 2 * P) /\ s = negb (P =? 0) && negb (2 * P =? Q).

(** The value [m * 2^e]. *)
Definition FQ (m e : Z) : Q := inject_Z m * 2 ^ e.

(** A quotient [c / t] as the scripts compute it: a positive normal
    number within half a unit in the last place of the exact quotient. *)
Definition div_ok (f : float) (c t : Z) : Prop :=
  exists m e,
    f = S754_finite false m e
    /\ 2 ^ 52 <= Z.pos m < 2 ^ 53
    /\ -200 <= e <= -8
    /\ (2 * Qabs (FQ (Z.pos m) e - inject_Z c / inject_Z t) <= 2 ^ e)%Q.

(** A decimal digit. *)
Definition is_digit (a : Ascii.ascii) : bool :=
  let n := Ascii.nat_of_ascii a in (48 <=? n)%nat && (n <=? 57)%nat.

(** Only decimal digits. *)
Fixpoint all_digits (s : string) : bool :=
  match s with
  | EmptyString => true
  | String a s' => is_digit a && all_digits s'
  end.

(** [s] is an integer part, a point and exactly [digits] decimal digits. *)
Definition has_decimals (digits : nat) (s : string) : Prop :=
  exists q frac,
    0 <= q /\ s = str_int q +:+ "." +:+ frac
    /\ String.length frac = digits /\ all_digits frac = true.

(** The fraction digits of [r], padded, are [digits] decimal digits. *)
Definition frac_ok (digits : nat) (r : Z) : bool :=
  (String.length (zfill digits (str_int r)) =? digits)%nat
  && all_digits (zfill digits (str_int r)).

(** [n / 10^digits] is a multiple of [10^-digits] nearest to the exact
    percentage [100 * c / t]. *)
Definition nearest_percent (digits : nat) (c t n : Z) : Prop :=
  0 <= n /\ 2 * Z.abs (n * t - 100 * 10 ^ Z.of_nat digits * c) <= t.

(** [s] is the percentage [100 * c / t] rendered with [digits] decimal
    digits. *)
Definition renders_percent (digits : nat) (c t : Z) (s : string) : Prop :=
  exists n, s = fixed_point digits n
            /\ has_decimals digits s
            /\ nearest_percent digits c t n.

End FloatSpec.

(* ===================================================================== *)
(** ** Sample inputs *)
(* ===================================================================== *)

Module Sample.
Import PyNum Py Io Pandas Common.

(** The JSON records [[{"k":"a"}, {"k":"a"}, {}, {"k":"b"}]]. *)
Definition json_records : list json :=
  [JDict [("k", JScalar (SStr "a"))]; JDict [("k", JScalar (SStr "a"))];
   JDict []; JDict [("k", JScalar (SStr "b"))]].

Definition json_fs : fs :=
  Fs {[ "data/m.json" := JsonText (JList json_records) ]} ∅.

(** The same source next to a summary left by an earlier run. *)
Definition json_fs_stale : fs :=
  Fs {[ "data/m.json" := JsonText (JList json_records);
        "out/m_k_distribution.csv" :=
          CsvText [["k"; "count"; "percent"]; ["z"; "9"; "100.000"]] ]}
     {[ "out" ]}.

(** A CSV file whose [species_name] column is [cat, dog, cat, bird]. *)
Definition csv_rows : list (list string) :=
  [["species_name"; "id"]; ["cat"; "1"]; ["dog"; "2"]; ["cat"; "3"];
   ["bird"; "4"]].

Definition csv_fs : fs := Fs {[ "data/s.csv" := CsvText csv_rows ]} ∅.

(** The summary of the CSV sample, and a summary whose counts are all 0. *)
Definition summary_rows : list (list string) :=
  [["species_name"; "count"; "percent"]; ["cat"; "2"; "50.000"];
   ["dog"; "1"; "25.000"]; ["bird"; "1"; "25.000"]].

Definition summary_fs : fs := Fs {[ "out/d.csv" := CsvText summary_rows ]} ∅.

(** A summary with the count column only. *)
Definition one_column_fs : fs :=
  Fs {[ "out/one.csv" := CsvText [["count"]; ["3"]; ["1"]] ]} ∅.

(** A JSON file that holds an object, not a list. *)
Definition json_object_fs : fs :=
  Fs {[ "data/o.json" := JsonText (JDict [("k", JScalar (SStr "a"))]) ]} ∅.

(** Records whose values are the number [1] and the string ["1"]. *)
Definition json_mixed_records : list json :=
  [JDict [("k", JScalar (SInt 1))]; JDict [("k", JScalar (SStr "1"))]].

Definition json_mixed_fs : fs :=
  Fs {[ "data/x.json" := JsonText (JList json_mixed_records) ]} ∅.

(** Records [[{"k":"a"}, {"k":["x"]}, {"k":{}}]]: the second value is a
    list, the third an object. *)
Definition json_unhashable_records : list json :=
  [JDict [("k", JScalar (SStr "a"))];
   JDict [("k", JList [JScalar (SStr "x")])];
   JDict [("k", JDict [])]].

Definition json_unhashable_fs : fs :=
  Fs {[ "data/u.json" := JsonText (JList json_unhashable_records) ]} ∅.

(** The empty list of records, and a CSV file with a header only. *)
Definition json_empty_fs : fs := Fs {[ "data/e.json" := JsonText (JList []) ]} ∅.

Definition csv_header_only_fs : fs :=
  Fs {[ "data/h.csv" := CsvText [["species_name"; "id"]] ]} ∅.

(** A CSV file whose [species_name] column is [cat, (empty), cat, (empty)]. *)
Definition csv_gaps_rows : list (list string) :=
  [["species_name"; "id"]; ["cat"; "1"]; [""; "2"]; ["cat"; "3"]; [""; "4"]].

Definition csv_gaps_fs : fs := Fs {[ "data/g.csv" := CsvText csv_gaps_rows ]} ∅.

(** Records that all hold the value ["a"]. *)
Definition json_single_records : list json :=
  [JDict [("k", JScalar (SStr "a"))]; JDict [("k", JScalar (SStr "a"))];
   JDict [("k", JScalar (SStr "a"))]].

Definition json_single_fs : fs :=
  Fs {[ "data/one.json" := JsonText (JList json_single_records) ]} ∅.

(** The records of [json_records] in the opposite order. *)
Definition json_shuffled_records : list json :=
  [JDict [("k", JScalar (SStr "b"))]; JDict [];
   JDict [("k", JScalar (SStr "a"))]; JDict [("k", JScalar (SStr "a"))]].

Definition json_shuffled_fs : fs :=
  Fs {[ "data/r.json" := JsonText (JList json_shuffled_records) ]} ∅.

(** The column of [csv_rows] as JSON records. *)
Definition json_species_records : list json :=
  [JDict [("species_name", JScalar (SStr "cat"))];
   JDict [("species_name", JScalar (SStr "dog"))];
   JDict [("species_name", JScalar (SStr "cat"))];
   JDict [("species_name", JScalar (SStr "bird"))]].

Definition json_species_fs : fs :=
  Fs {[ "data/s.json" := JsonText (JList json_species_records) ]} ∅.

End Sample.

(* ===================================================================== *)
(** * Properties *)
(* ===================================================================== *)

(** ** Facts about [Counter] and [most_common] *)

Module CounterFacts.
Import PyNum Py Spec.
Local Open Scope Z_scope.
Local Open Scope list_scope.

Lemma total_count_cons a n (c : counter) :
  total_count ((a, n) :: c) = n + total_count c.
Proof. reflexivity. Qed.

Lemma total_count_app (c1 c2 : counter) :
  total_count (c1 ++ c2) = total_count c1 + total_count c2.
Proof.
  induction c1 as [|[a n] c1 IH]; [reflexivity|].
  rewrite <- app_comm_cons, !total_count_cons, IH. lia.
Qed.

Lemma total_count_incr a c : total_count (counter_incr a c) = total_count c + 1.
Proof.
  induction c as [|[b n] c IH]; simpl; [reflexivity|].
  case_decide; rewrite !total_count_cons; [|rewrite IH]; lia.
Qed.

Lemma total_count_count_elements l c :
  total_count (count_elements l c) = total_count c + Z.of_nat (length l).
Proof.
  revert c. induction l as [|a l IH]; intros c; simpl; [lia|].
  rewrite IH, total_count_incr. lia.
Qed.

(** Every record is counted exactly once. *)
Lemma total_count_values l : total_count (count_values l) = Z.of_nat (length l).
Proof. unfold count_values. rewrite total_count_count_elements. reflexivity. Qed.

Lemma total_count_Permutation (c1 c2 : counter) :
  c1 ≡ₚ c2 -> total_count c1 = total_count c2.
Proof.
  induction 1 as [|[a n] c1 c2 _ IH|[a n] [b m] c|c1 c2 c3 _ IH1 _ IH2].
  - reflexivity.
  - rewrite !total_count_cons, IH. reflexivity.
  - rewrite !total_count_cons. lia.
  - congruence.
Qed.

Lemma positive_counts_incr a c :
  positive_counts c -> positive_counts (counter_incr a c).
Proof.
  unfold positive_counts.
  induction 1 as [|[b n] c Hn Hc IH]; simpl.
  - repeat constructor.
  - case_decide; constructor; simpl in *; auto; lia.
Qed.

Lemma positive_counts_count_elements l c :
  positive_counts c -> positive_counts (count_elements l c).
Proof.
  revert c. induction l as [|a l IH]; intros c Hc; simpl; [done|].
  by apply IH, positive_counts_incr.
Qed.

Lemma positive_counts_values l : positive_counts (count_values l).
Proof. apply positive_counts_count_elements. constructor. Qed.

(** *** [most_common] is a stable sort by decreasing count *)

Lemma insert_by_count_Permutation x l : insert_by_count x l ≡ₚ x :: l.
Proof.
  induction l as [|y l IH]; simpl; [done|].
  destruct (x.2 <? y.2); [|done].
  rewrite IH. apply Permutation_swap.
Qed.

Lemma most_common_Permutation c : most_common c ≡ₚ c.
Proof.
  induction c as [|x c IH]; simpl; [done|].
  by rewrite insert_by_count_Permutation, IH.
Qed.

Lemma insert_by_count_HdRel x y l :
  count_ge y x -> HdRel count_ge y l -> HdRel count_ge y (insert_by_count x l).
Proof.
  intros Hyx Hl. destruct l as [|z l]; simpl; [by constructor|].
  destruct (x.2 <? z.2); constructor; [by inversion Hl|done].
Qed.

Lemma insert_by_count_Sorted x l :
  Sorted count_ge l -> Sorted count_ge (insert_by_count x l).
Proof.
  induction 1 as [|y l Hl IH Hy]; simpl; [by repeat constructor|].
  destruct (x.2 <? y.2) eqn:Hxy.
  - constructor; [done|]. apply insert_by_count_HdRel; [|done].
    unfold count_ge. lia.
  - constructor; [by constructor|]. constructor. unfold count_ge. lia.
Qed.

Lemma most_common_Sorted c : Sorted count_ge (most_common c).
Proof.
  induction c as [|x c IH]; simpl; [constructor|].
  by apply insert_by_count_Sorted.
Qed.

Lemma most_common_StronglySorted c : StronglySorted count_ge (most_common c).
Proof.
  apply Sorted_StronglySorted; [|apply most_common_Sorted].
  intros x y z. unfold count_ge. lia.
Qed.

(** Stability: the entries with one given count come out in the order in
    which they went in. *)
Lemma insert_by_count_filter (n : Z) x l :
  filter (fun y : scalar * Z => y.2 = n) (insert_by_count x l)
  = filter (fun y : scalar * Z => y.2 = n) (x :: l).
Proof.
  induction l as [|y l IH]; cbn [insert_by_count]; [done|].
  destruct (x.2 <? y.2) eqn:Hxy; [|done].
  rewrite (filter_cons _ y), IH, !filter_cons.
  repeat case_decide; try done; lia.
Qed.

Lemma most_common_filter (n : Z) c :
  filter (fun y : scalar * Z => y.2 = n) (most_common c)
  = filter (fun y : scalar * Z => y.2 = n) c.
Proof.
  induction c as [|x c IH]; cbn [most_common]; [done|].
  by rewrite insert_by_count_filter, !filter_cons, IH.
Qed.

Lemma filter_sublist_mono {A} (P : A -> Prop) `{!forall x, Decision (P x)}
    (l1 l2 : list A) :
  l1 `sublist_of` l2 -> filter P l1 `sublist_of` filter P l2.
Proof.
  induction 1 as [|x l1 l2 _ IH|x l1 l2 _ IH]; rewrite ?filter_cons.
  - constructor.
  - case_decide; [by constructor|done].
  - case_decide; [by constructor|done].
Qed.

Lemma most_common_stable x y c :
  x.2 = y.2 -> [x; y] `sublist_of` most_common c -> [x; y] `sublist_of` c.
Proof.
  intros Hxy Hsub.
  apply (filter_sublist_mono (fun z : scalar * Z => z.2 = x.2)) in Hsub.
  rewrite most_common_filter in Hsub.
  rewrite !filter_cons, filter_nil in Hsub.
  rewrite decide_True in Hsub by done.
  rewrite decide_True in Hsub by done.
  etrans; [exact Hsub|]. apply sublist_filter.
Qed.

(** *** The counter of a list: first occurrences with their multiplicity *)

Lemma occurrences_nil a : occurrences a [] = 0.
Proof. reflexivity. Qed.

Lemma occurrences_cons a b l :
  occurrences a (b :: l)
  = (if decide (same_key a b) then 1 else 0) + occurrences a l.
Proof.
  unfold occurrences. rewrite filter_cons.
  case_decide; simpl length; lia.
Qed.

Lemma occurrences_nonneg a l : 0 <= occurrences a l.
Proof. unfold occurrences. lia. Qed.

Lemma elem_of_keys a n c : (a, n) ∈ c -> key_of a ∈ keys c.
Proof. intros H. unfold keys. apply (list_elem_of_fmap_2 (fun x => key_of x.1) _ _ H). Qed.

Lemma keys_cons b n c : keys ((b, n) :: c) = key_of b :: keys c.
Proof. reflexivity. Qed.

Lemma counter_incr_notin a c :
  key_of a ∉ keys c -> counter_incr a c = c ++ [(a, 1)].
Proof.
  induction c as [|[b n] c IH]; cbn [counter_incr]; [done|].
  rewrite keys_cons, not_elem_of_cons. intros [Hne Hnotin].
  rewrite decide_False by (intros Hk; by apply Hne).
  by rewrite IH.
Qed.

Lemma bump_other a (c : counter) :
  key_of a ∉ keys c -> map (bump a) c = c.
Proof.
  induction c as [|[b n] c IH]; [done|].
  rewrite keys_cons, not_elem_of_cons. intros [Hne Hnotin].
  cbn [map]. rewrite IH by done.
  unfold bump at 1. cbn [fst snd].
  rewrite decide_False by (intros Hk; by apply Hne).
  by rewrite Z.add_0_r.
Qed.

Lemma counter_incr_in a c :
  NoDup (keys c) -> key_of a ∈ keys c -> counter_incr a c = map (bump a) c.
Proof.
  induction c as [|[b n] c IH]; cbn [counter_incr map].
  - by intros _ ?%elem_of_nil.
  - rewrite keys_cons, NoDup_cons, elem_of_cons. intros [Hb Hnd] Hin.
    unfold bump at 1. cbn [fst snd]. case_decide as Hk.
    + rewrite bump_other; [done|]. unfold same_key in Hk. by rewrite <- Hk.
    + rewrite Z.add_0_r. f_equal. apply IH; [done|].
      destruct Hin as [Hin|Hin]; [|done]. by destruct Hk.
Qed.

Lemma keys_bump a c : keys (map (bump a) c) = keys c.
Proof. unfold keys. rewrite map_map. reflexivity. Qed.

Lemma keys_app c1 c2 : keys (c1 ++ c2) = keys c1 ++ keys c2.
Proof. unfold keys. apply map_app. Qed.

Lemma first_occurrences_seen s1 s2 l :
  (forall k, k ∈ s1 <-> k ∈ s2) ->
  first_occurrences s1 l = first_occurrences s2 l.
Proof.
  revert s1 s2. induction l as [|a l IH]; intros s1 s2 Hs; [done|].
  cbn [first_occurrences].
  destruct (decide (key_of a ∈ s1)) as [H1|H1];
    destruct (decide (key_of a ∈ s2)) as [H2|H2];
    try (exfalso; apply Hs in H1 || apply Hs in H2; done).
  - by apply IH.
  - f_equal. apply IH. intros k. rewrite !elem_of_cons. by rewrite Hs.
Qed.

Lemma elem_of_first_occurrences a seen l :
  a ∈ first_occurrences seen l -> a ∈ l /\ key_of a ∉ seen.
Proof.
  revert seen. induction l as [|b l IH]; intros seen; cbn [first_occurrences].
  - by intros ?%elem_of_nil.
  - case_decide as Hb.
    + intros [??]%IH. split; [by right|done].
    + intros [->|Hin]%elem_of_cons; [split; [by left|done]|].
      apply IH in Hin as [? Hn]. split; [by right|].
      intros ?. apply Hn. by right.
Qed.

Lemma first_occurrences_fresh a seen l :
  a ∈ first_occurrences (key_of a :: seen) l -> False.
Proof. intros [_ Hn]%elem_of_first_occurrences. apply Hn. by left. Qed.

Lemma count_elements_spec l c :
  NoDup (keys c) ->
  count_elements l c
  = map (fun x => (x.1, x.2 + occurrences x.1 l)) c
    ++ map (fun a => (a, occurrences a l)) (first_occurrences (keys c) l).
Proof.
  revert c. induction l as [|a l IH]; intros c Hnd.
  - cbn [count_elements first_occurrences map]. rewrite app_nil_r.
    induction c as [|[b n] c IHc]; [done|].
    apply NoDup_cons in Hnd as [_ Hnd].
    cbn [map fst snd]. rewrite occurrences_nil, Z.add_0_r. f_equal. by apply IHc.
  - cbn [count_elements first_occurrences].
    destruct (decide (key_of a ∈ keys c)) as [Hin|Hnotin].
    + rewrite counter_incr_in by done.
      rewrite IH by (by rewrite keys_bump).
      rewrite keys_bump, map_map. f_equal.
      * apply map_ext. intros [b n]. unfold bump. cbn [fst snd].
        rewrite occurrences_cons. f_equal. lia.
      * apply map_ext_in. intros b Hb%list_elem_of_In.
        apply elem_of_first_occurrences in Hb as [_ Hb].
        rewrite occurrences_cons, decide_False; [done|].
        unfold same_key. intros Hk. apply Hb. by rewrite Hk.
    + rewrite counter_incr_notin by done.
      rewrite IH.
      2:{ rewrite keys_app. apply NoDup_app. split; [done|].
          split; [|apply NoDup_singleton].
          intros k Hk ->%list_elem_of_singleton. done. }
      rewrite map_app, <- app_assoc. cbn [map app fst snd]. f_equal.
      * apply map_ext_in. intros [b n] Hb%list_elem_of_In. cbn [fst snd].
        rewrite occurrences_cons, decide_False; [done|].
        unfold same_key. intros Hk. apply Hnotin. rewrite <- Hk.
        by apply elem_of_keys in Hb.
      * rewrite occurrences_cons, decide_True by done. f_equal.
        rewrite (first_occurrences_seen (keys (c ++ [(a, 1)])) (key_of a :: keys c)).
        2:{ intros k. rewrite keys_app, elem_of_app, elem_of_cons.
            cbn. rewrite list_elem_of_singleton. tauto. }
        apply map_ext_in. intros b Hb%list_elem_of_In.
        apply elem_of_first_occurrences in Hb as [_ Hb].
        rewrite occurrences_cons, decide_False; [done|].
        unfold same_key. intros Hk. apply Hb. rewrite Hk. by left.
Qed.

(** The counter holds the first occurrence of every key of the list, in
    the order of the list, with the number of its occurrences. *)
Lemma count_values_spec l :
  count_values l = map (fun a => (a, occurrences a l)) (first_occurrences [] l).
Proof.
  unfold count_values. rewrite count_elements_spec by constructor. reflexivity.
Qed.

Lemma first_occurrences_NoDup seen l :
  NoDup (map key_of (first_occurrences seen l)).
Proof.
  revert seen. induction l as [|a l IH]; intros seen; cbn [first_occurrences].
  - constructor.
  - case_decide; [apply IH|]. cbn [map]. apply NoDup_cons. split; [|apply IH].
    intros (b & Hk & Hb)%list_elem_of_fmap.
    apply elem_of_first_occurrences in Hb as [_ Hb]. apply Hb. rewrite Hk. by left.
Qed.

Lemma first_occurrences_complete a seen l :
  a ∈ l -> key_of a ∉ seen ->
  exists b, b ∈ first_occurrences seen l /\ key_of b = key_of a.
Proof.
  revert seen. induction l as [|x l IH]; intros seen; [by intros ?%elem_of_nil|].
  intros Hin Hseen. cbn [first_occurrences]. case_decide as Hx.
  - apply elem_of_cons in Hin as [->|Hin]; [done|]. by apply IH.
  - destruct (decide (key_of a = key_of x)) as [Hk|Hk].
    + exists x. split; [by left|done].
    + apply elem_of_cons in Hin as [->|Hin]; [done|].
      destruct (IH (key_of x :: seen) Hin) as (b & Hb & Hkb).
      { rewrite not_elem_of_cons. done. }
      exists b. split; [by right|done].
Qed.

Lemma keys_count_values_NoDup l : NoDup (keys (count_values l)).
Proof.
  rewrite count_values_spec. unfold keys. rewrite map_map. cbn [fst].
  apply first_occurrences_NoDup.
Qed.

(** *** The order of the entries is the order of first occurrence *)

Lemma first_index_cons a x l :
  first_index a (x :: l)
  = if decide (same_key a x) then Some 0%nat else S <$> first_index a l.
Proof.
  unfold first_index. cbn [list_find]. case_decide; [done|].
  by destruct (list_find (same_key a) l) as [[??]|].
Qed.

Lemma first_index_is_Some a l : a ∈ l -> is_Some (first_index a l).
Proof.
  intros Hin. unfold first_index. apply fmap_is_Some.
  by apply (list_find_elem_of _ _ a).
Qed.

Lemma first_occurrences_order a b seen l :
  [a; b] `sublist_of` first_occurrences seen l ->
  exists i j, first_index a l = Some i /\ first_index b l = Some j /\ (i < j)%nat.
Proof.
  revert seen. induction l as [|x l IH]; intros seen; cbn [first_occurrences].
  - by intros ?%sublist_nil_r.
  - intros Hsub.
    assert (forall seen', [a; b] `sublist_of` first_occurrences seen' l ->
                          key_of x ∈ seen' ->
            exists i j, first_index a (x :: l) = Some i
                        /\ first_index b (x :: l) = Some j /\ (i < j)%nat) as Hrec.
    { intros seen' Hsub' Hx.
      destruct (IH _ Hsub') as (i & j & Hi & Hj & Hij).
      assert (a ∈ first_occurrences seen' l) as [_ Ha]%elem_of_first_occurrences.
      { apply (sublist_subseteq _ _ Hsub'). by left. }
      assert (b ∈ first_occurrences seen' l) as [_ Hb]%elem_of_first_occurrences.
      { apply (sublist_subseteq _ _ Hsub'). right. by left. }
      exists (S i), (S j). rewrite !first_index_cons, Hi, Hj.
      rewrite !decide_False; [split_and!; [done..|lia]| |].
      - unfold same_key. intros Hk. apply Hb. by rewrite Hk.
      - unfold same_key. intros Hk. apply Ha. by rewrite Hk. }
    case_decide as Hx; [by apply (Hrec seen)|].
    apply sublist_cons_r in Hsub as [Hsub|(k & Hk & Hsub)].
    + apply (Hrec _ Hsub). by left.
    + injection Hk as <- <-.
      assert (b ∈ first_occurrences (key_of a :: seen) l) as Hb.
      { apply (sublist_subseteq _ _ Hsub). by left. }
      apply elem_of_first_occurrences in Hb as [Hbl Hb].
      destruct (first_index_is_Some b l Hbl) as [j Hj].
      exists 0%nat, (S j). rewrite !first_index_cons, Hj.
      rewrite decide_True by done. rewrite decide_False; [split_and!; [done..|lia]|].
      unfold same_key. intros Hk. apply Hb. rewrite Hk. by left.
Qed.

Lemma count_values_order a n b m l :
  [(a, n); (b, m)] `sublist_of` count_values l ->
  exists i j, first_index a l = Some i /\ first_index b l = Some j /\ (i < j)%nat.
Proof.
  intros Hsub. apply (first_occurrences_order a b []).
  apply (fmap_sublist fst) in Hsub.
  rewrite count_values_spec in Hsub.
  rewrite <- list_fmap_compose in Hsub. cbn in Hsub.
  by rewrite list_fmap_id in Hsub.
Qed.

End CounterFacts.

(** ** What a run of an aggregator does *)

Module RunFacts.
Import PyNum Py Io Pandas Common Spec.
Local Open Scope list_scope.

Lemma json_run json_path key out_dir output_name s recs scalars :
  files s !! json_path = Some (JsonText (JList recs)) ->
  JsonDist.hashable (map (JsonDist.extract key) recs) = Ok scalars ->
  JsonDist.compute_key_distribution json_path key out_dir output_name s
  = (Ok (out_path_of json_path key out_dir output_name),
     fs_after s out_dir (out_path_of json_path key out_dir output_name)
       (summary_file key (JsonDist.summary_entries (count_values scalars)))).
Proof.
  intros Hfile Hhash.
  unfold JsonDist.compute_key_distribution, bind, json_load.
  rewrite Hfile. unfold lift. rewrite Hhash.
  by destruct output_name.
Qed.

Lemma json_run_inv json_path key out_dir output_name s out_path s' :
  JsonDist.compute_key_distribution json_path key out_dir output_name s
  = (Ok out_path, s') ->
  exists recs scalars,
    files s !! json_path = Some (JsonText (JList recs))
    /\ JsonDist.hashable (map (JsonDist.extract key) recs) = Ok scalars
    /\ out_path = out_path_of json_path key out_dir output_name
    /\ s' = fs_after s out_dir out_path
              (summary_file key (JsonDist.summary_entries (count_values scalars))).
Proof.
  intros Hrun.
  destruct (files s !! json_path) as [[v| | |]|] eqn:Hfile;
    try (unfold JsonDist.compute_key_distribution, bind, json_load in Hrun;
         rewrite Hfile in Hrun; discriminate).
  destruct v as [a|recs|d];
    try (unfold JsonDist.compute_key_distribution, bind, json_load in Hrun;
         rewrite Hfile in Hrun; discriminate).
  destruct (JsonDist.hashable (map (JsonDist.extract key) recs)) as [scalars|e] eqn:Hhash.
  - rewrite (json_run _ _ _ _ _ _ _ Hfile Hhash) in Hrun.
    injection Hrun as <- <-. by exists recs, scalars.
  - unfold JsonDist.compute_key_distribution, bind, json_load, lift in Hrun.
    rewrite Hfile, Hhash in Hrun. discriminate.
Qed.

Lemma getitem_Ok_elem_of df label cells :
  getitem df label = Ok cells -> label ∈ columns df.
Proof.
  induction df as [|[c x] df IH]; cbn [getitem columns map fst]; [done|].
  case_decide as Hc; [intros _; subst; by left|].
  intros H. right. by apply IH.
Qed.

Lemma getitem_elem_of df label :
  label ∈ columns df -> exists cells, getitem df label = Ok cells.
Proof.
  induction df as [|[c x] df IH]; cbn [getitem columns map fst].
  - by intros ?%elem_of_nil.
  - intros Hin. case_decide as Hc; [by eexists|].
    apply elem_of_cons in Hin as [->|Hin]; [done|]. by apply IH.
Qed.

Lemma csv_run pd csv_path column out_dir output_name s rows df cells :
  files s !! csv_path = Some (CsvText rows) ->
  read_csv pd rows = Ok df ->
  getitem df column = Ok cells ->
  CsvDist.compute_column_distribution pd csv_path column out_dir output_name s
  = (Ok (out_path_of csv_path column out_dir output_name),
     fs_after s out_dir (out_path_of csv_path column out_dir output_name)
       (summary_file column (CsvDist.summary_entries (value_counts pd cells)))).
Proof.
  intros Hfile Hread Hcol.
  unfold CsvDist.compute_column_distribution, bind, pd_read_csv.
  rewrite Hfile, Hread.
  rewrite bool_decide_eq_true_2 by (by eapply getitem_Ok_elem_of).
  cbn [negb]. unfold lift. rewrite Hcol.
  by destruct output_name.
Qed.

Lemma csv_run_inv pd csv_path column out_dir output_name s out_path s' :
  CsvDist.compute_column_distribution pd csv_path column out_dir output_name s
  = (Ok out_path, s') ->
  exists rows df cells,
    files s !! csv_path = Some (CsvText rows)
    /\ read_csv pd rows = Ok df
    /\ getitem df column = Ok cells
    /\ out_path = out_path_of csv_path column out_dir output_name
    /\ s' = fs_after s out_dir out_path
              (summary_file column (CsvDist.summary_entries (value_counts pd cells))).
Proof.
  intros Hrun.
  destruct (files s !! csv_path) as [[|rows| |]|] eqn:Hfile;
    try (unfold CsvDist.compute_column_distribution, bind, pd_read_csv in Hrun;
         rewrite Hfile in Hrun; discriminate).
  destruct (read_csv pd rows) as [df|e] eqn:Hread;
    [|unfold CsvDist.compute_column_distribution, bind, pd_read_csv in Hrun;
      rewrite Hfile, Hread in Hrun; discriminate].
  destruct (decide (column ∈ columns df)) as [Hin|Hin].
  - destruct (getitem_elem_of _ _ Hin) as [cells Hcol].
    rewrite (csv_run _ _ _ _ _ _ _ _ _ Hfile Hread Hcol) in Hrun.
    injection Hrun as <- <-. by exists rows, df, cells.
  - unfold CsvDist.compute_column_distribution, bind, pd_read_csv in Hrun.
    rewrite Hfile, Hread in Hrun.
    rewrite bool_decide_eq_false_2 in Hrun by done. discriminate.
Qed.

End RunFacts.

(** ** From the counter to the rows of the summary *)

Module TableFacts.
Import PyNum Py Io Pandas Common Spec CounterFacts.
Local Open Scope Z_scope.
Local Open Scope list_scope.

Lemma json_entries_counts c :
  map fst (JsonDist.summary_entries c) = most_common c.
Proof.
  unfold JsonDist.summary_entries. rewrite map_map.
  erewrite map_ext; [apply map_id|]. by intros [??].
Qed.

Lemma csv_entries_counts c : map fst (CsvDist.summary_entries c) = c.
Proof.
  unfold CsvDist.summary_entries. rewrite map_map.
  erewrite map_ext; [apply map_id|]. by intros [??].
Qed.

Lemma entry_counts_total (entries : list entry) :
  sum_list (map entry_count entries) = total_count (map fst entries).
Proof. unfold total_count. by rewrite map_map. Qed.

Lemma count_values_occurrences l :
  Forall (fun x : scalar * Z => x.2 = occurrences x.1 l) (count_values l).
Proof.
  rewrite count_values_spec. apply Forall_forall.
  intros x (a & -> & _)%list_elem_of_fmap. reflexivity.
Qed.

Lemma count_values_complete a l :
  a ∈ l -> exists x, x ∈ count_values l /\ same_key x.1 a.
Proof.
  intros Hin.
  destruct (first_occurrences_complete a [] l Hin) as (b & Hb & Hk).
  { apply not_elem_of_nil. }
  exists (b, occurrences b l). split; [|done].
  rewrite count_values_spec.
  apply (list_elem_of_fmap_2 (fun a => (a, occurrences a l)) _ _ Hb).
Qed.

(** Any listing of the counter's items, in any order, partitions the list
    that was counted. *)
Lemma partitions_of_counts (l : list scalar) (entries : list entry) :
  map fst entries ≡ₚ count_values l -> partitions l entries.
Proof.
  intros Hperm. split_and!.
  - rewrite entry_counts_total, (total_count_Permutation _ _ Hperm).
    apply total_count_values.
  - apply Forall_forall. intros r Hr.
    assert (r.1 ∈ count_values l) as Hin.
    { rewrite <- Hperm. apply (list_elem_of_fmap_2 fst _ _ Hr). }
    apply (proj1 (Forall_forall _ _) (count_values_occurrences l)) in Hin.
    exact Hin.
  - assert (map (fun r : entry => key_of (entry_value r)) entries
            = keys (map fst entries)) as ->.
    { unfold keys. by rewrite map_map. }
    unfold keys. rewrite Hperm. apply keys_count_values_NoDup.
  - intros a Ha. destruct (count_values_complete a l Ha) as (x & Hx & Hk).
    rewrite <- Hperm in Hx. apply list_elem_of_fmap in Hx as (r & -> & Hr).
    by exists r.
Qed.

Lemma json_entries_partition l :
  partitions l (JsonDist.summary_entries (count_values l)).
Proof.
  apply partitions_of_counts. rewrite json_entries_counts.
  apply most_common_Permutation.
Qed.

Lemma csv_entries_partition pd l :
  value_counts_ok pd ->
  partitions l (CsvDist.summary_entries (value_counts pd l)).
Proof.
  intros Hpd. apply partitions_of_counts. rewrite csv_entries_counts. apply Hpd.
Qed.

(** The observations of the JSON aggregator, when all are hashable. *)
Lemma hashable_Ok values scalars :
  JsonDist.hashable values = Ok scalars -> values = map JScalar scalars.
Proof.
  revert scalars. induction values as [|v values IH]; intros scalars; cbn.
  - by intros [= <-].
  - destruct v as [a| |]; [|done..].
    destruct (JsonDist.hashable values) as [l|e]; [|done].
    intros [= <-]. cbn. f_equal. by apply IH.
Qed.

Lemma hashable_scalars scalars :
  JsonDist.hashable (map JScalar scalars) = Ok scalars.
Proof. induction scalars as [|a l IH]; cbn; [done|]. by rewrite IH. Qed.

Lemma fs_after_lookup s out_dir out_path f :
  files (fs_after s out_dir out_path f) !! out_path = Some f.
Proof. cbn. apply lookup_insert_eq. Qed.

End TableFacts.

(** ** The reference pandas meets what the scripts rely on *)

Module PandasRefFacts.
Import PyNum Py Io Pandas Common Spec CounterFacts.

Lemma pandas_value_counts_ok : value_counts_ok PandasRef.pandas.
Proof. intros cells. apply most_common_Permutation. Qed.

End PandasRefFacts.

(** ** Sorted rows, by position *)

Module OrderFacts.
Import PyNum Py Io Pandas Common Spec CounterFacts TableFacts.
Local Open Scope Z_scope.
Local Open Scope list_scope.

Lemma Sorted_map_inv {A B} (R : B -> B -> Prop) (f : A -> B) (l : list A) :
  Sorted R (map f l) -> Sorted (fun x y => R (f x) (f y)) l.
Proof.
  induction l as [|x l IH]; cbn [map]; intros Hs; [constructor|].
  apply Sorted_inv in Hs as [Hs Hhd]. constructor; [by apply IH|].
  destruct l as [|y l]; constructor. by apply HdRel_inv in Hhd.
Qed.

Lemma json_entries_most_common_first c :
  most_common_first (JsonDist.summary_entries c).
Proof.
  unfold most_common_first.
  apply (Sorted_map_inv count_ge fst).
  rewrite json_entries_counts. apply most_common_Sorted.
Qed.

(** A row further down never has a larger count. *)
Lemma most_common_first_lookup (entries : list entry) i j r1 r2 :
  most_common_first entries ->
  (i <= j)%nat -> entries !! i = Some r1 -> entries !! j = Some r2 ->
  entry_count r2 <= entry_count r1.
Proof.
  intros Hs. apply Sorted_StronglySorted in Hs.
  2:{ intros x y z ??. lia. }
  revert i j. induction Hs as [|r entries Hs IH Hall]; intros i j Hij Hi Hj.
  - by rewrite lookup_nil in Hi.
  - destruct i as [|i], j as [|j]; cbn in Hi, Hj; simplify_eq; try lia.
    + apply (proj1 (Forall_forall _ _) Hall).
      by apply list_elem_of_lookup_2 in Hj.
    + apply (IH i j); [lia|done..].
Qed.

(** Two positions of a list, in their order, are a sublist of it. *)
Lemma lookup_lt_sublist {A} (l : list A) i j x y :
  (i < j)%nat -> l !! i = Some x -> l !! j = Some y -> [x; y] `sublist_of` l.
Proof.
  revert i j. induction l as [|z l IH]; intros i j Hij Hi Hj.
  - by rewrite lookup_nil in Hi.
  - destruct i as [|i], j as [|j]; cbn in Hi, Hj; simplify_eq; try lia.
    + constructor. apply sublist_cons_l.
      apply list_elem_of_lookup_2, list_elem_of_split in Hj as (l1 & l2 & ->).
      exists l1, l2. split; [done|]. apply sublist_nil_l.
    + apply sublist_cons_r. left. apply (IH i j); [lia|done..].
Qed.

End OrderFacts.

(** ** Rows come from observations *)

Module RowFacts.
Import PyNum Py Io Pandas Common Spec CounterFacts TableFacts.
Local Open Scope Z_scope.
Local Open Scope list_scope.

Lemma count_values_elem x l :
  x ∈ count_values l -> 0 < x.2 /\ x.1 ∈ l.
Proof.
  intros Hx. split.
  - by apply (proj1 (Forall_forall _ _) (positive_counts_values l)).
  - rewrite count_values_spec in Hx.
    apply list_elem_of_fmap in Hx as (a & -> & Ha).
    by apply elem_of_first_occurrences in Ha as [? _].
Qed.

Lemma entries_of_counts_elem (l : list scalar) (entries : list entry) :
  map fst entries ≡ₚ count_values l ->
  Forall (fun r => 0 < entry_count r /\ entry_value r ∈ l) entries.
Proof.
  intros Hperm. apply Forall_forall. intros r Hr.
  apply (count_values_elem r.1 l). rewrite <- Hperm.
  apply (list_elem_of_fmap_2 fst _ _ Hr).
Qed.

End RowFacts.

(** ** The [None] bucket *)

Module NullFacts.
Import PyNum Py Io Pandas Common Spec CounterFacts TableFacts.
Local Open Scope list_scope.

Lemma dict_get_absent d key : key ∉ map fst d -> dict_get d key = JNone.
Proof.
  induction d as [|[k v] d IH]; cbn [dict_get map fst]; [done|].
  rewrite not_elem_of_cons. intros [Hne Hd].
  rewrite decide_False by done. by apply IH.
Qed.

Lemma lacks_key_extract key rec :
  lacks_key key rec -> JsonDist.extract key rec = JNone.
Proof. destruct rec as [a|l|d]; cbn; [done..|]. apply dict_get_absent. Qed.

Lemma strip_twos_pos p e : exists p' e', strip_twos p e = (p', e').
Proof. by destruct (strip_twos p e) as [p' e']; eauto. Qed.

Lemma num_key_not_None n e : num_key n e <> KNone.
Proof.
  destruct n as [|p|p]; cbn; [done| |];
    by destruct (strip_twos p e).
Qed.

(** Only [None] is the key [None]. *)
Lemma key_of_None a : key_of a = KNone -> a = SNone.
Proof.
  destruct a as [|b|z|x|str]; cbn; [done| | | |done].
  - by intros ?%num_key_not_None.
  - by intros ?%num_key_not_None.
  - destruct x as [sg|sg| |sg m e]; try done. by intros ?%num_key_not_None.
Qed.

Lemma observations_exist key recs :
  Forall (fun rec => lacks_key key rec
                     \/ exists a, JsonDist.extract key rec = JScalar a) recs ->
  exists observations, map (JsonDist.extract key) recs = map JScalar observations.
Proof.
  induction 1 as [|rec recs Hrec _ [obs IH]]; [by exists []|].
  destruct Hrec as [Hrec%lacks_key_extract|[a Ha]].
  - exists (SNone :: obs). cbn [map]. by rewrite Hrec, IH.
  - exists (a :: obs). cbn [map]. by rewrite Ha, IH.
Qed.

Lemma NoDup_fmap_elem_inj {A B} (f : A -> B) (l : list A) x y :
  NoDup (map f l) -> x ∈ l -> y ∈ l -> f x = f y -> x = y.
Proof.
  induction l as [|z l IH]; cbn [map]; [by intros _ ?%elem_of_nil|].
  rewrite NoDup_cons. intros [Hz Hnd] Hx Hy Hf.
  apply elem_of_cons in Hx as [->|Hx]; apply elem_of_cons in Hy as [->|Hy].
  - done.
  - destruct Hz. rewrite Hf. apply (list_elem_of_fmap_2 f _ _ Hy).
  - destruct Hz. rewrite <- Hf. apply (list_elem_of_fmap_2 f _ _ Hx).
  - by apply IH.
Qed.

End NullFacts.

(** ** Reading a summary back *)

Module SummaryFacts.
Import PyNum Py Io Pandas Common Spec Summary CounterFacts TableFacts.
Local Open Scope Z_scope.
Local Open Scope list_scope.

Lemma to_int_not_nil z :
  Z.to_int z <> Decimal.Pos Decimal.Nil /\ Z.to_int z <> Decimal.Neg Decimal.Nil.
Proof.
  destruct z as [|p|p]; cbn; split; try discriminate.
  - intros [= H]. by apply Unsigned.to_uint_nonnil in H.
  - intros [= H]. by apply Unsigned.to_uint_nonnil in H.
Qed.

(** A count written by [str] reads back as itself. *)
Lemma parse_int_str_int z : parse_int (str_int z) = Some z.
Proof.
  unfold parse_int, str_int.
  destruct (to_int_not_nil z) as [H1 H2].
  rewrite (NilZero.isi _ H1 H2). cbn. f_equal. apply DecimalZ.of_to.
Qed.

Lemma mapM_parse_rows (entries : list entry) :
  mapM parse_row (map writerow entries) = Some (map text_entry entries).
Proof.
  induction entries as [|r entries IH]; [done|].
  cbn [map mapM]. rewrite IH.
  unfold writerow at 1. cbn [parse_row]. rewrite parse_int_str_int. done.
Qed.

Lemma group_add_fresh v n g :
  v ∉ map fst g -> group_add v n g = g ++ [(v, n)].
Proof.
  induction g as [|[w m] g IH]; cbn [group_add map fst]; [done|].
  rewrite not_elem_of_cons. intros [Hne Hg].
  rewrite decide_False by done. by rewrite IH.
Qed.

Lemma group_rows_fresh es g :
  NoDup (map fst (g ++ es)) -> group_rows es g = g ++ es.
Proof.
  revert g. induction es as [|[v n] es IH]; intros g Hnd; cbn [group_rows].
  - by rewrite app_nil_r.
  - rewrite group_add_fresh.
    + rewrite IH; rewrite <- app_assoc; done.
    + rewrite map_app in Hnd. apply NoDup_app in Hnd as (_ & Hdisj & _).
      intros Hv. apply (Hdisj _ Hv). cbn. by left.
Qed.

(** A summary whose value texts are pairwise different and whose
    percentages are those of its own counts is a fixed point of
    re-aggregation. *)
Lemma reaggregate_summary percent field (entries : list entry) :
  NoDup (map (fun r => csv_field (entry_value r)) entries) ->
  Forall (fun r => entry_percent r
                   = percent (entry_count r) (sum_list (map entry_count entries)))
         entries ->
  reaggregate percent ([field; "count"; "percent"] :: map writerow entries)
  = Some ([field; "count"; "percent"] :: map writerow entries).
Proof.
  intros Hnd Hpct. unfold reaggregate, read_summary.
  rewrite mapM_parse_rows.
  rewrite group_rows_fresh.
  2:{ cbn [app]. rewrite map_map. exact Hnd. }
  cbn [app]. do 2 f_equal.
  rewrite !map_map. cbn [text_entry snd].
  apply map_ext_in. intros r Hr%list_elem_of_In.
  unfold writerow, text_entry. do 2 f_equal.
  rewrite (proj1 (Forall_forall _ _) Hpct r Hr). do 2 f_equal.
Qed.

Lemma value_texts_summary field (entries : list entry) :
  value_texts ([field; "count"; "percent"] :: map writerow entries)
  = map (fun r => csv_field (entry_value r)) entries.
Proof. unfold value_texts. cbn [tail]. by rewrite map_map. Qed.

Lemma json_entries_percent c :
  Forall (fun r => entry_percent r
                   = JsonDist.percent (entry_count r)
                       (sum_list (map entry_count (JsonDist.summary_entries c))))
         (JsonDist.summary_entries c).
Proof.
  rewrite entry_counts_total, json_entries_counts.
  rewrite (total_count_Permutation _ _ (most_common_Permutation c)).
  apply Forall_forall. intros r Hr. unfold JsonDist.summary_entries in Hr.
  apply list_elem_of_fmap in Hr as ([v n] & -> & _). reflexivity.
Qed.

Lemma csv_entries_percent c :
  Forall (fun r => entry_percent r
                   = CsvDist.percent (entry_count r)
                       (sum_list (map entry_count (CsvDist.summary_entries c))))
         (CsvDist.summary_entries c).
Proof.
  rewrite entry_counts_total, csv_entries_counts.
  apply Forall_forall. intros r Hr. unfold CsvDist.summary_entries in Hr.
  apply list_elem_of_fmap in Hr as ([v n] & -> & _). reflexivity.
Qed.

End SummaryFacts.

(** ** The pie chart *)

Module PieFacts.
Import PyNum Py Io Pandas Common Spec.
Local Open Scope list_scope.

(** [int(y.sum()) if len(y) > 0 else 0] is the sum of [y] in both cases. *)
Lemma pie_total (y : list Z) :
  (if (0 <? length y)%nat then sum_list y else 0%Z) = sum_list y.
Proof. by destruct y. Qed.

Lemma json_plot_pie_run pd summary_csv key pie_path s rows df xs ys y :
  files s !! summary_csv = Some (CsvText rows) ->
  read_csv pd rows = Ok df ->
  getitem df key = Ok xs ->
  getitem df "count" = Ok ys ->
  astype_int pd ys = Ok y ->
  JsonDist.plot_pie pd summary_csv key pie_path s
  = (Ok tt,
     Fs (<[pie_path :=
             PiePng {| pie_sizes := y;
                       pie_legend :=
                         JsonDist.legend_labels (astype_str xs) y (sum_list y);
                       pie_legend_title := key;
                       pie_title :=
                         format_column JsonDist.DEFAULT_PIE_TITLE_TEMPLATE key |}]>
           (files s))
        (dirs s)).
Proof.
  intros Hfile Hread Hxs Hys Hy.
  unfold JsonDist.plot_pie, bind, pd_read_csv, lift.
  rewrite Hfile, Hread, Hxs, Hys, Hy, pie_total. reflexivity.
Qed.

Lemma csv_plot_pie_run pd summary_csv column pie_path s rows df xs ys y :
  files s !! summary_csv = Some (CsvText rows) ->
  read_csv pd rows = Ok df ->
  getitem df column = Ok xs ->
  getitem df "count" = Ok ys ->
  astype_int pd ys = Ok y ->
  CsvDist.plot_pie pd summary_csv column pie_path s
  = (Ok tt,
     Fs (<[pie_path :=
             PiePng {| pie_sizes := y;
                       pie_legend :=
                         CsvDist.legend_labels (astype_str xs) y (sum_list y);
                       pie_legend_title := column;
                       pie_title :=
                         format_column CsvDist.DEFAULT_PIE_TITLE_TEMPLATE column |}]>
           (files s))
        (dirs s)).
Proof.
  intros Hfile Hread Hxs Hys Hy.
  unfold CsvDist.plot_pie, bind, pd_read_csv, lift.
  rewrite Hfile, Hread, Hxs, Hys, Hy, pie_total. reflexivity.
Qed.

End PieFacts.

(** ** Binary64 arithmetic: division, multiplication and the [.Nf] format *)

Module FloatFacts.
Import PyNum FloatSpec.
Local Open Scope Z_scope.

Lemma digits2_pos_log2 p : Z.pos (digits2_pos p) = Z.log2 (Z.pos p) + 1.
Proof.
  induction p as [p IH|p IH|]; cbn [digits2_pos]; try reflexivity.
  - rewrite Pos2Z.inj_succ, IH. cbn. destruct p; cbn; lia.
  - rewrite Pos2Z.inj_succ, IH. cbn. destruct p; cbn; lia.
Qed.

Lemma Zdigits2_log2 m : 0 < m -> Zdigits2 m = Z.log2 m + 1.
Proof. destruct m as [|p|p]; try lia. intros _. apply digits2_pos_log2. Qed.

Lemma fexp_normal e : -1074 <= e - 53 -> fexp prec emax e = e - 53.
Proof. unfold fexp, emin, prec, emax. lia. Qed.

Lemma iter_pos_nat {A} (f : A -> A) n x :
  SpecFloat.iter_pos f n x = Nat.iter (Pos.to_nat n) f x.
Proof.
  revert x. induction n as [n IH|n IH|]; intros x; cbn [SpecFloat.iter_pos].
  - rewrite !IH, Pos2Nat.inj_xI.
    replace (S (2 * Pos.to_nat n)) with (Pos.to_nat n + (Pos.to_nat n + 1))%nat by lia.
    rewrite !Nat.iter_add. reflexivity.
  - rewrite !IH, Pos2Nat.inj_xO.
    replace (2 * Pos.to_nat n)%nat with (Pos.to_nat n + Pos.to_nat n)%nat by lia.
    rewrite Nat.iter_add. reflexivity.
  - reflexivity.
Qed.

Lemma shr_1_nonneg m r s :
  0 <= m ->
  shr_1 (Build_shr_record m r s) = Build_shr_record (m / 2) (Z.odd m) (r || s).
Proof.
  intros Hm. destruct m as [|p|p]; [reflexivity| |lia].
  destruct p as [p|p|]; cbn [shr_1 Z.odd]; [| |reflexivity].
  - replace (Z.pos p~1 / 2) with (Z.pos p); [reflexivity|].
    rewrite Pos2Z.inj_xI. apply Z.div_unique with 1; lia.
  - replace (Z.pos p~0 / 2) with (Z.pos p); [reflexivity|].
    rewrite Pos2Z.inj_xO. apply Z.div_unique with 0; lia.
Qed.

Lemma shr_steps k m r s P Q :
  0 <= m -> 0 <= P < Q -> bits_ok P Q r s ->
  exists m' r' s' P',
    Nat.iter k shr_1 (Build_shr_record m r s) = Build_shr_record m' r' s'
    /\ m' = m / 2 ^ Z.of_nat k
    /\ 0 <= P' < 2 ^ Z.of_nat k * Q
    /\ m * Q + P = m' * (2 ^ Z.of_nat k * Q) + P'
    /\ bits_ok P' (2 ^ Z.of_nat k * Q) r' s'.
Proof.
  intros Hm HP Hbits. induction k as [|k IH].
  - exists m, r, s, P. cbn [Nat.iter Z.of_nat]. rewrite Z.pow_0_r, Z.div_1_r.
    repeat split; try lia. 1,2: destruct Hbits as [H1 H2]; rewrite ?Z.mul_1_l; assumption.
  - destruct IH as (m' & r' & s' & P' & Hiter & Hm' & HP' & Hval & [Hr Hs]).
    rewrite Nat.iter_succ, Hiter.
    assert (0 <= m') as Hm'0.
    { subst m'. apply Z.div_pos; [lia|]. apply Z.pow_pos_nonneg; lia. }
    rewrite shr_1_nonneg by assumption.
    set (Q' := 2 ^ Z.of_nat k * Q) in *.
    assert (2 ^ Z.of_nat (S k) * Q = 2 * Q') as HQ.
    { unfold Q'. rewrite Nat2Z.inj_succ, Z.pow_succ_r by lia. ring. }
    exists (m' / 2), (Z.odd m'), (r' || s'), ((m' mod 2) * Q' + P').
    rewrite HQ.
    assert (0 < Q') as HQ' by lia.
    pose proof (Z.mod_pos_bound m' 2 ltac:(lia)) as Hmod.
    pose proof (Z.div_mod m' 2 ltac:(lia)) as Hdm.
    split; [reflexivity|]. split.
    { subst m'. rewrite Z.div_div by (try apply Z.pow_pos_nonneg; lia).
      f_equal. rewrite Nat2Z.inj_succ, Z.pow_succ_r by lia. ring. }
    clearbody Q'. rewrite Zodd_mod.
    assert (m' mod 2 = 0 \/ m' mod 2 = 1) as [E|E] by lia; rewrite E in *.
    + rewrite Z.mul_0_l, Z.add_0_l. cbn [Z.eqb].
      split; [lia|]. split; [lia|]. split.
      * symmetry. apply Z.leb_gt. lia.
      * rewrite Hr, Hs.
        assert ((2 * P' =? 2 * Q') = false) as -> by (apply Z.eqb_neq; lia).
        rewrite andb_true_r.
        destruct (Z.eqb_spec P' 0), (Z.leb_spec Q' (2 * P')),
          (Z.eqb_spec (2 * P') Q'); cbn; try reflexivity; lia.
    + rewrite Z.mul_1_l. cbn [Z.eqb Pos.eqb].
      split; [lia|]. split; [lia|]. split.
      * symmetry. apply Z.leb_le. lia.
      * rewrite Hr, Hs.
        assert ((Q' + P' =? 0) = false) as -> by (apply Z.eqb_neq; lia).
        cbn [negb andb].
        destruct (Z.eqb_spec P' 0), (Z.leb_spec Q' (2 * P')),
          (Z.eqb_spec (2 * P') Q'), (Z.eqb_spec (2 * (Q' + P')) (2 * Q'));
          cbn; try reflexivity; lia.
Qed.

Lemma record_of_loc_bits m P Q :
  0 <= P < Q ->
  exists r s, shr_record_of_loc m (loc_of P Q) = Build_shr_record m r s
              /\ bits_ok P Q r s.
Proof.
  intros HP. unfold loc_of, bits_ok.
  destruct (Z.eqb_spec P 0) as [->|HP0].
  - exists false, false. split; [reflexivity|]. split.
    + symmetry. apply Z.leb_gt. lia.
    + reflexivity.
  - destruct (Z.compare_spec (2 * P) Q) as [E|E|E]; cbn [shr_record_of_loc].
    + exists true, false. split; [reflexivity|]. split.
      * symmetry. apply Z.leb_le. lia.
      * rewrite (proj2 (Z.eqb_eq _ _) E). reflexivity.
    + exists false, true. split; [reflexivity|]. split.
      * symmetry. apply Z.leb_gt. lia.
      * rewrite (proj2 (Z.eqb_neq _ _)) by lia. reflexivity.
    + exists true, true. split; [reflexivity|]. split.
      * symmetry. apply Z.leb_le. lia.
      * rewrite (proj2 (Z.eqb_neq _ _)) by lia. reflexivity.
Qed.

Lemma loc_of_record_bits m r s P Q :
  0 <= P < Q -> bits_ok P Q r s ->
  loc_of_shr_record (Build_shr_record m r s) = loc_of P Q.
Proof.
  intros HP [-> ->]. unfold loc_of.
  destruct (Z.eqb_spec P 0) as [->|HP0]; cbn [negb andb].
  - rewrite (proj2 (Z.leb_gt _ _)) by lia. reflexivity.
  - destruct (Z.compare_spec (2 * P) Q) as [E|E|E].
    + rewrite (proj2 (Z.leb_le _ _)) by lia.
      rewrite (proj2 (Z.eqb_eq _ _) E). reflexivity.
    + rewrite (proj2 (Z.leb_gt _ _)) by lia.
      rewrite (proj2 (Z.eqb_neq _ _)) by lia. reflexivity.
    + rewrite (proj2 (Z.leb_le _ _)) by lia.
      rewrite (proj2 (Z.eqb_neq _ _)) by lia. reflexivity.
Qed.

Lemma round_nearest_even_bound m P Q :
  0 <= P < Q ->
  m <= round_nearest_even m (loc_of P Q) <= m + 1
  /\ 2 * Z.abs (round_nearest_even m (loc_of P Q) * Q - (m * Q + P)) <= Q.
Proof.
  intros HP. unfold loc_of.
  destruct (Z.eqb_spec P 0) as [->|HP0]; cbn [round_nearest_even].
  - split; [lia|]. replace (m * Q - (m * Q + 0)) with 0 by ring. cbn. lia.
  - destruct (Z.compare_spec (2 * P) Q) as [E|E|E]; cbn [round_nearest_even].
    + destruct (Z.even m); (split; [lia|]).
      * replace (m * Q - (m * Q + P)) with (- P) by ring. lia.
      * replace ((m + 1) * Q - (m * Q + P)) with (Q - P) by ring. lia.
    + split; [lia|]. replace (m * Q - (m * Q + P)) with (- P) by ring. lia.
    + split; [lia|].
      replace ((m + 1) * Q - (m * Q + P)) with (Q - P) by ring. lia.
Qed.

Lemma shr_fexp_spec m e P Q :
  2 ^ 52 <= m -> -1074 <= e + Z.log2 m - 52 -> 0 <= P < Q ->
  exists m' r' s' P',
    shr_fexp prec emax m e (loc_of P Q)
    = (Build_shr_record m' r' s', e + (Z.log2 m - 52))
    /\ m' = m / 2 ^ (Z.log2 m - 52)
    /\ 0 <= P' < 2 ^ (Z.log2 m - 52) * Q
    /\ m * Q + P = m' * (2 ^ (Z.log2 m - 52) * Q) + P'
    /\ bits_ok P' (2 ^ (Z.log2 m - 52) * Q) r' s'.
Proof.
  intros Hm He HP.
  assert (0 < m) as Hm0 by lia.
  assert (52 <= Z.log2 m) as Hlog by (apply Z.log2_le_pow2; lia).
  destruct (record_of_loc_bits m P Q HP) as (r & s & Hrec & Hbits).
  destruct (shr_steps (Z.to_nat (Z.log2 m - 52)) m r s P Q ltac:(lia) HP Hbits)
    as (m' & r' & s' & P' & Hiter & Hm' & HP' & Hval & Hbits').
  rewrite !Z2Nat.id in Hm', HP', Hval, Hbits' by lia.
  exists m', r', s', P'. split; [|auto].
  unfold shr_fexp. rewrite Hrec, Zdigits2_log2 by assumption.
  rewrite fexp_normal by lia.
  replace (Z.log2 m + 1 + e - 53 - e) with (Z.log2 m - 52) by ring.
  unfold shr. destruct (Z.log2 m - 52) as [|p|p] eqn:Hn; [| |lia].
  - change (Z.to_nat 0) with 0%nat in Hiter.
    unfold Nat.iter in Hiter. cbn [nat_rect] in Hiter.
    rewrite Hiter. f_equal. lia.
  - rewrite iter_pos_nat.
    change (Z.to_nat (Z.pos p)) with (Pos.to_nat p) in Hiter.
    rewrite Hiter. reflexivity.
Qed.

(** Rounding a value [(mx + P/Q) * 2^ex] with at least 53 significant
    bits, neither subnormal nor too large, to nearest, ties to even. *)
Lemma binary_round_aux_correct sx mx ex P Q :
  2 ^ 52 <= mx -> 0 <= P < Q ->
  -1074 <= ex + Z.log2 mx - 52 -> ex + Z.log2 mx - 52 + 1 <= 971 ->
  exists m e,
    binary_round_aux prec emax sx mx ex (loc_of P Q) = S754_finite sx m e
    /\ 2 ^ 52 <= Z.pos m < 2 ^ 53
    /\ ex + Z.log2 mx - 52 <= e <= ex + Z.log2 mx - 52 + 1
    /\ 2 * Z.abs (Z.pos m * 2 ^ (e - ex) * Q - (mx * Q + P)) <= 2 ^ (e - ex) * Q
    /\ (P = 0 -> Z.log2 mx = 52 -> Z.pos m = mx /\ e = ex).
Proof.
  intros Hmx HP Hlo Hhi.
  assert (0 < mx) as Hmx0 by lia.
  assert (52 <= Z.log2 mx) as Hlog by (apply Z.log2_le_pow2; lia).
  set (n := Z.log2 mx - 52) in *.
  destruct (shr_fexp_spec mx ex P Q Hmx ltac:(fold n; lia) HP)
    as (m' & r' & s' & P' & Hshr & Hm' & HP' & Hval & Hbits).
  fold n in Hshr, Hm', HP', Hval, Hbits.
  assert (0 < 2 ^ n) as Hpn by (apply Z.pow_pos_nonneg; lia).
  assert (2 ^ 52 <= m' < 2 ^ 53) as Hm'r.
  { pose proof (Z.log2_spec mx Hmx0) as [Hl Hu].
    replace (Z.log2 mx) with (52 + n) in Hl by (unfold n; ring).
    replace (Z.succ (Z.log2 mx)) with (53 + n) in Hu by (unfold n; ring).
    rewrite Z.pow_add_r in Hl, Hu by lia.
    subst m'. split.
    - apply Z.div_le_lower_bound; [lia|]. lia.
    - apply Z.div_lt_upper_bound; [lia|]. lia. }
  unfold binary_round_aux. rewrite Hshr.
  rewrite (loc_of_record_bits _ _ _ _ _ HP' Hbits). cbn [shr_m].
  destruct (round_nearest_even_bound m' P' (2 ^ n * Q) HP') as [Hm1 Herr].
  set (m1 := round_nearest_even m' (loc_of P' (2 ^ n * Q))) in *.
  assert (2 ^ 52 <= m1 <= 2 ^ 53) as Hm1r by lia.
  assert (52 <= Z.log2 m1 <= 53) as Hlog1.
  { split; [apply Z.log2_le_pow2; lia|].
    destruct (Z.eq_dec m1 (2 ^ 53)) as [->|Hne]; [rewrite Z.log2_pow2; lia|].
    assert (Z.log2 m1 < 53); [apply Z.log2_lt_pow2; lia|lia]. }
  destruct (shr_fexp_spec m1 (ex + n) 0 1 ltac:(lia) ltac:(lia) ltac:(lia))
    as (m2 & r2 & s2 & P2 & Hshr2 & Hm2 & HP2 & Hval2 & _).
  change (loc_of 0 1) with loc_Exact in Hshr2. rewrite Hshr2. cbn [shr_m].
  assert (m1 = m2 * 2 ^ (Z.log2 m1 - 52) /\ 2 ^ 52 <= m2 < 2 ^ 53) as [Hm12 Hm2r].
  { destruct (Z.eq_dec (Z.log2 m1) 52) as [E|E].
    - rewrite E in *. change (2 ^ (52 - 52)) with 1 in *.
      rewrite Z.div_1_r in Hm2. subst m2. split; [lia|].
      split; [lia|]. apply Z.log2_lt_pow2; lia.
    - assert (Z.log2 m1 = 53) as E' by lia. rewrite E' in *.
      change (2 ^ (53 - 52)) with 2 in *.
      assert (2 ^ 53 <= m1) by (apply Z.log2_le_pow2; lia).
      assert (m1 = 2 ^ 53) as -> by lia.
      subst m2. change (2 ^ 53 / 2) with (2 ^ 52). split; [reflexivity|lia]. }
  destruct m2 as [|p2|p2]; [lia| |lia].
  set (n2 := Z.log2 m1 - 52) in *.
  assert (0 <= n2 <= 1) as Hn2 by (unfold n2; lia).
  rewrite (proj2 (Z.leb_le _ _)) by (unfold emax, prec; lia).
  exists p2, (ex + n + n2). split; [reflexivity|]. split; [assumption|].
  split; [lia|]. split.
  - replace (ex + n + n2 - ex) with (n + n2) by ring.
    rewrite Z.pow_add_r by lia.
    assert (0 < 2 ^ n2) as Hpn2 by (apply Z.pow_pos_nonneg; lia).
    replace (Z.pos p2 * (2 ^ n * 2 ^ n2) * Q) with (m1 * (2 ^ n * Q))
      by (rewrite Hm12; ring).
    rewrite Hval.
    assert (2 ^ n * Q <= 2 ^ n * 2 ^ n2 * Q) by nia.
    lia.
  - intros HP0 Hl52.
    assert (n = 0) as Hn0 by (unfold n; lia).
    rewrite Hn0 in *. change (2 ^ 0) with 1 in *.
    rewrite Z.div_1_r in Hm'. subst m'.
    assert (P' = 0) as -> by lia.
    assert (m1 = mx) as Hm1x.
    { unfold m1, loc_of. cbn [Z.eqb round_nearest_even]. reflexivity. }
    assert (n2 = 0) as Hn20.
    { unfold n2. rewrite Hm1x.
      assert (Z.log2 mx = 52); [|lia]. lia. }
    rewrite Hn20 in *. change (2 ^ 0) with 1 in Hm12. lia.
Qed.

Lemma new_location_loc_of nb k :
  0 <= k < nb -> new_location nb k = loc_of k nb.
Proof.
  intros Hk. unfold new_location, new_location_even, new_location_odd, loc_of.
  destruct (Z.even nb) eqn:Hev.
  - reflexivity.
  - destruct (Z.eqb_spec k 0); [reflexivity|]. f_equal.
    assert (Z.odd nb = true) as Hodd by (rewrite <- Z.negb_even, Hev; reflexivity).
    apply Z.odd_spec in Hodd as [h Hh].
    destruct (Z.compare_spec (2 * k + 1) nb), (Z.compare_spec (2 * k) nb);
      try reflexivity; lia.
Qed.

Lemma log2_bounds m : 0 < m -> 2 ^ Z.log2 m <= m < 2 ^ (Z.log2 m + 1).
Proof. intros H. apply (Z.log2_spec m H). Qed.

(** The quotient and the remainder [SFdiv] hands to the rounding: at least
    53 bits of quotient, and [m1 * 2^s = q * m2 + r]. *)
Lemma SFdiv_core_binary_spec m1 e1 m2 e2 :
  0 < m1 -> 0 < m2 ->
  let D := (Z.log2 m1 + e1) - (Z.log2 m2 + e2) in
  -1074 <= D - 53 ->
  exists q r e',
    SFdiv_core_binary prec emax m1 e1 m2 e2 = (q, e', loc_of r m2)
    /\ 0 <= r < m2
    /\ e' <= e1 - e2
    /\ m1 * 2 ^ (e1 - e2 - e') = q * m2 + r
    /\ 2 ^ 52 <= q
    /\ D - 1 <= e' + Z.log2 q <= D.
Proof.
  intros Hm1 Hm2 D HD.
  unfold SFdiv_core_binary.
  rewrite !Zdigits2_log2 by assumption.
  replace (Z.log2 m1 + 1 + e1 - (Z.log2 m2 + 1 + e2)) with D by (unfold D; ring).
  rewrite fexp_normal by assumption.
  set (e' := Z.min (D - 53) (e1 - e2)).
  set (s := e1 - e2 - e').
  assert (0 <= s) as Hs by (unfold s, e'; lia).
  assert (53 + Z.log2 m2 <= Z.log2 m1 + s) as Hbits by (unfold s, e', D; lia).
  assert ((match s with
           | 0 => m1
           | Z.pos _ => Z.shiftl m1 s
           | Z.neg _ => 0
           end) = m1 * 2 ^ s) as ->.
  { destruct s as [|p|p] eqn:Es; [rewrite Z.pow_0_r; ring| |lia].
    rewrite Z.shiftl_mul_pow2 by lia. reflexivity. }
  pose proof (Z_div_mod (m1 * 2 ^ s) m2 ltac:(lia)) as Hdiv.
  destruct (Z.div_eucl (m1 * 2 ^ s) m2) as [q r]. destruct Hdiv as [Hqr Hr].
  rewrite new_location_loc_of by assumption.
  pose proof (log2_bounds m1 Hm1) as [Hl1 Hu1].
  pose proof (log2_bounds m2 Hm2) as [Hl2 Hu2].
  pose proof (Z.log2_nonneg m1) as Hn1.
  pose proof (Z.log2_nonneg m2) as Hn2.
  assert (0 < 2 ^ s) as Hps by (apply Z.pow_pos_nonneg; lia).
  set (L := Z.log2 m1 + s - Z.log2 m2) in *.
  assert (53 <= L) as HL by (unfold L; lia).
  assert (2 ^ (Z.log2 m1 + s) = 2 ^ (L - 1) * 2 ^ (Z.log2 m2 + 1)) as Hsplit1.
  { rewrite <- Z.pow_add_r by lia. f_equal. unfold L. ring. }
  assert (2 ^ (Z.log2 m1 + 1 + s) = 2 ^ (L + 1) * 2 ^ Z.log2 m2) as Hsplit2.
  { rewrite <- Z.pow_add_r by lia. f_equal. unfold L. ring. }
  assert (2 ^ (Z.log2 m1 + s) <= m1 * 2 ^ s) as Hlow.
  { rewrite Z.pow_add_r by lia. nia. }
  assert (m1 * 2 ^ s < 2 ^ (Z.log2 m1 + 1 + s)) as Hup.
  { rewrite (Z.pow_add_r 2 (Z.log2 m1 + 1) s) by lia. nia. }
  assert (0 < 2 ^ (L - 1)) as HpL by (apply Z.pow_pos_nonneg; lia).
  assert (0 < 2 ^ (L + 1)) as HpL1 by (apply Z.pow_pos_nonneg; lia).
  assert (2 ^ (L - 1) <= q) as Hqlow.
  { assert (2 ^ (L - 1) < q + 1); [|lia].
    apply Z.mul_lt_mono_pos_r with (2 ^ (Z.log2 m2 + 1)); [lia|]. nia. }
  assert (q < 2 ^ (L + 1)) as Hqup.
  { apply Z.mul_lt_mono_pos_r with (2 ^ Z.log2 m2); [lia|]. nia. }
  assert (0 < q) as Hq0 by lia.
  exists q, r, e'. split; [reflexivity|]. split; [assumption|].
  split; [unfold e'; lia|]. split; [fold s; lia|]. split.
  - apply Z.le_trans with (2 ^ (L - 1)); [|assumption].
    apply Z.pow_le_mono_r; lia.
  - assert (L - 1 <= Z.log2 q) by (apply Z.log2_le_pow2; lia).
    assert (Z.log2 q < L + 1) by (apply Z.log2_lt_pow2; lia).
    unfold D. unfold L, s in *. lia.
Qed.

Lemma Qpow2_pos e : (0 < 2 ^ e)%Q.
Proof. apply Qpower_0_lt. reflexivity. Qed.

Lemma Qpow2_add a b : (2 ^ (a + b) == 2 ^ a * 2 ^ b)%Q.
Proof. apply Qpower_plus. discriminate. Qed.

Lemma Qpow2_sub a b : (2 ^ (a - b) == 2 ^ a / 2 ^ b)%Q.
Proof.
  unfold Z.sub. rewrite Qpow2_add, Qpower_opp. reflexivity.
Qed.

Lemma inject_Z_pow2 k : 0 <= k -> (inject_Z (2 ^ k) == 2 ^ k)%Q.
Proof.
  intros Hk. change 2%Q with (inject_Z 2). apply Zpower_Qpower. lia.
Qed.

Lemma Qpow2_mono a b : a <= b -> (2 ^ a <= 2 ^ b)%Q.
Proof. intros H. apply Qpower_le_compat_l; [lia|]. discriminate. Qed.

Lemma inject_Z_abs a : (inject_Z (Z.abs a) == Qabs (inject_Z a))%Q.
Proof.
  unfold Qabs, inject_Z. cbn. reflexivity.
Qed.

Lemma FQ_pos m e : 0 < m -> (0 < FQ m e)%Q.
Proof.
  intros H. unfold FQ. apply Qmult_lt_0_compat; [|apply Qpow2_pos].
  change 0%Q with (inject_Z 0). rewrite <- Zlt_Qlt. lia.
Qed.

(** From an integer bound to a bound on values, all scaled by [w]. *)
Lemma scaled_bound (A B C : Z) (w : Q) :
  (0 < w)%Q -> 2 * Z.abs (A - B) <= C ->
  (2 * Qabs (inject_Z A * w - inject_Z B * w) <= inject_Z C * w)%Q.
Proof.
  intros Hw H.
  assert (inject_Z A * w - inject_Z B * w == inject_Z (A - B) * w)%Q as ->.
  { unfold Z.sub. rewrite inject_Z_plus, inject_Z_opp. ring. }
  rewrite Qabs_Qmult, <- inject_Z_abs, (Qabs_pos w) by lra.
  rewrite Zle_Qle, inject_Z_mult in H.
  change (inject_Z 2) with 2%Q in H.
  apply (Qmult_le_compat_r _ _ w) in H; [|lra].
  lra.
Qed.

Lemma Qabs_scale (x u y : Q) :
  (0 < y)%Q -> (Qabs (x * y - u * y) == Qabs (x - u) * y)%Q.
Proof.
  intros Hy.
  assert (x * y - u * y == (x - u) * y)%Q as -> by ring.
  rewrite Qabs_Qmult, (Qabs_pos y) by lra. reflexivity.
Qed.

(** [x / y], correctly rounded: the result is within half a unit in the
    last place of any [u] with [u * y = x]. *)
Lemma fdiv_correct sx mx ex sy my ey (u : Q) :
  let D := (Z.log2 (Z.pos mx) + ex) - (Z.log2 (Z.pos my) + ey) in
  -1021 <= D <= 1022 ->
  (u * FQ (Z.pos my) ey == FQ (Z.pos mx) ex)%Q ->
  exists m e,
    SFdiv prec emax (S754_finite sx mx ex) (S754_finite sy my ey)
    = S754_finite (xorb sx sy) m e
    /\ 2 ^ 52 <= Z.pos m < 2 ^ 53
    /\ D - 53 <= e <= D - 51
    /\ (2 * Qabs (FQ (Z.pos m) e - u) <= 2 ^ e)%Q.
Proof.
  intros D HD Hu.
  destruct (SFdiv_core_binary_spec (Z.pos mx) ex (Z.pos my) ey
              ltac:(lia) ltac:(lia) ltac:(fold D; lia))
    as (q & r & e' & Hcore & Hr & He' & Hqr & Hq & Hlq).
  fold D in Hlq.
  destruct (binary_round_aux_correct (xorb sx sy) q e' r (Z.pos my) Hq Hr
              ltac:(lia) ltac:(lia))
    as (m & e & Hbra & Hm & He & Herr & _).
  exists m, e. cbn [SFdiv]. rewrite Hcore. split; [exact Hbra|].
  split; [exact Hm|]. split; [lia|].
  rewrite <- Hqr in Herr.
  pose proof (scaled_bound _ _ _ (2 ^ (e' + ey)) (Qpow2_pos _) Herr) as HQ.
  assert (52 <= Z.log2 q) as Hlog by (apply Z.log2_le_pow2; lia).
  assert (0 <= e - e') as Hk by lia.
  assert (0 <= ex - ey - e') as Hs by lia.
  assert (0 < FQ (Z.pos my) ey)%Q as HY by (apply FQ_pos; lia).
  assert (inject_Z (Z.pos m * 2 ^ (e - e') * Z.pos my) * 2 ^ (e' + ey)
          == FQ (Z.pos m) e * FQ (Z.pos my) ey)%Q as E1.
  { unfold FQ. rewrite !inject_Z_mult, inject_Z_pow2 by assumption.
    rewrite (Qpow2_add e' ey).
    assert (2 ^ e == 2 ^ (e - e') * 2 ^ e')%Q as ->
      by (rewrite <- Qpow2_add; f_equiv; ring).
    ring. }
  assert (inject_Z (Z.pos mx * 2 ^ (ex - ey - e')) * 2 ^ (e' + ey)
          == u * FQ (Z.pos my) ey)%Q as E2.
  { rewrite Hu. unfold FQ. rewrite inject_Z_mult, inject_Z_pow2 by assumption.
    assert (2 ^ ex == 2 ^ (ex - ey - e') * 2 ^ (e' + ey))%Q as ->
      by (rewrite <- Qpow2_add; f_equiv; ring).
    ring. }
  assert (inject_Z (2 ^ (e - e') * Z.pos my) * 2 ^ (e' + ey)
          == 2 ^ e * FQ (Z.pos my) ey)%Q as E3.
  { unfold FQ. rewrite inject_Z_mult, inject_Z_pow2 by assumption.
    rewrite (Qpow2_add e' ey).
    assert (2 ^ e == 2 ^ (e - e') * 2 ^ e')%Q as ->
      by (rewrite <- Qpow2_add; f_equiv; ring).
    ring. }
  rewrite E1, E2, E3, Qabs_scale in HQ by assumption.
  apply (Qmult_le_r _ _ (FQ (Z.pos my) ey)); [assumption|]. lra.
Qed.

(** [x * y], correctly rounded. *)
Lemma fmul_correct sx mx ex sy my ey :
  2 ^ 52 <= Z.pos mx * Z.pos my ->
  let E0 := ex + ey + Z.log2 (Z.pos mx * Z.pos my) - 52 in
  -1074 <= E0 -> E0 + 1 <= 971 ->
  exists m e,
    SFmul prec emax (S754_finite sx mx ex) (S754_finite sy my ey)
    = S754_finite (xorb sx sy) m e
    /\ 2 ^ 52 <= Z.pos m < 2 ^ 53
    /\ E0 <= e <= E0 + 1
    /\ (2 * Qabs (FQ (Z.pos m) e - FQ (Z.pos mx) ex * FQ (Z.pos my) ey)
        <= 2 ^ e)%Q.
Proof.
  intros Hbig E0 Hlo Hhi.
  destruct (binary_round_aux_correct (xorb sx sy) (Z.pos mx * Z.pos my)
              (ex + ey) 0 1 Hbig ltac:(lia) ltac:(fold E0; lia) ltac:(fold E0; lia))
    as (m & e & Hbra & Hm & He & Herr & _).
  change (loc_of 0 1) with loc_Exact in Hbra.
  exists m, e. cbn [SFmul]. change (Z.pos (mx * my)) with (Z.pos mx * Z.pos my).
  split; [exact Hbra|]. split; [exact Hm|]. split; [exact He|].
  assert (52 <= Z.log2 (Z.pos mx * Z.pos my)) as Hlog
    by (apply Z.log2_le_pow2; lia).
  assert (0 <= e - (ex + ey)) as Hk by lia.
  rewrite !Z.mul_1_r, Z.add_0_r in Herr.
  pose proof (scaled_bound _ _ _ (2 ^ (ex + ey)) (Qpow2_pos _) Herr) as HQ.
  assert (inject_Z (Z.pos m * 2 ^ (e - (ex + ey))) * 2 ^ (ex + ey)
          == FQ (Z.pos m) e)%Q as E1.
  { unfold FQ. rewrite inject_Z_mult, inject_Z_pow2 by assumption.
    assert (2 ^ e == 2 ^ (e - (ex + ey)) * 2 ^ (ex + ey))%Q as ->
      by (rewrite <- Qpow2_add; f_equiv; ring).
    ring. }
  assert (inject_Z (Z.pos mx * Z.pos my) * 2 ^ (ex + ey)
          == FQ (Z.pos mx) ex * FQ (Z.pos my) ey)%Q as E2.
  { unfold FQ. rewrite inject_Z_mult, Qpow2_add. ring. }
  assert (inject_Z (2 ^ (e - (ex + ey))) * 2 ^ (ex + ey) == 2 ^ e)%Q as E3.
  { rewrite inject_Z_pow2 by assumption. rewrite <- Qpow2_add. f_equiv. ring. }
  rewrite E1, E2, E3 in HQ. exact HQ.
Qed.

Lemma round_half_even_bound n d :
  0 < d -> 2 * Z.abs (round_half_even n d * d - n) <= d.
Proof.
  intros Hd. unfold round_half_even.
  pose proof (Z.div_mod n d ltac:(lia)) as Hdm.
  pose proof (Z.mod_pos_bound n d Hd) as Hmod.
  destruct (Z.compare_spec (2 * (n mod d)) d) as [E|E|E].
  - destruct (Z.even (n / d)); nia.
  - nia.
  - nia.
Qed.

Lemma round_half_even_nonneg n d : 0 <= n -> 0 < d -> 0 <= round_half_even n d.
Proof.
  intros Hn Hd. unfold round_half_even.
  assert (0 <= n / d) by (apply Z.div_pos; lia).
  destruct (2 * (n mod d) ?= d); [destruct (Z.even (n / d))|..]; lia.
Qed.

(** The integer [format_f] prints is within one half of the value times
    [10^digits]. *)
Lemma scaled_round_bound digits m e :
  (2 * Qabs (inject_Z (scaled_round digits m e)
             - FQ (Z.pos m) e * inject_Z (10 ^ Z.of_nat digits)) <= 1)%Q.
Proof.
  unfold scaled_round. destruct (Z.leb_spec 0 e) as [He|He].
  - assert (inject_Z (Z.pos m * 2 ^ e * 10 ^ Z.of_nat digits)
            - FQ (Z.pos m) e * inject_Z (10 ^ Z.of_nat digits) == 0)%Q as ->.
    { unfold FQ. rewrite !inject_Z_mult, inject_Z_pow2 by assumption. ring. }
    unfold Qle. cbn. lia.
  - assert (0 < 2 ^ (- e)) as Hp by (apply Z.pow_pos_nonneg; lia).
    pose proof (round_half_even_bound (Z.pos m * 10 ^ Z.of_nat digits) _ Hp) as H.
    pose proof (scaled_bound _ _ _ (2 ^ e) (Qpow2_pos _) H) as HQ.
    assert (inject_Z (2 ^ (- e)) * 2 ^ e == 1)%Q as E3.
    { rewrite inject_Z_pow2 by lia. rewrite <- Qpow2_add.
      replace (- e + e) with 0 by ring. reflexivity. }
    rewrite inject_Z_mult in HQ.
    assert (forall x : Q, x * inject_Z (2 ^ (- e)) * 2 ^ e == x)%Q as E1.
    { intros x. rewrite <- Qmult_assoc, E3. ring. }
    rewrite E1, E3 in HQ.
    assert (inject_Z (Z.pos m * 10 ^ Z.of_nat digits) * 2 ^ e
            == FQ (Z.pos m) e * inject_Z (10 ^ Z.of_nat digits))%Q as E2.
    { unfold FQ. rewrite inject_Z_mult. ring. }
    rewrite E2 in HQ. exact HQ.
Qed.

Lemma scaled_round_nonneg digits m e : 0 <= scaled_round digits m e.
Proof.
  unfold scaled_round. destruct (Z.leb_spec 0 e).
  - assert (0 < 2 ^ e) by (apply Z.pow_pos_nonneg; lia).
    assert (0 < 10 ^ Z.of_nat digits) by (apply Z.pow_pos_nonneg; lia). nia.
  - apply round_half_even_nonneg.
    + assert (0 < 10 ^ Z.of_nat digits) by (apply Z.pow_pos_nonneg; lia). nia.
    + apply Z.pow_pos_nonneg; lia.
Qed.

Lemma FQ_lower m e : 2 ^ 52 <= m -> (inject_Z (2 ^ 52) * 2 ^ e <= FQ m e)%Q.
Proof.
  intros H. unfold FQ. apply Qmult_le_compat_r.
  - rewrite <- Zle_Qle. exact H.
  - apply Qlt_le_weak, Qpow2_pos.
Qed.

Lemma two_Qabs_le (x y : Q) :
  (2 * Qabs x <= y -> - y <= 2 * x /\ 2 * x <= y)%Q.
Proof.
  intros H. pose proof (Qle_Qabs x) as H1. pose proof (Qle_Qabs (- x)) as H2.
  rewrite Qabs_opp in H2. split; lra.
Qed.

Lemma of_int_100 : of_int 100 = S754_finite false 7036874417766400 (-46).
Proof. reflexivity. Qed.

Lemma FQ_100 : (FQ 7036874417766400 (-46) == 100)%Q.
Proof. reflexivity. Qed.

Lemma pct_nearest digits f c t :
  div_ok f c t -> 0 < c -> 0 < t ->
  300 * 10 ^ Z.of_nat digits * c < 2 ^ 52 ->
  exists m e,
    fmul f (of_int 100) = S754_finite false m e
    /\ 2 * Z.abs (scaled_round digits m e * t - 100 * 10 ^ Z.of_nat digits * c)
       <= t.
Proof.
  intros (m1 & e1 & -> & Hm1 & He1 & H1) Hc Ht Hbound.
  rewrite of_int_100. unfold fmul.
  assert (2 ^ 104 <= Z.pos m1 * 7036874417766400 < 2 ^ 106) as Hprod by lia.
  assert (104 <= Z.log2 (Z.pos m1 * 7036874417766400) < 106) as Hlog.
  { split; [apply Z.log2_le_pow2; lia|apply Z.log2_lt_pow2; lia]. }
  destruct (fmul_correct false m1 e1 false 7036874417766400 (-46))
    as (m2 & e2 & Hmul & Hm2 & He2 & H2); try lia.
  exists m2, e2. split; [exact Hmul|].
  pose proof (scaled_round_bound digits m2 e2) as H3.
  set (N := scaled_round digits m2 e2) in *.
  set (P := 10 ^ Z.of_nat digits) in *.
  assert (0 < P) as HP by (apply Z.pow_pos_nonneg; lia).
  pose proof (FQ_lower (Z.pos m1) e1 ltac:(lia)) as L1.
  pose proof (FQ_lower (Z.pos m2) e2 ltac:(lia)) as L2.
  pose proof (Qpow2_pos e1) as Ha. pose proof (Qpow2_pos e2) as Hb.
  rewrite FQ_100 in H2.
  change (inject_Z (2 ^ 52)) with (4503599627370496 # 1)%Q in L1, L2.
  set (v1 := FQ (Z.pos m1) e1) in *. set (v2 := FQ (Z.pos m2) e2) in *.
  set (a := (2 ^ e1)%Q) in *. set (b := (2 ^ e2)%Q) in *.
  set (u := (inject_Z c / inject_Z t)%Q) in *.
  assert (0 < inject_Z t)%Q as HT by (change 0%Q with (inject_Z 0); rewrite <- Zlt_Qlt; lia).
  assert (0 < inject_Z c)%Q as HC by (change 0%Q with (inject_Z 0); rewrite <- Zlt_Qlt; lia).
  assert (0 < inject_Z P)%Q as HPq by (change 0%Q with (inject_Z 0); rewrite <- Zlt_Qlt; lia).
  assert (u * inject_Z t == inject_Z c)%Q as Hu.
  { unfold u. field. lra. }
  assert (0 < u)%Q as Hu0.
  { unfold u. apply Qlt_shift_div_l; lra. }
  apply two_Qabs_le in H1 as [H1a H1b].
  apply two_Qabs_le in H2 as [H2a H2b].
  apply two_Qabs_le in H3 as [H3a H3b].
  (* the computed percentage against the exact one *)
  assert (- ((300 # 9007199254740992) * u) <= v2 - 100 * u
          /\ v2 - 100 * u <= (300 # 9007199254740992) * u)%Q as [HAa HAb]
    by (split; lra).
  (* scaled by [10^digits * t] *)
  set (T := inject_Z t) in *. set (C := inject_Z c) in *.
  set (Pq := inject_Z P) in *. set (Nq := inject_Z N) in *.
  assert (0 < Pq * T)%Q as Hw by (apply Qmult_lt_0_compat; assumption).
  assert (u * (Pq * T) == Pq * C)%Q as Huw by (rewrite <- Hu; ring).
  assert (- ((300 # 9007199254740992) * (Pq * C)) <= v2 * Pq * T - 100 * (Pq * C)
          /\ v2 * Pq * T - 100 * (Pq * C) <= (300 # 9007199254740992) * (Pq * C))%Q
    as [HBa HBb].
  { rewrite <- Huw. split.
    - apply (Qmult_le_compat_r _ _ (Pq * T)) in HAa; [|lra]. lra.
    - apply (Qmult_le_compat_r _ _ (Pq * T)) in HAb; [|lra]. lra. }
  assert (- T <= 2 * (Nq * T - v2 * Pq * T) /\ 2 * (Nq * T - v2 * Pq * T) <= T)%Q
    as [HCa HCb].
  { split.
    - apply (Qmult_le_compat_r _ _ T) in H3a; [|lra]. lra.
    - apply (Qmult_le_compat_r _ _ T) in H3b; [|lra]. lra. }
  assert (300 * Pq * C < 4503599627370496)%Q as Hbq.
  { rewrite Zlt_Qlt, !inject_Z_mult in Hbound. exact Hbound. }
  assert (- (T + 1) < 2 * (Nq * T - 100 * Pq * C)
          /\ 2 * (Nq * T - 100 * Pq * C) < T + 1)%Q as [HDa HDb]
    by (split; lra).
  assert (2 * (Nq * T - 100 * Pq * C)
          == inject_Z (2 * (N * t - 100 * P * c)))%Q as HZ.
  { unfold Nq, T, Pq, C, Z.sub.
    rewrite inject_Z_mult, inject_Z_plus, inject_Z_opp, !inject_Z_mult.
    change (inject_Z 2) with 2%Q. change (inject_Z 100) with 100%Q. ring. }
  rewrite HZ in HDa, HDb.
  assert (T + 1 == inject_Z (t + 1))%Q as HT1
    by (unfold T; rewrite inject_Z_plus; reflexivity).
  rewrite HT1 in HDa, HDb. rewrite <- inject_Z_opp in HDa.
  rewrite <- Zlt_Qlt in HDa, HDb. lia.
Qed.

Lemma FQ_exp0 m : (FQ m 0 == inject_Z m)%Q.
Proof. unfold FQ. change (2 ^ 0)%Q with 1%Q. ring. Qed.

Lemma log2_small z k : 0 < z < 2 ^ k -> 0 <= Z.log2 z < k.
Proof.
  intros Hz. split; [apply Z.log2_nonneg|]. apply Z.log2_lt_pow2; lia.
Qed.

Lemma int_truediv_ok c t :
  0 < c < 2 ^ 44 -> 0 < t < 2 ^ 53 -> div_ok (int_truediv c t) c t.
Proof.
  intros Hc Ht. destruct c as [|pc|pc]; try lia. destruct t as [|pt|pt]; try lia.
  unfold int_truediv, fdiv. cbn [Z.ltb Z.compare Z.abs Z.to_pos].
  pose proof (log2_small _ _ Hc) as Hlc. pose proof (log2_small _ _ Ht) as Hlt.
  destruct (fdiv_correct false pc 0 false pt 0 (inject_Z (Z.pos pc) / inject_Z (Z.pos pt)))
    as (m & e & Hdiv & Hm & He & Herr); [lia| |].
  { rewrite !FQ_exp0. field. intros H.
    assert (0 < inject_Z (Z.pos pt))%Q
      by (change 0%Q with (inject_Z 0); rewrite <- Zlt_Qlt; lia).
    lra. }
  exists m, e. split; [exact Hdiv|]. split; [exact Hm|]. split; [lia|exact Herr].
Qed.

(** *** The shape of a fixed-point rendering *)

Lemma frac_ok_below (digits : nat) (bound : nat) :
  forallb (fun k => frac_ok digits (Z.of_nat k)) (List.seq 0 bound) = true ->
  forall r, 0 <= r < Z.of_nat bound -> frac_ok digits r = true.
Proof.
  intros Hall r Hr. rewrite forallb_forall in Hall.
  specialize (Hall (Z.to_nat r)). rewrite Z2Nat.id in Hall by lia.
  apply Hall. apply in_seq. lia.
Qed.

Lemma fixed_point_decimals (digits : nat) (n : Z) :
  (0 < digits)%nat ->
  (forall r, 0 <= r < 10 ^ Z.of_nat digits -> frac_ok digits r = true) ->
  0 <= n -> has_decimals digits (fixed_point digits n).
Proof.
  intros Hd Hfrac Hn. unfold fixed_point.
  assert (0 < 10 ^ Z.of_nat digits) as Hp by (apply Z.pow_pos_nonneg; lia).
  exists (n / 10 ^ Z.of_nat digits), (zfill digits (str_int (n mod 10 ^ Z.of_nat digits))).
  pose proof (Hfrac (n mod 10 ^ Z.of_nat digits) (Z.mod_pos_bound _ _ Hp)) as Hok.
  unfold frac_ok in Hok. apply andb_true_iff in Hok as [Hlen Hdig].
  apply Nat.eqb_eq in Hlen.
  split; [apply Z.div_pos; lia|]. split; [|split; assumption].
  destruct digits; [lia|reflexivity].
Qed.

Lemma fixed_point_decimals_3 n : 0 <= n -> has_decimals 3 (fixed_point 3 n).
Proof.
  apply fixed_point_decimals; [lia|].
  apply (frac_ok_below 3 1000). vm_compute. reflexivity.
Qed.

Lemma fixed_point_decimals_1 n : 0 <= n -> has_decimals 1 (fixed_point 1 n).
Proof.
  apply fixed_point_decimals; [lia|].
  apply (frac_ok_below 1 10). vm_compute. reflexivity.
Qed.

End FloatFacts.

(** ** The percentages written by the aggregators and the pie chart *)

Module PercentFacts.
Import PyNum Py Io Pandas Common Spec FloatSpec FloatFacts.
Local Open Scope Z_scope.
Local Open Scope list_scope.

Lemma format_f_finite digits m e :
  format_f digits (S754_finite false m e)
  = fixed_point digits (scaled_round digits m e).
Proof. reflexivity. Qed.

(** A percentage computed from a correctly rounded quotient and printed
    with 1 or 3 digits is a nearest rendering of the exact percentage. *)
Lemma percent_renders digits f c t :
  (digits = 1%nat \/ digits = 3%nat) ->
  div_ok f c t -> 0 < c -> 0 < t ->
  300 * 10 ^ Z.of_nat digits * c < 2 ^ 52 ->
  renders_percent digits c t (format_f digits (fmul f (of_int 100))).
Proof.
  intros Hd Hdiv Hc Ht Hbound.
  destruct (pct_nearest digits f c t Hdiv Hc Ht Hbound) as (m & e & -> & Hnear).
  rewrite format_f_finite.
  exists (scaled_round digits m e). split; [reflexivity|].
  pose proof (scaled_round_nonneg digits m e) as Hn.
  split; [|split; assumption].
  destruct Hd as [-> | ->].
  - by apply fixed_point_decimals_1.
  - by apply fixed_point_decimals_3.
Qed.

Lemma json_percent_renders c t :
  0 < c <= t -> t < 2 ^ 33 ->
  renders_percent 3 c t (JsonDist.percent c t).
Proof.
  intros Hc Ht. unfold JsonDist.percent.
  rewrite (proj2 (Z.ltb_lt 0 t)) by lia.
  apply percent_renders; [by right| |lia|lia|].
  - apply int_truediv_ok; lia.
  - change (10 ^ Z.of_nat 3) with 1000. lia.
Qed.

Lemma csv_percent_renders c t :
  0 < c <= t -> t < 2 ^ 33 ->
  renders_percent 3 c t (CsvDist.percent c t).
Proof.
  intros Hc Ht. unfold CsvDist.percent.
  rewrite (proj2 (Z.ltb_lt 0 t)) by lia.
  apply percent_renders; [by right| |lia|lia|].
  - apply int_truediv_ok; lia.
  - change (10 ^ Z.of_nat 3) with 1000. lia.
Qed.

Lemma json_percent_zero_total c : JsonDist.percent c 0 = "0.000".
Proof. reflexivity. Qed.

Lemma csv_percent_zero_total c : CsvDist.percent c 0 = "0.000".
Proof. reflexivity. Qed.

Lemma sum_list_elem_le (l : list Z) x :
  Forall (fun y => 0 < y) l -> x ∈ l -> x <= sum_list l.
Proof.
  unfold sum_list.
  induction 1 as [|y l Hy Hl IH]; [by intros ?%elem_of_nil|].
  assert (0 <= foldr Z.add 0 l) as Hsum.
  { clear IH. induction Hl as [|z l Hz _ IHl]; cbn [foldr]; lia. }
  intros [->|Hx]%elem_of_cons; cbn [foldr]; [lia|]. specialize (IH Hx). lia.
Qed.

End PercentFacts.

(** ** The percent column *)

Module ColumnFacts.
Import PyNum Py Io Pandas Common Spec FloatSpec.
Import CounterFacts TableFacts RowFacts SummaryFacts PercentFacts.
Local Open Scope Z_scope.
Local Open Scope list_scope.

(** What holds of the percent column of a summary whose rows list the
    items of the counter of [l], each with the percentage [percent] of its
    count in the total of the counts. *)
Lemma percent_column (percent : Z -> Z -> string) (l : list scalar)
    (entries : list entry) :
  map fst entries ≡ₚ count_values l ->
  (forall c t, 0 < c <= t -> t < 2 ^ 33 -> renders_percent 3 c t (percent c t)) ->
  (forall c, percent c 0 = "0.000") ->
  Forall (fun r => entry_percent r
                   = percent (entry_count r) (sum_list (map entry_count entries)))
         entries ->
  let total := sum_list (map entry_count entries) in
  total = Z.of_nat (length l)
  /\ (total < 2 ^ 33 ->
      Forall (fun r => renders_percent 3 (entry_count r) total (entry_percent r))
             entries)
  /\ (total = 0 -> Forall (fun r => entry_percent r = "0.000") entries).
Proof.
  intros Hperm Hrender Hzero Hpct total.
  pose proof (partitions_of_counts l entries Hperm) as [Hsum _].
  pose proof (entries_of_counts_elem l entries Hperm) as Hpos.
  split; [exact Hsum|]. split.
  - intros Hsmall. apply Forall_forall. intros r Hr.
    rewrite (proj1 (Forall_forall _ _) Hpct r Hr). fold total.
    apply Hrender; [|exact Hsmall].
    destruct (proj1 (Forall_forall _ _) Hpos r Hr) as [Hc _].
    split; [exact Hc|]. unfold total.
    apply sum_list_elem_le.
    + apply Forall_forall. intros y (r' & -> & Hr')%list_elem_of_fmap.
      by destruct (proj1 (Forall_forall _ _) Hpos r' Hr').
    + apply (list_elem_of_fmap_2 entry_count _ _ Hr).
  - intros Htotal. apply Forall_forall. intros r Hr.
    rewrite (proj1 (Forall_forall _ _) Hpct r Hr). fold total.
    rewrite Htotal. apply Hzero.
Qed.

End ColumnFacts.

(** ** The scripts on the samples *)

Module SampleRuns.
Import PyNum Py Io Pandas Common Spec.

(** JSON records [[{"k":"a"}, {"k":"a"}, {}, {"k":"b"}]] with key [k]: the
    rows are [a,2,50.000], then the row of [None] (an empty value field)
    and the row of [b], both with count 1 and 25.000. *)
Example json_sample_summary :
  JsonDist.compute_key_distribution "data/m.json" "k" "out" None Sample.json_fs
  = (Ok "out/m_k_distribution.csv",
     fs_after Sample.json_fs "out" "out/m_k_distribution.csv"
       (CsvText [["k"; "count"; "percent"]; ["a"; "2"; "50.000"];
                 [""; "1"; "25.000"]; ["b"; "1"; "25.000"]])).
Proof. vm_compute. reflexivity. Qed.

(** The column [cat, dog, cat, bird] with the reference pandas. *)
Example csv_sample_summary :
  CsvDist.compute_column_distribution PandasRef.pandas
    "data/s.csv" "species_name" "out" None Sample.csv_fs
  = (Ok "out/s_species_name_distribution.csv",
     fs_after Sample.csv_fs "out" "out/s_species_name_distribution.csv"
       (CsvText [["species_name"; "count"; "percent"]; ["cat"; "2"; "50.000"];
                 ["dog"; "1"; "25.000"]; ["bird"; "1"; "25.000"]])).
Proof. vm_compute. reflexivity. Qed.

(** [True], [1] and [1.0] are one key; the first of them is kept. *)
Example counter_merges_equal_numbers :
  count_values [SBool true; SStr "1"; SInt 1;
                SFloat (S754_finite false 4503599627370496 (-52))]
  = [(SBool true, 3%Z); (SStr "1", 1%Z)].
Proof. vm_compute. reflexivity. Qed.

(** [1 / 3] is [0x1.5555555555555p-2]; [f"{1/3*100.0:.3f}"] is [33.333];
    [f"{1/64*100.0:.3f}"] is [1.562], the tie going to the even digit. *)
Example one_third : int_truediv 1 3 = S754_finite false 6004799503160661 (-54).
Proof. vm_compute. reflexivity. Qed.

Example percent_one_third : JsonDist.percent 1 3 = "33.333".
Proof. vm_compute. reflexivity. Qed.

Example percent_tie_to_even : JsonDist.percent 1 64 = "1.562".
Proof. vm_compute. reflexivity. Qed.

(** [repr] of some floats: [0.1], [1e+23], [5e-324], [491520.0]. *)
Example repr_tenth :
  repr_float (S754_finite false 3602879701896397 (-55)) = "0.1".
Proof. vm_compute. reflexivity. Qed.

Example repr_1e23 :
  repr_float (S754_finite false 5960464477539062 24) = "1e+23".
Proof. vm_compute. reflexivity. Qed.

Example repr_smallest : repr_float (S754_finite false 1 (-1074)) = "5e-324".
Proof. vm_compute. reflexivity. Qed.

Example repr_large : repr_float (S754_finite false 15 15) = "491520.0".
Proof. vm_compute. reflexivity. Qed.

(** Paths: [Path("data/m.json").stem] and [with_suffix]. *)
Example stem_sample : path_stem "data/m.json" = "m".
Proof. reflexivity. Qed.

Example with_suffix_sample :
  with_suffix "out/m_k_distribution.csv" ".pie.png" = "out/m_k_distribution.pie.png".
Proof. reflexivity. Qed.

End SampleRuns.

(* ===================================================================== *)
(** * The claims *)
(* ===================================================================== *)

Import PyNum Py Io Pandas Common Spec FloatSpec.
Import CounterFacts RunFacts TableFacts PandasRefFacts OrderFacts RowFacts.
Import NullFacts SummaryFacts PieFacts FloatFacts PercentFacts ColumnFacts.

(** C1.  Whenever an aggregator accepts its source and field selector, the
    summary it writes partitions the input: the counts of the written rows
    add up to the number of input records, every record contributes one
    observation (the field value, or [None] when the key is absent or the
    record is no dict), each observation falls into exactly one row, and the
    count of a row is the number of observations that fall into it.  The
    first conjunct is the JSON aggregator, the second the CSV one. *)
Theorem C1_counts_partition_records
    (pd : api) (src field out_dir : string) (output_name : option string)
    (s s' : fs) (out_path : string) :
  value_counts_ok pd ->
  (JsonDist.compute_key_distribution src field out_dir output_name s
   = (Ok out_path, s') ->
   exists recs observations entries,
     files s !! src = Some (JsonText (JList recs))
     /\ map (JsonDist.extract field) recs = map JScalar observations
     /\ files s' !! out_path = Some (summary_file field entries)
     /\ sum_list (map entry_count entries) = Z.of_nat (length recs)
     /\ partitions observations entries)
  /\
  (CsvDist.compute_column_distribution pd src field out_dir output_name s
   = (Ok out_path, s') ->
   exists rows df cells entries,
     files s !! src = Some (CsvText rows)
     /\ read_csv pd rows = Ok df
     /\ getitem df field = Ok cells
     /\ files s' !! out_path = Some (summary_file field entries)
     /\ sum_list (map entry_count entries) = Z.of_nat (length cells)
     /\ partitions cells entries).
Proof.
  intros Hpd. split; intros Hrun.
  - apply json_run_inv in Hrun as (recs & scalars & Hfile & Hhash & -> & ->).
    apply hashable_Ok in Hhash.
    exists recs, scalars, (JsonDist.summary_entries (count_values scalars)).
    pose proof (json_entries_partition scalars) as Hpart.
    split_and!; try done.
    + apply fs_after_lookup.
    + destruct Hpart as [-> _]. f_equal.
      apply (f_equal length) in Hhash. rewrite !length_map in Hhash. done.
  - apply csv_run_inv in Hrun as (rows & df & cells & Hfile & Hread & Hcol & -> & ->).
    exists rows, df, cells, (CsvDist.summary_entries (value_counts pd cells)).
    pose proof (csv_entries_partition pd cells Hpd) as Hpart.
    split_and!; try done.
    + apply fs_after_lookup.
    + by destruct Hpart as [-> _].
Qed.

Lemma C1_counts_partition_records_witness :
  value_counts_ok PandasRef.pandas
  /\ (exists recs observations entries,
        files Sample.json_fs !! "data/m.json" = Some (JsonText (JList recs))
        /\ map (JsonDist.extract "k") recs = map JScalar observations
        /\ files (fs_after Sample.json_fs "out" "out/m_k_distribution.csv"
                   (summary_file "k"
                      (JsonDist.summary_entries
                         (count_values [SStr "a"; SStr "a"; SNone; SStr "b"]))))
             !! "out/m_k_distribution.csv" = Some (summary_file "k" entries)
        /\ sum_list (map entry_count entries) = Z.of_nat (length recs)
        /\ partitions observations entries).
Proof.
  split; [exact pandas_value_counts_ok|].
  apply (C1_counts_partition_records PandasRef.pandas "data/m.json" "k" "out"
           None Sample.json_fs _ "out/m_k_distribution.csv"
           pandas_value_counts_ok).
  vm_compute. reflexivity.
Defined.

(** C2.  In the summary written by either aggregator, the percent field of
    every row is the percentage of the row's count in [total], the sum of
    all counts, computed as [count / total * 100.0] in binary64 and
    printed by the format [.3f], or [0.000] when [total] is 0.  For a
    table of fewer than [2^33] records this is [100 * count / total]
    rendered with exactly three decimal digits: an integer part, a point
    and three digits that denote a multiple of 0.001 nearest to the exact
    percentage.  For an empty source [total] is 0 and every percent written
    is [0.000].  The first conjunct is the JSON aggregator, the second the
    CSV one. *)
Theorem C2_percent_of_total
    (pd : api) (src field out_dir : string) (output_name : option string)
    (s s' : fs) (out_path : string) :
  value_counts_ok pd ->
  (JsonDist.compute_key_distribution src field out_dir output_name s
   = (Ok out_path, s') ->
   exists recs entries,
     files s !! src = Some (JsonText (JList recs))
     /\ files s' !! out_path = Some (summary_file field entries)
     /\ let total := sum_list (map entry_count entries) in
        Forall (fun r => entry_percent r
                         = JsonDist.percent (entry_count r) total) entries
        /\ total = Z.of_nat (length recs)
        /\ ((total < 2 ^ 33)%Z ->
            Forall (fun r => renders_percent 3 (entry_count r) total
                               (entry_percent r)) entries)
        /\ (total = 0%Z -> Forall (fun r => entry_percent r = "0.000") entries))
  /\
  (CsvDist.compute_column_distribution pd src field out_dir output_name s
   = (Ok out_path, s') ->
   exists rows df cells entries,
     files s !! src = Some (CsvText rows)
     /\ read_csv pd rows = Ok df
     /\ getitem df field = Ok cells
     /\ files s' !! out_path = Some (summary_file field entries)
     /\ let total := sum_list (map entry_count entries) in
        Forall (fun r => entry_percent r
                         = CsvDist.percent (entry_count r) total) entries
        /\ total = Z.of_nat (length cells)
        /\ ((total < 2 ^ 33)%Z ->
            Forall (fun r => renders_percent 3 (entry_count r) total
                               (entry_percent r)) entries)
        /\ (total = 0%Z -> Forall (fun r => entry_percent r = "0.000") entries)).
Proof.
  intros Hpd. split; intros Hrun.
  - apply json_run_inv in Hrun as (recs & scalars & Hfile & Hhash & -> & ->).
    apply hashable_Ok in Hhash.
    exists recs, (JsonDist.summary_entries (count_values scalars)).
    split; [exact Hfile|]. split; [apply fs_after_lookup|].
    pose proof (json_entries_percent (count_values scalars)) as Hpct.
    destruct (percent_column JsonDist.percent scalars
                (JsonDist.summary_entries (count_values scalars)))
      as (Hsum & Hrender & Hzero); try done.
    + rewrite json_entries_counts. apply most_common_Permutation.
    + apply json_percent_renders.
    + cbn zeta. split_and!; try done.
      rewrite Hsum. f_equal.
      apply (f_equal length) in Hhash. rewrite !length_map in Hhash. done.
  - apply csv_run_inv in Hrun as (rows & df & cells & Hfile & Hread & Hcol & -> & ->).
    exists rows, df, cells, (CsvDist.summary_entries (value_counts pd cells)).
    split_and!; [done..|apply fs_after_lookup|].
    pose proof (csv_entries_percent (value_counts pd cells)) as Hpct.
    destruct (percent_column CsvDist.percent cells
                (CsvDist.summary_entries (value_counts pd cells)))
      as (Hsum & Hrender & Hzero); try done.
    + rewrite csv_entries_counts. apply Hpd.
    + apply csv_percent_renders.
Qed.

Lemma C2_percent_of_total_witness :
  value_counts_ok PandasRef.pandas
  /\ exists recs entries,
       files Sample.json_fs !! "data/m.json" = Some (JsonText (JList recs))
       /\ files (JsonDist.compute_key_distribution "data/m.json" "k" "out" None
                   Sample.json_fs).2 !! "out/m_k_distribution.csv"
          = Some (summary_file "k" entries)
       /\ let total := sum_list (map entry_count entries) in
          Forall (fun r => entry_percent r
                           = JsonDist.percent (entry_count r) total) entries
          /\ total = Z.of_nat (length recs)
          /\ ((total < 2 ^ 33)%Z ->
              Forall (fun r => renders_percent 3 (entry_count r) total
                                 (entry_percent r)) entries)
          /\ (total = 0%Z -> Forall (fun r => entry_percent r = "0.000") entries).
Proof.
  split; [exact pandas_value_counts_ok|].
  apply (C2_percent_of_total PandasRef.pandas "data/m.json" "k" "out" None
           Sample.json_fs _ "out/m_k_distribution.csv" pandas_value_counts_ok).
  vm_compute. reflexivity.
Defined.

(** C3.  The CSV aggregator raises the error naming the column and the
    source when the column is not in the header of the table; the JSON
    aggregator raises the error for a malformed source when the top-level
    value is not a list.  In both cases the file system is the one the run
    started with: no file is written and no directory is made.  (Both
    errors are [ValueError] in the scripts.) *)
Theorem C3_failures_abort_before_writing
    (pd : api) (src field out_dir : string) (output_name : option string)
    (s : fs) :
  (forall rows df,
     files s !! src = Some (CsvText rows) ->
     read_csv pd rows = Ok df ->
     field ∉ columns df ->
     CsvDist.compute_column_distribution pd src field out_dir output_name s
     = (Raise (ValueError ("Column '" +:+ field +:+ "' not found in " +:+ src)),
        s))
  /\
  (forall v,
     files s !! src = Some (JsonText v) ->
     (forall recs, v <> JList recs) ->
     JsonDist.compute_key_distribution src field out_dir output_name s
     = (Raise (ValueError ("Expected a list of records in " +:+ src
                           +:+ ", got " +:+ type_repr v)),
        s)).
Proof.
  split.
  - intros rows df Hfile Hread Hcol.
    unfold CsvDist.compute_column_distribution, bind, pd_read_csv.
    rewrite Hfile, Hread. by rewrite bool_decide_eq_false_2.
  - intros v Hfile Hlist.
    unfold JsonDist.compute_key_distribution, bind, json_load.
    rewrite Hfile. destruct v as [a|recs|d]; [done| |done].
    by destruct (Hlist recs).
Qed.

Lemma C3_failures_abort_before_writing_witness :
  CsvDist.compute_column_distribution PandasRef.pandas
    "data/s.csv" "genus" "out" None Sample.csv_fs
  = (Raise (ValueError "Column 'genus' not found in data/s.csv"), Sample.csv_fs)
  /\ JsonDist.compute_key_distribution "data/o.json" "k" "out" None
       Sample.json_object_fs
     = (Raise (ValueError
                 "Expected a list of records in data/o.json, got <class 'dict'>"),
        Sample.json_object_fs).
Proof.
  split.
  - apply (proj1 (C3_failures_abort_before_writing PandasRef.pandas
                    "data/s.csv" "genus" "out" None Sample.csv_fs)
             Sample.csv_rows
             [("species_name", [SStr "cat"; SStr "dog"; SStr "cat"; SStr "bird"]);
              ("id", [SInt 1; SInt 2; SInt 3; SInt 4])]).
    + reflexivity.
    + reflexivity.
    + refine (proj1 (bool_decide_eq_false _) _). reflexivity.
  - apply (proj2 (C3_failures_abort_before_writing PandasRef.pandas
                    "data/o.json" "k" "out" None Sample.json_object_fs)
             (JDict [("k", JScalar (SStr "a"))])).
    + reflexivity.
    + intros recs. discriminate.
Defined.

(** C4.  On a JSON list in which every record either lacks the key (or is
    no dict) or holds a hashable value under it, the JSON aggregator does
    not raise; and as soon as one record lacks the key or is no dict, the
    summary has a row for the value [None], written with an empty value
    field, whose count is the number of records whose observation is
    [None]; it is the only row for [None]. *)
Theorem C4_json_null_bucket
    (src field out_dir : string) (output_name : option string)
    (s : fs) (recs : list json) :
  files s !! src = Some (JsonText (JList recs)) ->
  Forall (fun rec => lacks_key field rec
                     \/ exists a, JsonDist.extract field rec = JScalar a) recs ->
  exists out_path s' observations entries,
    JsonDist.compute_key_distribution src field out_dir output_name s
    = (Ok out_path, s')
    /\ map (JsonDist.extract field) recs = map JScalar observations
    /\ files s' !! out_path = Some (summary_file field entries)
    /\ forall rec, rec ∈ recs -> lacks_key field rec ->
         exists r, r ∈ entries
                   /\ entry_value r = SNone
                   /\ entry_count r = occurrences SNone observations
                   /\ (0 < entry_count r)%Z
                   /\ head (writerow r) = Some ""
                   /\ forall r', r' ∈ entries -> entry_value r' = SNone -> r' = r.
Proof.
  intros Hfile Hrecs.
  destruct (observations_exist _ _ Hrecs) as [obs Hobs].
  pose proof (hashable_scalars obs) as Hhash. rewrite <- Hobs in Hhash.
  pose proof (json_run _ _ out_dir output_name _ _ _ Hfile Hhash) as Hrun.
  eexists _, _, obs, _. split; [exact Hrun|]. split; [exact Hobs|].
  split; [apply fs_after_lookup|].
  intros rec Hrec Hlacks.
  assert (SNone ∈ obs) as Hnone.
  { apply lacks_key_extract in Hlacks.
    assert (JNone ∈ map JScalar obs) as Hin.
    { rewrite <- Hobs, <- Hlacks. apply (list_elem_of_fmap_2 _ _ _ Hrec). }
    apply list_elem_of_fmap in Hin as (a & [= <-] & Ha). exact Ha. }
  destruct (json_entries_partition obs) as (_ & Hocc & Hnd & Hcover).
  destruct (Hcover _ Hnone) as (r & Hr & Hk).
  assert (entry_value r = SNone) as Hv by (by apply key_of_None).
  exists r. split_and!; try done.
  - rewrite <- Hv. by apply (proj1 (Forall_forall _ _) Hocc).
  - assert (Forall (fun r => (0 < entry_count r)%Z /\ entry_value r ∈ obs)
              (JsonDist.summary_entries (count_values obs))) as Hpos.
    { apply RowFacts.entries_of_counts_elem. rewrite json_entries_counts.
      apply most_common_Permutation. }
    by apply (proj1 (Forall_forall _ _) Hpos) in Hr as [? _].
  - unfold writerow. by rewrite Hv.
  - intros r' Hr' Hv'.
    apply (NoDup_fmap_elem_inj (fun r => key_of (entry_value r)) _ _ _ Hnd Hr' Hr).
    by rewrite Hv, Hv'.
Qed.

Lemma C4_json_null_bucket_witness :
  exists out_path s' observations entries,
    JsonDist.compute_key_distribution "data/m.json" "k" "out" None Sample.json_fs
    = (Ok out_path, s')
    /\ map (JsonDist.extract "k") Sample.json_records = map JScalar observations
    /\ files s' !! out_path = Some (summary_file "k" entries)
    /\ forall rec, rec ∈ Sample.json_records -> lacks_key "k" rec ->
         exists r, r ∈ entries
                   /\ entry_value r = SNone
                   /\ entry_count r = occurrences SNone observations
                   /\ (0 < entry_count r)%Z
                   /\ head (writerow r) = Some ""
                   /\ forall r', r' ∈ entries -> entry_value r' = SNone -> r' = r.
Proof.
  apply (C4_json_null_bucket "data/m.json" "k" "out" None Sample.json_fs
           Sample.json_records).
  - reflexivity.
  - unfold Sample.json_records.
    repeat (apply Forall_cons; split;
            [first [right; eexists; reflexivity
                   |left; cbn; apply not_elem_of_nil]|]).
    by apply Forall_nil.
Defined.

(** C5.  Whenever the JSON aggregator accepts its source, the rows of the
    summary it writes are ordered most common first: the count of a row is
    never larger than the count of a row above it. *)
Theorem C5_json_rows_most_common_first
    (src field out_dir : string) (output_name : option string)
    (s s' : fs) (out_path : string) :
  JsonDist.compute_key_distribution src field out_dir output_name s
  = (Ok out_path, s') ->
  exists entries,
    files s' !! out_path = Some (summary_file field entries)
    /\ most_common_first entries
    /\ forall i j r1 r2,
         (i <= j)%nat -> entries !! i = Some r1 -> entries !! j = Some r2 ->
         (entry_count r2 <= entry_count r1)%Z.
Proof.
  intros (recs & scalars & Hfile & Hhash & -> & ->)%json_run_inv.
  exists (JsonDist.summary_entries (count_values scalars)).
  split_and!.
  - apply fs_after_lookup.
  - apply json_entries_most_common_first.
  - intros i j r1 r2. apply most_common_first_lookup, json_entries_most_common_first.
Qed.

Lemma C5_json_rows_most_common_first_witness :
  exists entries,
    files (snd (JsonDist.compute_key_distribution "data/m.json" "k" "out" None
                  Sample.json_fs))
      !! "out/m_k_distribution.csv" = Some (summary_file "k" entries)
    /\ most_common_first entries
    /\ forall i j r1 r2,
         (i <= j)%nat -> entries !! i = Some r1 -> entries !! j = Some r2 ->
         (entry_count r2 <= entry_count r1)%Z.
Proof.
  apply (C5_json_rows_most_common_first "data/m.json" "k" "out" None
           Sample.json_fs).
  vm_compute. reflexivity.
Defined.

(** C6, as stated, fails: the JSON aggregator keeps the number [1] and the
    string ["1"] apart, writes both as the text [1], and re-aggregating the
    two rows by value merges them into one row with count 2. *)
Lemma C6_roundtrip_counterexample :
  ~ (forall (src field out_dir : string) (output_name : option string)
            (s s' : fs) (out_path : string) (rows : list (list string)),
       JsonDist.compute_key_distribution src field out_dir output_name s
       = (Ok out_path, s') ->
       files s' !! out_path = Some (CsvText rows) ->
       Summary.reaggregate JsonDist.percent rows = Some rows).
Proof.
  intros H.
  specialize (H "data/x.json" "k" "out" None Sample.json_mixed_fs
                (JsonDist.compute_key_distribution "data/x.json" "k" "out" None
                   Sample.json_mixed_fs).2
                "out/x_k_distribution.csv"
                [["k"; "count"; "percent"]; ["1"; "1"; "50.000"];
                 ["1"; "1"; "50.000"]]).
  assert (Summary.reaggregate JsonDist.percent
            [["k"; "count"; "percent"]; ["1"; "1"; "50.000"];
             ["1"; "1"; "50.000"]]
          = Some [["k"; "count"; "percent"]; ["1"; "2"; "100.000"]]) as Hre
    by (vm_compute; reflexivity).
  rewrite Hre in H.
  assert (Some [["k"; "count"; "percent"]; ["1"; "2"; "100.000"]]
          = Some [["k"; "count"; "percent"]; ["1"; "1"; "50.000"];
                  ["1"; "1"; "50.000"]]) as Habs.
  { apply H; vm_compute; reflexivity. }
  discriminate Habs.
Qed.

(** C6, amended.  Whenever an aggregator accepts its source and the summary
    it writes lists no value text twice, re-reading that summary and
    re-aggregating its count column by value (the groups in the order in
    which their values first appear, the percentages computed anew from
    the summed counts) yields the same table.  The first conjunct is the
    JSON aggregator, the second the CSV one. *)
Theorem C6_roundtrip_distinct_texts
    (pd : api) (src field out_dir : string) (output_name : option string)
    (s s' : fs) (out_path : string) (rows : list (list string)) :
  files s' !! out_path = Some (CsvText rows) ->
  NoDup (Summary.value_texts rows) ->
  (JsonDist.compute_key_distribution src field out_dir output_name s
   = (Ok out_path, s') ->
   Summary.reaggregate JsonDist.percent rows = Some rows)
  /\
  (CsvDist.compute_column_distribution pd src field out_dir output_name s
   = (Ok out_path, s') ->
   Summary.reaggregate CsvDist.percent rows = Some rows).
Proof.
  intros Hrows Hnd. split; intros Hrun.
  - apply json_run_inv in Hrun as (recs & scalars & Hfile & Hhash & -> & ->).
    rewrite fs_after_lookup in Hrows. injection Hrows as <-.
    rewrite value_texts_summary in Hnd.
    apply reaggregate_summary; [done|apply json_entries_percent].
  - apply csv_run_inv in Hrun as (rws & df & cells & Hfile & Hread & Hcol & -> & ->).
    rewrite fs_after_lookup in Hrows. injection Hrows as <-.
    rewrite value_texts_summary in Hnd.
    apply reaggregate_summary; [done|apply csv_entries_percent].
Qed.

Lemma C6_roundtrip_distinct_texts_witness :
  Summary.reaggregate JsonDist.percent
    [["k"; "count"; "percent"]; ["a"; "2"; "50.000"]; [""; "1"; "25.000"];
     ["b"; "1"; "25.000"]]
  = Some [["k"; "count"; "percent"]; ["a"; "2"; "50.000"]; [""; "1"; "25.000"];
          ["b"; "1"; "25.000"]].
Proof.
  refine (proj1 (C6_roundtrip_distinct_texts PandasRef.pandas "data/m.json" "k"
                   "out" None Sample.json_fs
                   (JsonDist.compute_key_distribution "data/m.json" "k" "out"
                      None Sample.json_fs).2
                   "out/m_k_distribution.csv" _ _ _) _).
  - vm_compute. reflexivity.
  - apply (bool_decide_unpack _). vm_compute. exact I.
  - vm_compute. reflexivity.
Defined.

(** C7.  For every summary table the pie chart block of either script
    consumes (the value column as strings, the count column as integers),
    the chart has one wedge per count and the legend is as follows.  When
    the total of the counts is positive, the entry of a wedge is the value
    followed by its percentage of the total in parentheses, computed as
    [cnt / total * 100] in binary64 and printed with one decimal; for a
    positive count this is [100 * cnt / total] rendered with one decimal
    digit (counts below [2^52 / 3000], totals below [2^53]).  When the
    total is 0, the legend is the bare values, with no percentage. *)
Theorem C7_pie_legend_labels
    (pd : api) (summary_csv field pie_path : string) (s : fs)
    (rows : list (list string)) (df : DataFrame)
    (xs ys : list scalar) (y : list Z) :
  files s !! summary_csv = Some (CsvText rows) ->
  read_csv pd rows = Ok df ->
  getitem df field = Ok xs ->
  getitem df "count" = Ok ys ->
  astype_int pd ys = Ok y ->
  let total := sum_list y in
  let names := astype_str xs in
  exists legend,
    (exists chart,
       JsonDist.plot_pie pd summary_csv field pie_path s
       = (Ok tt, Fs (<[pie_path := PiePng chart]> (files s)) (dirs s))
       /\ pie_sizes chart = y /\ pie_legend chart = legend)
    /\ (exists chart,
          CsvDist.plot_pie pd summary_csv field pie_path s
          = (Ok tt, Fs (<[pie_path := PiePng chart]> (files s)) (dirs s))
          /\ pie_sizes chart = y /\ pie_legend chart = legend)
    /\ ((0 < total)%Z ->
        legend
        = zip_with (fun name cnt =>
                      name +:+ " (" +:+
                      format_f 1 (fmul (int_truediv cnt total) (of_int 100))
                      +:+ "%)") names y
        /\ forall i name cnt,
             names !! i = Some name -> y !! i = Some cnt ->
             (0 < cnt)%Z -> (3000 * cnt < 2 ^ 52)%Z -> (total < 2 ^ 53)%Z ->
             exists p, legend !! i = Some (name +:+ " (" +:+ p +:+ "%)")
                       /\ renders_percent 1 cnt total p)
    /\ (total = 0%Z -> legend = names).
Proof.
  intros Hfile Hread Hxs Hys Hy total names.
  exists (JsonDist.legend_labels names y total). split_and!.
  - eexists. split; [by eapply json_plot_pie_run|]. done.
  - eexists. split; [by eapply csv_plot_pie_run|]. done.
  - intros Htotal. unfold JsonDist.legend_labels.
    rewrite (proj2 (Z.ltb_lt 0 total)) by done.
    split; [done|].
    intros i name cnt Hname Hcnt Hpos Hsmall Hbig.
    eexists. split.
    + rewrite lookup_zip_with, Hname, Hcnt. reflexivity.
    + apply percent_renders; [by left| |done|done|].
      * apply int_truediv_ok; lia.
      * change (10 ^ Z.of_nat 1)%Z with 10%Z. lia.
  - intros Htotal. unfold JsonDist.legend_labels. by rewrite Htotal.
Qed.

Lemma C7_pie_legend_labels_witness :
  exists legend,
    (exists chart,
       JsonDist.plot_pie PandasRef.pandas "out/d.csv" "species_name"
         "out/d.pie.png" Sample.summary_fs
       = (Ok tt, Fs (<["out/d.pie.png" := PiePng chart]> (files Sample.summary_fs))
                    (dirs Sample.summary_fs))
       /\ pie_sizes chart = [2; 1; 1]%Z /\ pie_legend chart = legend)
    /\ legend = ["cat (50.0%)"; "dog (25.0%)"; "bird (25.0%)"].
Proof.
  destruct (C7_pie_legend_labels PandasRef.pandas "out/d.csv" "species_name"
              "out/d.pie.png" Sample.summary_fs Sample.summary_rows
              [("species_name", [SStr "cat"; SStr "dog"; SStr "bird"]);
               ("count", [SInt 2; SInt 1; SInt 1]);
               ("percent", [SStr "50.000"; SStr "25.000"; SStr "25.000"])]
              [SStr "cat"; SStr "dog"; SStr "bird"]
              [SInt 2; SInt 1; SInt 1] [2; 1; 1]%Z
              eq_refl eq_refl eq_refl eq_refl eq_refl)
    as (legend & Hjson & _ & Hpos & _).
  exists legend. split; [exact Hjson|].
  destruct (Hpos eq_refl) as [-> _]. reflexivity.
Defined.

(** C8.  Every count an aggregator writes is a strictly positive integer,
    and the value of every row is the field value of at least one input
    record: no row with count zero is ever written.  The first conjunct is
    the JSON aggregator, the second the CSV one. *)
Theorem C8_counts_strictly_positive
    (pd : api) (src field out_dir : string) (output_name : option string)
    (s s' : fs) (out_path : string) :
  value_counts_ok pd ->
  (JsonDist.compute_key_distribution src field out_dir output_name s
   = (Ok out_path, s') ->
   exists recs observations entries,
     files s !! src = Some (JsonText (JList recs))
     /\ map (JsonDist.extract field) recs = map JScalar observations
     /\ files s' !! out_path = Some (summary_file field entries)
     /\ Forall (fun r => (0 < entry_count r)%Z /\ entry_value r ∈ observations)
               entries)
  /\
  (CsvDist.compute_column_distribution pd src field out_dir output_name s
   = (Ok out_path, s') ->
   exists rows df cells entries,
     files s !! src = Some (CsvText rows)
     /\ read_csv pd rows = Ok df
     /\ getitem df field = Ok cells
     /\ files s' !! out_path = Some (summary_file field entries)
     /\ Forall (fun r => (0 < entry_count r)%Z /\ entry_value r ∈ cells)
               entries).
Proof.
  intros Hpd. split; intros Hrun.
  - apply json_run_inv in Hrun as (recs & scalars & Hfile & Hhash & -> & ->).
    apply hashable_Ok in Hhash.
    exists recs, scalars, (JsonDist.summary_entries (count_values scalars)).
    split_and!; [done..|apply fs_after_lookup|].
    apply entries_of_counts_elem. rewrite json_entries_counts.
    apply most_common_Permutation.
  - apply csv_run_inv in Hrun as (rows & df & cells & Hfile & Hread & Hcol & -> & ->).
    exists rows, df, cells, (CsvDist.summary_entries (value_counts pd cells)).
    split_and!; [done..|apply fs_after_lookup|].
    apply entries_of_counts_elem. rewrite csv_entries_counts. apply Hpd.
Qed.

Lemma C8_counts_strictly_positive_witness :
  value_counts_ok PandasRef.pandas
  /\ exists rows df cells entries,
       files Sample.csv_fs !! "data/s.csv" = Some (CsvText rows)
       /\ read_csv PandasRef.pandas rows = Ok df
       /\ getitem df "species_name" = Ok cells
       /\ files (snd (CsvDist.compute_column_distribution PandasRef.pandas
                        "data/s.csv" "species_name" "out" (Some "d.csv")
                        Sample.csv_fs)) !! "out/d.csv"
          = Some (summary_file "species_name" entries)
       /\ Forall (fun r => (0 < entry_count r)%Z /\ entry_value r ∈ cells)
                 entries.
Proof.
  split; [exact pandas_value_counts_ok|].
  apply (C8_counts_strictly_positive PandasRef.pandas "data/s.csv"
           "species_name" "out" (Some "d.csv") Sample.csv_fs _ "out/d.csv"
           pandas_value_counts_ok).
  vm_compute. reflexivity.
Defined.

(** C9.  Each aggregator is deterministic: two runs from file systems that
    hold the same source file, with the same field selector, output
    directory and output name, end alike (the same path or the same
    exception), and when they return they have written the same summary,
    row for row.  In the summary of the JSON aggregator, of two rows with
    the same count the upper one is the row whose value occurs first in the
    input. *)
Theorem C9_deterministic_tie_break
    (pd : api) (src field out_dir : string) (output_name : option string)
    (s1 s2 : fs) :
  files s1 !! src = files s2 !! src ->
  (let run := JsonDist.compute_key_distribution src field out_dir output_name in
   (run s1).1 = (run s2).1
   /\ forall p, (run s1).1 = Ok p ->
                files (run s1).2 !! p = files (run s2).2 !! p)
  /\
  (let run := CsvDist.compute_column_distribution pd src field out_dir
                output_name in
   (run s1).1 = (run s2).1
   /\ forall p, (run s1).1 = Ok p ->
                files (run s1).2 !! p = files (run s2).2 !! p)
  /\
  (forall out_path s1',
     JsonDist.compute_key_distribution src field out_dir output_name s1
     = (Ok out_path, s1') ->
     exists recs observations entries,
       files s1 !! src = Some (JsonText (JList recs))
       /\ map (JsonDist.extract field) recs = map JScalar observations
       /\ files s1' !! out_path = Some (summary_file field entries)
       /\ forall i j r1 r2,
            (i < j)%nat -> entries !! i = Some r1 -> entries !! j = Some r2 ->
            entry_count r1 = entry_count r2 ->
            exists p q,
              first_index (entry_value r1) observations = Some p
              /\ first_index (entry_value r2) observations = Some q
              /\ (p < q)%nat).
Proof.
  intros Hsrc. split_and!.
  - cbn zeta.
    unfold JsonDist.compute_key_distribution, bind, json_load. rewrite Hsrc.
    destruct (files s2 !! src) as [[v| | |]|]; cbn; try done.
    destruct v as [a|recs|d]; cbn; try done.
    unfold lift.
    destruct (JsonDist.hashable (map (JsonDist.extract field) recs)); cbn;
      [|done].
    split; [done|]. intros p [= <-]. by rewrite !lookup_insert_eq.
  - cbn zeta.
    unfold CsvDist.compute_column_distribution, bind, pd_read_csv. rewrite Hsrc.
    destruct (files s2 !! src) as [[|rows| |]|]; cbn; try done.
    destruct (read_csv pd rows) as [df|e]; cbn; [|done].
    destruct (bool_decide (field ∈ columns df)); cbn; [|done].
    unfold lift. destruct (getitem df field); cbn; [|done].
    split; [done|]. intros p [= <-]. by rewrite !lookup_insert_eq.
  - intros out_path s1'
      (recs & scalars & Hfile & Hhash & -> & ->)%json_run_inv.
    apply hashable_Ok in Hhash.
    exists recs, scalars, (JsonDist.summary_entries (count_values scalars)).
    split_and!; [done..|apply fs_after_lookup|].
    intros i j r1 r2 Hij Hi Hj Hcount.
    apply (count_values_order _ (entry_count r1) _ (entry_count r2)).
    apply (most_common_stable (entry_value r1, entry_count r1)
                              (entry_value r2, entry_count r2)); [done|].
    rewrite <- json_entries_counts.
    apply (lookup_lt_sublist _ i j); [done| |].
    + rewrite list_lookup_fmap, Hi. by destruct r1 as [[??]?].
    + rewrite list_lookup_fmap, Hj. by destruct r2 as [[??]?].
Qed.

Lemma C9_deterministic_tie_break_witness :
  files Sample.json_fs !! "data/m.json" = files Sample.json_fs_stale !! "data/m.json"
  /\ forall out_path s1',
       JsonDist.compute_key_distribution "data/m.json" "k" "out" None
         Sample.json_fs = (Ok out_path, s1') ->
       exists recs observations entries,
         files Sample.json_fs !! "data/m.json" = Some (JsonText (JList recs))
         /\ map (JsonDist.extract "k") recs = map JScalar observations
         /\ files s1' !! out_path = Some (summary_file "k" entries)
         /\ forall i j r1 r2,
              (i < j)%nat -> entries !! i = Some r1 -> entries !! j = Some r2 ->
              entry_count r1 = entry_count r2 ->
              exists p q,
                first_index (entry_value r1) observations = Some p
                /\ first_index (entry_value r2) observations = Some q
                /\ (p < q)%nat.
Proof.
  assert (files Sample.json_fs !! "data/m.json"
          = files Sample.json_fs_stale !! "data/m.json") as Hsrc
    by (vm_compute; reflexivity).
  split; [exact Hsrc|].
  exact (proj2 (proj2 (C9_deterministic_tie_break PandasRef.pandas
                         "data/m.json" "k" "out" None
                         Sample.json_fs Sample.json_fs_stale Hsrc))).
Defined.

(** C10.  The bar chart renderer of either script rejects a summary with
    fewer than two columns, whatever value column is asked for, before it
    looks for any named column.  With two columns or more and no value
    column given, taking the first column cannot fail and that column is
    found: the checks reject the table exactly when it has no [count]
    column, and otherwise the run goes on to the conversion of the counts,
    the only step left that can raise.  A rejected table leaves the file
    system as it was. *)
Theorem C10_two_column_check_first
    (pd : api) (summary_csv : string) (value_column out_png : option string)
    (s : fs) (rows : list (list string)) (df : DataFrame) :
  files s !! summary_csv = Some (CsvText rows) ->
  read_csv pd rows = Ok df ->
  let too_few : outcome string :=
    Raise (ValueError (summary_csv +:+ " must have at least two columns.")) in
  let no_count : outcome string :=
    Raise (ValueError ("'count' column not found in " +:+ summary_csv)) in
  let png := match out_png with
             | Some p => p
             | None => with_suffix summary_csv ".png"
             end in
  ((length (columns df) < 2)%nat ->
   JsonDist.plot_distribution pd summary_csv value_column out_png s = (too_few, s)
   /\ CsvDist.plot_distribution pd summary_csv value_column out_png s
      = (too_few, s))
  /\
  ((2 <= length (columns df))%nat ->
   ("count" ∉ columns df ->
    JsonDist.plot_distribution pd summary_csv None out_png s = (no_count, s)
    /\ CsvDist.plot_distribution pd summary_csv None out_png s = (no_count, s))
   /\
   ("count" ∈ columns df ->
    exists c xs ys,
      head (columns df) = Some c
      /\ getitem df c = Ok xs
      /\ getitem df "count" = Ok ys
      /\ (JsonDist.plot_distribution pd summary_csv None out_png s).1
         = match astype_int pd ys with Ok _ => Ok png | Raise e => Raise e end
      /\ (CsvDist.plot_distribution pd summary_csv None out_png s).1
         = match astype_int pd ys with Ok _ => Ok png | Raise e => Raise e end)).
Proof.
  intros Hfile Hread too_few no_count png. split.
  - intros Hlen.
    unfold JsonDist.plot_distribution, CsvDist.plot_distribution, bind,
      pd_read_csv.
    rewrite Hfile, Hread.
    assert ((length (columns df) <? 2)%nat = true) as -> by (by apply Nat.ltb_lt).
    done.
  - intros Hlen.
    assert ((length (columns df) <? 2)%nat = false) as Hlt
      by (apply Nat.ltb_ge; lia).
    destruct (columns df) as [|c cols] eqn:Hcols; [cbn in Hlen; lia|].
    assert (c ∈ c :: cols) as Hc by (by left).
    split.
    + intros Hcount.
      unfold JsonDist.plot_distribution, CsvDist.plot_distribution, bind,
        pd_read_csv.
      rewrite Hfile, Hread, Hcols, Hlt. cbn [ret].
      rewrite (bool_decide_eq_true_2 _ Hc), (bool_decide_eq_false_2 _ Hcount).
      done.
    + intros Hcount.
      destruct (getitem_elem_of df c) as [xs Hxs]; [by rewrite Hcols|].
      destruct (getitem_elem_of df "count") as [ys Hys]; [by rewrite Hcols|].
      exists c, xs, ys. split_and!; [done..| |].
      * unfold JsonDist.plot_distribution, bind, pd_read_csv.
        rewrite Hfile, Hread, Hcols, Hlt. cbn [ret].
        rewrite (bool_decide_eq_true_2 _ Hc), (bool_decide_eq_true_2 _ Hcount).
        cbn [negb]. unfold lift. rewrite Hxs, Hys.
        by destruct (astype_int pd ys).
      * unfold CsvDist.plot_distribution, bind, pd_read_csv.
        rewrite Hfile, Hread, Hcols, Hlt. cbn [ret].
        rewrite (bool_decide_eq_true_2 _ Hc), (bool_decide_eq_true_2 _ Hcount).
        cbn [negb]. unfold lift. rewrite Hxs, Hys.
        by destruct (astype_int pd ys).
Qed.

Lemma C10_two_column_check_first_witness :
  JsonDist.plot_distribution PandasRef.pandas "out/one.csv" (Some "count") None
    Sample.one_column_fs
  = (Raise (ValueError "out/one.csv must have at least two columns."),
     Sample.one_column_fs)
  /\ CsvDist.plot_distribution PandasRef.pandas "out/one.csv" (Some "count") None
       Sample.one_column_fs
     = (Raise (ValueError "out/one.csv must have at least two columns."),
        Sample.one_column_fs).
Proof.
  apply (proj1 (C10_two_column_check_first PandasRef.pandas "out/one.csv"
                  (Some "count") None Sample.one_column_fs
                  [["count"]; ["3"]; ["1"]] [("count", [SInt 3; SInt 1])]
                  eq_refl eq_refl)).
  cbn. lia.
Defined.

(* ===================================================================== *)
(** * Further properties of the two scripts *)
(* ===================================================================== *)

(** The properties below go beyond the claims of the specification: the
    failures of the aggregators, what a run writes and what it leaves
    alone, the rows of the summary, the percent column as a whole, and the
    charts of [plot_distribution] and [compute_and_plot_distribution]. *)

Local Open Scope Z_scope.

(** ** How an aggregator fails *)

Module FailureFacts.

Lemma json_run_raises json_path key out_dir output_name s e s' :
  JsonDist.compute_key_distribution json_path key out_dir output_name s
  = (Raise e, s') -> s' = s.
Proof.
  unfold JsonDist.compute_key_distribution, bind, json_load, lift.
  destruct (files s !! json_path) as [[v| | |]|]; try (by intros [= _ <-]).
  destruct v as [a|recs|d]; try (by intros [= _ <-]).
  destruct (JsonDist.hashable _); [done|]. by intros [= _ <-].
Qed.

Lemma csv_run_raises pd csv_path column out_dir output_name s e s' :
  CsvDist.compute_column_distribution pd csv_path column out_dir output_name s
  = (Raise e, s') -> s' = s.
Proof.
  unfold CsvDist.compute_column_distribution, bind, pd_read_csv, lift.
  destruct (files s !! csv_path) as [[|rows| |]|]; try (by intros [= _ <-]).
  destruct (read_csv pd rows) as [df|e']; [|by intros [= _ <-]].
  destruct (decide (column ∈ columns df)) as [Hin|Hin].
  - rewrite bool_decide_eq_true_2 by done. cbn [negb].
    destruct (getitem_elem_of _ _ Hin) as [cells ->]. done.
  - rewrite bool_decide_eq_false_2 by done. by intros [= _ <-].
Qed.

Lemma hashable_first_bad key (recs : list json) i rec :
  recs !! i = Some rec ->
  (forall a, JsonDist.extract key rec <> JScalar a) ->
  (forall j r, (j < i)%nat -> recs !! j = Some r ->
               exists a, JsonDist.extract key r = JScalar a) ->
  JsonDist.hashable (map (JsonDist.extract key) recs)
  = Raise (TypeError ("unhashable type: '"
                      +:+ type_name (JsonDist.extract key rec) +:+ "'")).
Proof.
  revert i. induction recs as [|r recs IH]; intros i Hi Hbad Hbefore; [done|].
  destruct i as [|i]; cbn in Hi.
  - injection Hi as ->. cbn [map JsonDist.hashable].
    destruct (JsonDist.extract key rec) as [a| |]; [by destruct (Hbad a)|done..].
  - cbn [map JsonDist.hashable].
    destruct (Hbefore 0%nat r ltac:(lia) eq_refl) as [a ->].
    rewrite (IH i); [done|done|done|].
    intros j r' Hj Hr'. apply (Hbefore (S j)); [lia|done].
Qed.




End FailureFacts.

Import FailureFacts.

(** ** What a run leaves in the file system *)

Module FrameFacts.
Local Open Scope list_scope.

Lemma fs_after_dirs s out_dir out_path f :
  dirs (fs_after s out_dir out_path f) = {[out_dir]} ∪ dirs s.
Proof. reflexivity. Qed.

Lemma fs_after_other s out_dir out_path f q :
  q <> out_path -> files (fs_after s out_dir out_path f) !! q = files s !! q.
Proof. intros Hq. cbn. by apply lookup_insert_ne. Qed.

Lemma fs_after_again s out_dir out_path f :
  fs_after (fs_after s out_dir out_path f) out_dir out_path f
  = fs_after s out_dir out_path f.
Proof.
  unfold fs_after. cbn [files dirs]. f_equal.
  - apply insert_insert_eq.
  - by rewrite (assoc_L (∪)), (idemp_L (∪)).
Qed.

Lemma summary_rows_width (entries : list entry) :
  Forall (fun row : list string => length row = 3%nat) (map writerow entries).
Proof. apply Forall_forall. by intros row (r & -> & _)%list_elem_of_fmap. Qed.

End FrameFacts.

Import FrameFacts.

(** ** The value that stands for a key *)

Module RepresentativeFacts.
Local Open Scope list_scope.

(** An element kept by [first_occurrences] is the first of its key. *)
Lemma first_occurrences_earliest a seen l :
  a ∈ first_occurrences seen l ->
  exists i, l !! i = Some a
            /\ forall j b, (j < i)%nat -> l !! j = Some b -> ~ same_key b a.
Proof.
  revert seen. induction l as [|x l IH]; intros seen; cbn [first_occurrences].
  - by intros ?%elem_of_nil.
  - case_decide as Hx.
    + intros Ha. destruct (IH _ Ha) as (i & Hi & Hbefore).
      apply elem_of_first_occurrences in Ha as [_ Hseen].
      exists (S i). split; [done|]. intros [|j] b Hj Hb.
      * cbn in Hb. injection Hb as <-. unfold same_key. intros Hk.
        apply Hseen. by rewrite <- Hk.
      * apply (Hbefore j); [lia|done].
    + intros [->|Ha]%elem_of_cons.
      * exists 0%nat. split; [done|]. intros j b Hj. lia.
      * destruct (IH _ Ha) as (i & Hi & Hbefore).
        apply elem_of_first_occurrences in Ha as [_ Hseen].
        exists (S i). split; [done|]. intros [|j] b Hj Hb.
        -- cbn in Hb. injection Hb as <-. unfold same_key. intros Hk.
           apply Hseen. rewrite <- Hk. by left.
        -- apply (Hbefore j); [lia|done].
Qed.

Lemma count_values_earliest x l :
  x ∈ count_values l ->
  exists i, l !! i = Some x.1
            /\ forall j b, (j < i)%nat -> l !! j = Some b -> ~ same_key b x.1.
Proof.
  rewrite count_values_spec. intros (a & -> & Ha)%list_elem_of_fmap.
  by apply (first_occurrences_earliest a []).
Qed.

Lemma num_key_not_NaN n e : num_key n e <> KNaN.
Proof.
  destruct n as [|p|p]; cbn; [done| |]; by destruct (strip_twos p e).
Qed.

(** Only [NaN] is the key [NaN]. *)
Lemma key_of_NaN a : key_of a = KNaN -> a = SFloat S754_nan.
Proof.
  destruct a as [|b|z|x|str]; cbn; [done| | | |done].
  - by intros ?%num_key_not_NaN.
  - by intros ?%num_key_not_NaN.
  - destruct x as [sg|sg| |sg m e]; try done. by intros ?%num_key_not_NaN.
Qed.

End RepresentativeFacts.

Import RepresentativeFacts.

(** ** The percent column as a whole *)

Module PercentColumnFacts.
Local Open Scope Z_scope.
Local Open Scope list_scope.

(** What a successful run of either aggregator has written: rows that list
    the items of the counter of the observations, each with the percentage
    of its count in the total. *)
Lemma run_entries pd src field out_dir output_name s s' out_path :
  value_counts_ok pd ->
  JsonDist.compute_key_distribution src field out_dir output_name s
  = (Ok out_path, s')
  \/ CsvDist.compute_column_distribution pd src field out_dir output_name s
     = (Ok out_path, s') ->
  exists (l : list scalar) (entries : list entry),
    files s' !! out_path = Some (summary_file field entries)
    /\ map fst entries ≡ₚ count_values l
    /\ Forall (fun r => entry_percent r
                        = JsonDist.percent (entry_count r)
                            (sum_list (map entry_count entries))) entries.
Proof.
  intros Hpd [Hrun|Hrun].
  - apply json_run_inv in Hrun as (recs & scalars & _ & _ & -> & ->).
    exists scalars, (JsonDist.summary_entries (count_values scalars)).
    split_and!; [apply fs_after_lookup| |apply json_entries_percent].
    rewrite json_entries_counts. apply most_common_Permutation.
  - apply csv_run_inv in Hrun as (rows & df & cells & _ & _ & _ & -> & ->).
    exists cells, (CsvDist.summary_entries (value_counts pd cells)).
    split_and!; [apply fs_after_lookup| |apply csv_entries_percent].
    rewrite csv_entries_counts. apply Hpd.
Qed.

(** Every count of the rows is positive and at most the total. *)
Lemma entries_count_bounds (l : list scalar) (entries : list entry) :
  map fst entries ≡ₚ count_values l ->
  Forall (fun r => 0 < entry_count r <= sum_list (map entry_count entries))
         entries.
Proof.
  intros Hperm.
  pose proof (entries_of_counts_elem l entries Hperm) as Hpos.
  apply Forall_forall. intros r Hr.
  destruct (proj1 (Forall_forall _ _) Hpos r Hr) as [Hc _].
  split; [exact Hc|]. apply sum_list_elem_le.
  - apply Forall_forall. intros y (r' & -> & Hr')%list_elem_of_fmap.
    by destruct (proj1 (Forall_forall _ _) Hpos r' Hr').
  - apply (list_elem_of_fmap_2 entry_count _ _ Hr).
Qed.

Lemma nearest_percent_le c t n :
  0 < c <= t -> nearest_percent 3 c t n -> 0 <= n <= 100000.
Proof.
  intros Hc [Hn Hnear]. change (10 ^ Z.of_nat 3) with 1000 in Hnear.
  split; [done|]. nia.
Qed.

Lemma nearest_percent_mono c1 c2 t n1 n2 :
  0 < t -> c1 < c2 ->
  nearest_percent 3 c1 t n1 -> nearest_percent 3 c2 t n2 -> n1 <= n2.
Proof.
  intros Ht Hc [_ H1] [_ H2]. change (10 ^ Z.of_nat 3) with 1000 in H1, H2.
  nia.
Qed.

(** The thousandths printed in a column add up to [100000 * sum / t]
    within half a unit per row. *)
Lemma rendered_sum (entries : list entry) t :
  0 < t ->
  Forall (fun r => 0 < entry_count r <= t
                   /\ renders_percent 3 (entry_count r) t (entry_percent r))
         entries ->
  exists ns,
    Forall2 (fun r n => entry_percent r = fixed_point 3 n /\ 0 <= n <= 100000)
            entries ns
    /\ 2 * Z.abs (sum_list ns * t - 100000 * sum_list (map entry_count entries))
       <= Z.of_nat (length entries) * t.
Proof.
  intros Ht. induction 1 as [|r entries [Hc (n & Hs & _ & Hnear)] _ (ns & Hns & Hsum)].
  - exists []. split; [constructor|]. cbn. lia.
  - exists (n :: ns). split.
    + constructor; [|done]. split; [done|]. by eapply nearest_percent_le.
    + destruct Hnear as [_ Hnear]. change (10 ^ Z.of_nat 3) with 1000 in Hnear.
      unfold sum_list in *. cbn [map foldr length]. lia.
Qed.

End PercentColumnFacts.

Import PercentColumnFacts.

(** ** A single value *)

Module SingleValueFacts.
Local Open Scope Z_scope.
Local Open Scope list_scope.

Lemma first_occurrences_all_seen seen l :
  Forall (fun b => key_of b ∈ seen) l -> first_occurrences seen l = [].
Proof.
  induction 1 as [|b l Hb _ IH]; cbn [first_occurrences]; [done|].
  by rewrite decide_True.
Qed.

Lemma occurrences_all a l :
  Forall (same_key a) l -> occurrences a l = Z.of_nat (length l).
Proof.
  intros Hall. unfold occurrences. do 2 f_equal.
  induction Hall as [|b l Hb _ IH]; [done|].
  rewrite filter_cons, decide_True by done. by rewrite IH.
Qed.

(** A list whose elements are all one key is counted into one entry, which
    holds the first element. *)
Lemma count_values_single a l :
  Forall (same_key a) l ->
  count_values (a :: l) = [(a, Z.of_nat (length (a :: l)))].
Proof.
  intros Hall. rewrite count_values_spec. cbn [first_occurrences].
  rewrite decide_False by apply not_elem_of_nil.
  rewrite first_occurrences_all_seen.
  - cbn [map]. rewrite occurrences_all; [done|].
    constructor; [done|exact Hall].
  - eapply Forall_impl; [exact Hall|]. intros b Hb. cbv beta.
    unfold same_key in Hb. rewrite <- Hb. by left.
Qed.

(** The whole of a total is printed as [100.000]. *)
Lemma percent_of_whole n : 0 < n < 2 ^ 33 -> JsonDist.percent n n = "100.000".
Proof.
  intros Hn.
  destruct (json_percent_renders n n) as (m & -> & _ & _ & Hnear); [lia..|].
  change (10 ^ Z.of_nat 3) with 1000 in Hnear.
  assert (m = 100000) as -> by nia. reflexivity.
Qed.

Lemma json_entries_same_total c :
  JsonDist.summary_entries c
  = map (fun '(value, count) =>
           (value, count, JsonDist.percent count (total_count c)))
        (most_common c).
Proof. reflexivity. Qed.

Lemma csv_entries_same_total (c : counter) :
  CsvDist.summary_entries c
  = map (fun '(value, count) =>
           (value, count, JsonDist.percent count (total_count c))) c.
Proof. reflexivity. Qed.

End SingleValueFacts.

Import SingleValueFacts.

(** ** The counter of a permuted list *)

Module ShuffleFacts.
Local Open Scope Z_scope.
Local Open Scope list_scope.

Lemma occurrences_same_key a b l :
  same_key a b -> occurrences a l = occurrences b l.
Proof.
  intros Hk. unfold occurrences. do 2 f_equal.
  apply list_filter_iff. intros x. unfold same_key in *. by rewrite Hk.
Qed.

Lemma occurrences_Permutation a l1 l2 :
  l1 ≡ₚ l2 -> occurrences a l1 = occurrences a l2.
Proof. intros Hperm. unfold occurrences. by rewrite Hperm. Qed.

Lemma elem_of_key_counts k n l :
  (k, n) ∈ key_counts_of (count_values l)
  <-> exists a, a ∈ l /\ key_of a = k /\ n = occurrences a l.
Proof.
  unfold key_counts_of. rewrite count_values_spec, map_map. cbn [fst snd]. split.
  - intros (a & [= -> ->] & Ha)%list_elem_of_fmap.
    apply elem_of_first_occurrences in Ha as [Ha _]. by exists a.
  - intros (a & Ha & <- & ->).
    destruct (first_occurrences_complete a [] l Ha) as (b & Hb & Hk).
    { apply not_elem_of_nil. }
    apply list_elem_of_fmap. exists b. split; [|done].
    rewrite Hk. f_equal. by apply occurrences_same_key.
Qed.

Lemma key_counts_NoDup l : NoDup (key_counts_of (count_values l)).
Proof.
  apply (NoDup_fmap_1 fst). unfold key_counts_of. rewrite <- list_fmap_compose.
  apply (keys_count_values_NoDup l).
Qed.

(** Counting a permutation of a list gives the same keys with the same
    counts. *)
Lemma key_counts_Permutation l1 l2 :
  l1 ≡ₚ l2 ->
  key_counts_of (count_values l1) ≡ₚ key_counts_of (count_values l2).
Proof.
  intros Hperm. apply NoDup_Permutation; [apply key_counts_NoDup..|].
  intros [k n]. rewrite !elem_of_key_counts.
  split; intros (a & Ha & Hk & ->); exists a.
  - split_and!; [by rewrite <- Hperm|done|by apply occurrences_Permutation].
  - split_and!; [by rewrite Hperm|done|].
    symmetry. by apply occurrences_Permutation.
Qed.

Lemma keyed_rows_json l :
  map keyed_row (JsonDist.summary_entries (count_values l))
  ≡ₚ map (fun x : key * Z =>
            (x.1, x.2, JsonDist.percent x.2 (Z.of_nat (length l))))
         (key_counts_of (count_values l)).
Proof.
  rewrite json_entries_same_total, total_count_values.
  rewrite (most_common_Permutation (count_values l)).
  unfold key_counts_of. rewrite !map_map.
  erewrite map_ext; [reflexivity|]. by intros [a n].
Qed.

End ShuffleFacts.

Import ShuffleFacts.

(** ** Runs of [plot_distribution] and of the pie chart block *)

Module PlotFacts.
Local Open Scope list_scope.

Ltac plot_cases Hrun :=
  unfold JsonDist.plot_distribution, CsvDist.plot_distribution,
    JsonDist.plot_pie, CsvDist.plot_pie, bind,
    pd_read_csv, lift, ret, raise, write_file in Hrun;
  repeat match type of Hrun with
         | context [match files ?s !! ?p with _ => _ end] =>
             destruct (files s !! p) as [[| | |]|] eqn:?
         | context [match read_csv ?pd ?rows with _ => _ end] =>
             destruct (read_csv pd rows) eqn:?
         | context [if (length (columns ?df) <? 2)%nat then _ else _] =>
             destruct (length (columns df) <? 2)%nat eqn:?
         | context [match ?o with Some _ => _ | None => _ end] =>
             is_var o; destruct o
         | context [match columns ?df with _ => _ end] =>
             destruct (columns df) eqn:?
         | context [bool_decide ?P] => destruct (bool_decide P) eqn:?
         | context [match getitem ?df ?c with _ => _ end] =>
             destruct (getitem df c) eqn:?
         | context [match astype_int ?pd ?ys with _ => _ end] =>
             destruct (astype_int pd ys) eqn:?
         end; cbn [negb] in Hrun.

Lemma json_plot_raises pd summary_csv value_column out_png s e s' :
  JsonDist.plot_distribution pd summary_csv value_column out_png s
  = (Raise e, s') -> s' = s.
Proof. intros Hrun. plot_cases Hrun; by simplify_eq. Qed.

Lemma csv_plot_raises pd summary_csv value_column out_png s e s' :
  CsvDist.plot_distribution pd summary_csv value_column out_png s
  = (Raise e, s') -> s' = s.
Proof. intros Hrun. plot_cases Hrun; by simplify_eq. Qed.

Lemma json_plot_inv pd summary_csv value_column out_png s p s' :
  JsonDist.plot_distribution pd summary_csv value_column out_png s
  = (Ok p, s') ->
  exists rows df c xs ys y,
    files s !! summary_csv = Some (CsvText rows)
    /\ read_csv pd rows = Ok df
    /\ (2 <= length (columns df))%nat
    /\ match value_column with
       | Some c' => c = c'
       | None => head (columns df) = Some c
       end
    /\ getitem df c = Ok xs
    /\ getitem df "count" = Ok ys
    /\ astype_int pd ys = Ok y
    /\ p = match out_png with
           | Some q => q
           | None => with_suffix summary_csv ".png"
           end
    /\ s' = Fs (<[p := BarPng (bar_chart_of
                                 (format_column JsonDist.DEFAULT_BAR_TITLE_TEMPLATE c)
                                 c xs y)]> (files s))
               (dirs s).
Proof.
  intros Hrun. plot_cases Hrun; simplify_eq;
    eexists _, _, _, _, _, _;
    (split_and!;
     [reflexivity|eassumption|apply Nat.ltb_ge; congruence|
      first [reflexivity
            |match goal with H : columns _ = _ |- _ => by rewrite H end]|
      eassumption..|reflexivity|reflexivity]).
Qed.

Lemma csv_plot_inv pd summary_csv value_column out_png s p s' :
  CsvDist.plot_distribution pd summary_csv value_column out_png s
  = (Ok p, s') ->
  exists rows df c xs ys y,
    files s !! summary_csv = Some (CsvText rows)
    /\ read_csv pd rows = Ok df
    /\ (2 <= length (columns df))%nat
    /\ match value_column with
       | Some c' => c = c'
       | None => head (columns df) = Some c
       end
    /\ getitem df c = Ok xs
    /\ getitem df "count" = Ok ys
    /\ astype_int pd ys = Ok y
    /\ p = match out_png with
           | Some q => q
           | None => with_suffix summary_csv ".png"
           end
    /\ s' = Fs (<[p := BarPng (bar_chart_of
                                 (format_column CsvDist.DEFAULT_BAR_TITLE_TEMPLATE c)
                                 c xs y)]> (files s))
               (dirs s).
Proof.
  intros Hrun. plot_cases Hrun; simplify_eq;
    eexists _, _, _, _, _, _;
    (split_and!;
     [reflexivity|eassumption|apply Nat.ltb_ge; congruence|
      first [reflexivity
            |match goal with H : columns _ = _ |- _ => by rewrite H end]|
      eassumption..|reflexivity|reflexivity]).
Qed.

(** The pie chart drawn from the columns that were read. *)
Lemma json_pie_raises pd summary_csv key pie_path s e s' :
  JsonDist.plot_pie pd summary_csv key pie_path s = (Raise e, s') -> s' = s.
Proof. intros Hrun. plot_cases Hrun; by simplify_eq. Qed.

Lemma csv_pie_raises pd summary_csv column pie_path s e s' :
  CsvDist.plot_pie pd summary_csv column pie_path s = (Raise e, s') -> s' = s.
Proof. intros Hrun. plot_cases Hrun; by simplify_eq. Qed.

Lemma json_pie_inv pd summary_csv key pie_path s u s' :
  JsonDist.plot_pie pd summary_csv key pie_path s = (Ok u, s') ->
  exists rows df xs ys y,
    files s !! summary_csv = Some (CsvText rows)
    /\ read_csv pd rows = Ok df
    /\ getitem df key = Ok xs
    /\ getitem df "count" = Ok ys
    /\ astype_int pd ys = Ok y
    /\ s' = Fs (<[pie_path :=
                   PiePng {| pie_sizes := y;
                             pie_legend :=
                               JsonDist.legend_labels (astype_str xs) y (sum_list y);
                             pie_legend_title := key;
                             pie_title :=
                               format_column JsonDist.DEFAULT_PIE_TITLE_TEMPLATE key |}]>
                 (files s))
               (dirs s).
Proof.
  intros Hrun. plot_cases Hrun; simplify_eq.
  eexists _, _, _, _, _.
  split_and!; [reflexivity|eassumption..|]. by rewrite pie_total.
Qed.

Lemma csv_pie_inv pd summary_csv column pie_path s u s' :
  CsvDist.plot_pie pd summary_csv column pie_path s = (Ok u, s') ->
  exists rows df xs ys y,
    files s !! summary_csv = Some (CsvText rows)
    /\ read_csv pd rows = Ok df
    /\ getitem df column = Ok xs
    /\ getitem df "count" = Ok ys
    /\ astype_int pd ys = Ok y
    /\ s' = Fs (<[pie_path :=
                   PiePng {| pie_sizes := y;
                             pie_legend :=
                               JsonDist.legend_labels (astype_str xs) y (sum_list y);
                             pie_legend_title := column;
                             pie_title :=
                               format_column CsvDist.DEFAULT_PIE_TITLE_TEMPLATE column |}]>
                 (files s))
               (dirs s).
Proof.
  intros Hrun. plot_cases Hrun; simplify_eq.
  eexists _, _, _, _, _.
  split_and!; [reflexivity|eassumption..|]. by rewrite pie_total.
Qed.

(** The shipped title templates hold no replacement field. *)
Lemma json_titles c :
  format_column JsonDist.DEFAULT_BAR_TITLE_TEMPLATE c
  = JsonDist.DEFAULT_BAR_TITLE_TEMPLATE
  /\ format_column JsonDist.DEFAULT_PIE_TITLE_TEMPLATE c
     = JsonDist.DEFAULT_PIE_TITLE_TEMPLATE.
Proof. split; reflexivity. Qed.

Lemma csv_titles c :
  format_column CsvDist.DEFAULT_BAR_TITLE_TEMPLATE c = CsvDist.FOLDER_NAME
  /\ format_column CsvDist.DEFAULT_PIE_TITLE_TEMPLATE c = CsvDist.FOLDER_NAME.
Proof. split; reflexivity. Qed.

(** The steps of a run of [compute_and_plot_distribution] that returns. *)
Lemma json_pipeline_inv pd json_path key out_dir output_name plot_name pie_name
    s r s' :
  JsonDist.compute_and_plot_distribution pd json_path key out_dir output_name
    plot_name pie_name s = (Ok r, s') ->
  exists summary bar s1 s2,
    JsonDist.compute_key_distribution json_path key out_dir output_name s
    = (Ok summary, s1)
    /\ JsonDist.plot_distribution pd summary (Some key)
         (option_map (path_join out_dir) plot_name) s1 = (Ok bar, s2)
    /\ JsonDist.plot_pie pd summary key (pie_path_of summary out_dir pie_name) s2
       = (Ok tt, s')
    /\ r = (summary, bar, pie_path_of summary out_dir pie_name).
Proof.
  unfold JsonDist.compute_and_plot_distribution, bind at 1.
  destruct (JsonDist.compute_key_distribution _ _ _ _ s) as [[summary|e] s1]
    eqn:Hsum; [|done].
  unfold bind at 1.
  destruct (JsonDist.plot_distribution _ _ _ _ s1) as [[bar|e] s2] eqn:Hbar;
    [|done].
  unfold bind at 1, pie_path_of.
  destruct (JsonDist.plot_pie _ _ _ _ s2) as [[[]|e] s3] eqn:Hpie; [|done].
  intros [= <- <-]. by exists summary, bar, s1, s2.
Qed.

Lemma csv_pipeline_inv pd csv_path column out_dir output_name plot_name pie_name
    s r s' :
  CsvDist.compute_and_plot_distribution pd csv_path column out_dir output_name
    plot_name pie_name s = (Ok r, s') ->
  exists summary bar s1 s2,
    CsvDist.compute_column_distribution pd csv_path column out_dir output_name s
    = (Ok summary, s1)
    /\ CsvDist.plot_distribution pd summary (Some column)
         (option_map (path_join out_dir) plot_name) s1 = (Ok bar, s2)
    /\ CsvDist.plot_pie pd summary column (pie_path_of summary out_dir pie_name) s2
       = (Ok tt, s')
    /\ r = (summary, bar, pie_path_of summary out_dir pie_name).
Proof.
  unfold CsvDist.compute_and_plot_distribution, bind at 1.
  destruct (CsvDist.compute_column_distribution _ _ _ _ _ s) as [[summary|e] s1]
    eqn:Hsum; [|done].
  unfold bind at 1.
  destruct (CsvDist.plot_distribution _ _ _ _ s1) as [[bar|e] s2] eqn:Hbar;
    [|done].
  unfold bind at 1, pie_path_of.
  destruct (CsvDist.plot_pie _ _ _ _ s2) as [[[]|e] s3] eqn:Hpie; [|done].
  intros [= <- <-]. by exists summary, bar, s1, s2.
Qed.

End PlotFacts.

Import PlotFacts.

(** ** Paths *)

Module PathFacts.

Lemma append_assoc (a b c : string) : (a +:+ b) +:+ c = a +:+ b +:+ c.
Proof.
  induction a as [|x a IH]; [done|].
  change (String x ((a +:+ b) +:+ c) = String x (a +:+ b +:+ c)). by f_equal.
Qed.

Lemma rsplit_joins c s l r : rsplit c s = Some (l, r) -> s = l +:+ String c r.
Proof.
  revert l. induction s as [|a s IH]; intros l; cbn [rsplit]; [done|].
  destruct (rsplit c s) as [[l' r']|].
  - intros [= <- <-]. change (String a s = String a (l' +:+ String c r')).
    f_equal. by apply IH.
  - case_decide as Ha; [|done]. intros [= <- <-]. by rewrite Ha.
Qed.

Lemma rsplit_app c a b :
  rsplit c b = None ->
  rsplit c (a +:+ b)
  = match rsplit c a with
    | Some (l, r) => Some (l, r +:+ b)
    | None => None
    end.
Proof.
  intros Hb. induction a as [|x a IH];
    [change ("" +:+ b) with b; by rewrite Hb|].
  change (String x a +:+ b) with (String x (a +:+ b)). cbn [rsplit].
  rewrite IH. destruct (rsplit c a) as [[l r]|]; [done|].
  by case_decide.
Qed.

Lemma rsplit_last c a b :
  rsplit c b = None -> rsplit c (a +:+ String c b) = Some (a, b).
Proof.
  intros Hb. induction a as [|x a IH].
  - change ("" +:+ String c b) with (String c b). cbn [rsplit].
    rewrite Hb. by rewrite decide_True.
  - change (String x a +:+ String c b) with (String x (a +:+ String c b)).
    cbn [rsplit]. by rewrite IH.
Qed.

Lemma path_split_joins p : (path_split p).1 +:+ (path_split p).2 = p.
Proof.
  unfold path_split. destruct (rsplit "/" p) as [[d n]|] eqn:Hp; [|done].
  apply rsplit_joins in Hp as ->. cbn [fst snd]. by rewrite append_assoc.
Qed.

Lemma path_split_app p b :
  rsplit "/" b = None ->
  path_split (p +:+ b) = ((path_split p).1, (path_split p).2 +:+ b).
Proof.
  intros Hb. unfold path_split. rewrite rsplit_app by done.
  by destruct (rsplit "/" p) as [[d n]|].
Qed.

(** Replacing the suffix of a path that ends in a suffix [.ext]. *)
Lemma with_suffix_ext p ext sfx :
  (path_split p).2 <> "" -> ext <> "" ->
  rsplit "." ext = None -> rsplit "/" ext = None ->
  with_suffix (p +:+ String "." ext) sfx = p +:+ sfx.
Proof.
  intros Hname Hext Hdot Hslash. unfold with_suffix.
  rewrite path_split_app.
  2:{ cbn [rsplit]. rewrite Hslash. by rewrite decide_False. }
  unfold name_stem. rewrite rsplit_last by done.
  rewrite decide_False by (intros [?|?]; done).
  by rewrite <- append_assoc, path_split_joins.
Qed.

Lemma append_not_empty a b : b <> "" -> a +:+ b <> "".
Proof. by destruct a. Qed.

(** The default summary path is a base name with the suffix [.csv]. *)
Lemma default_out_path src field out_dir :
  out_path_of src field out_dir None
  = path_join out_dir (path_stem src +:+ "_" +:+ field +:+ "_distribution")
    +:+ ".csv".
Proof.
  unfold out_path_of, path_join. rewrite !append_assoc.
  change "_distribution.csv" with ("_distribution" +:+ ".csv"). done.
Qed.

Lemma default_base_name src field out_dir :
  (path_split (path_join out_dir
                 (path_stem src +:+ "_" +:+ field +:+ "_distribution"))).2 <> "".
Proof.
  unfold path_join. rewrite <- !append_assoc.
  rewrite path_split_app by reflexivity. cbn [snd].
  by apply append_not_empty.
Qed.

Lemma default_with_suffix src field out_dir sfx :
  with_suffix (out_path_of src field out_dir None) sfx
  = path_join out_dir (path_stem src +:+ "_" +:+ field +:+ "_distribution")
    +:+ sfx.
Proof.
  rewrite default_out_path.
  apply (with_suffix_ext _ "csv"); [apply default_base_name|done..].
Qed.

Lemma append_inv_head (a b c : string) : a +:+ b = a +:+ c -> b = c.
Proof.
  induction a as [|x a IH]; [done|].
  change (String x (a +:+ b) = String x (a +:+ c) -> b = c).
  intros [= H]. by apply IH.
Qed.

End PathFacts.

Import PathFacts.

(** ** Runs of [compute_and_plot_distribution] *)

Module PipelineFacts.
Local Open Scope list_scope.

Lemma bar_path_option summary out_dir plot_name :
  match option_map (path_join out_dir) plot_name with
  | Some q => q
  | None => with_suffix summary ".png"
  end = bar_path_of summary out_dir plot_name.
Proof. by destruct plot_name. Qed.

Lemma json_bar_written pd summary_csv value_column out_png s p s' :
  JsonDist.plot_distribution pd summary_csv value_column out_png s = (Ok p, s') ->
  bar_written JsonDist.DEFAULT_BAR_TITLE_TEMPLATE summary_csv value_column out_png
    s p s'.
Proof.
  intros (rows & df & c & xs & ys & y & _ & _ & _ & Hc & _ & _ & _ & Hp & ->)%json_plot_inv.
  split_and!; [done|done|by intros; apply lookup_insert_ne|].
  eexists. split; [apply lookup_insert_eq|].
  split_and!; [apply json_titles|done| |done].
  intros c' ->. by subst.
Qed.

Lemma csv_bar_written pd summary_csv value_column out_png s p s' :
  CsvDist.plot_distribution pd summary_csv value_column out_png s = (Ok p, s') ->
  bar_written CsvDist.FOLDER_NAME summary_csv value_column out_png s p s'.
Proof.
  intros (rows & df & c & xs & ys & y & _ & _ & _ & Hc & _ & _ & _ & Hp & ->)%csv_plot_inv.
  split_and!; [done|done|by intros; apply lookup_insert_ne|].
  eexists. split; [apply lookup_insert_eq|].
  split_and!; [apply csv_titles|done| |done].
  intros c' ->. by subst.
Qed.

Lemma json_pipeline_written pd src field out_dir output_name plot_name pie_name
    s summary bar pie s' :
  JsonDist.compute_and_plot_distribution pd src field out_dir output_name
    plot_name pie_name s = (Ok (summary, bar, pie), s') ->
  pipeline_written JsonDist.DEFAULT_BAR_TITLE_TEMPLATE
    JsonDist.DEFAULT_PIE_TITLE_TEMPLATE JsonDist.legend_labels src field out_dir output_name plot_name
    pie_name s summary bar pie s'.
Proof.
  intros (summary' & bar' & s1 & s2 & Hsum & Hbar & Hpie & [= <- <- ->])%json_pipeline_inv.
  apply json_run_inv in Hsum as (recs & scalars & _ & _ & Hsummary & ->).
  apply json_plot_inv in Hbar
    as (rows & df & c & xs & ys & y & Hfile & Hread & _ & <- & Hxs & Hys & Hy & Hp & ->).
  rewrite bar_path_option in Hp.
  apply json_pie_inv in Hpie
    as (rows' & df' & xs' & ys' & y' & Hfile' & Hread' & Hxs' & Hys' & Hy' & ->).
  cbn [files dirs] in *.
  assert (bar <> summary) as Hne.
  { intros ->. by rewrite lookup_insert_eq in Hfile'. }
  rewrite lookup_insert_ne in Hfile' by done.
  rewrite Hfile in Hfile'. injection Hfile' as <-.
  rewrite Hread in Hread'. injection Hread' as <-.
  rewrite Hxs in Hxs'. injection Hxs' as <-.
  rewrite Hys in Hys'. injection Hys' as <-.
  rewrite Hy in Hy'. injection Hy' as <-.
  split_and!; [by subst..|done|done|].
  eexists _, _, _. split; [reflexivity|].
  split_and!; [apply json_titles|apply json_titles|done..].
Qed.

Lemma csv_pipeline_written pd src field out_dir output_name plot_name pie_name
    s summary bar pie s' :
  CsvDist.compute_and_plot_distribution pd src field out_dir output_name
    plot_name pie_name s = (Ok (summary, bar, pie), s') ->
  pipeline_written CsvDist.FOLDER_NAME CsvDist.FOLDER_NAME
    CsvDist.legend_labels src field out_dir
    output_name plot_name pie_name s summary bar pie s'.
Proof.
  intros (summary' & bar' & s1 & s2 & Hsum & Hbar & Hpie & [= <- <- ->])%csv_pipeline_inv.
  apply csv_run_inv in Hsum as (rws & df0 & cells & _ & _ & _ & Hsummary & ->).
  apply csv_plot_inv in Hbar
    as (rows & df & c & xs & ys & y & Hfile & Hread & _ & <- & Hxs & Hys & Hy & Hp & ->).
  rewrite bar_path_option in Hp.
  apply csv_pie_inv in Hpie
    as (rows' & df' & xs' & ys' & y' & Hfile' & Hread' & Hxs' & Hys' & Hy' & ->).
  cbn [files dirs] in *.
  assert (bar <> summary) as Hne.
  { intros ->. by rewrite lookup_insert_eq in Hfile'. }
  rewrite lookup_insert_ne in Hfile' by done.
  rewrite Hfile in Hfile'. injection Hfile' as <-.
  rewrite Hread in Hread'. injection Hread' as <-.
  rewrite Hxs in Hxs'. injection Hxs' as <-.
  rewrite Hys in Hys'. injection Hys' as <-.
  rewrite Hy in Hy'. injection Hy' as <-.
  split_and!; [by subst..|done|done|].
  eexists _, _, _. split; [reflexivity|].
  split_and!; [apply csv_titles|apply csv_titles|done..].
Qed.

End PipelineFacts.

Import PipelineFacts.

(** ** The properties *)



(** X2.  When the value taken from some record of the list is a list or an
    object, the JSON aggregator raises [TypeError], naming the type of the
    first such value, and the file system stays as it was: [Counter] hashes
    the values before the output directory is made. *)
Theorem json_unhashable_value_raises
    (json_path key out_dir : string) (output_name : option string) (s : fs)
    (recs : list json) (i : nat) (rec : json) :
  files s !! json_path = Some (JsonText (JList recs)) ->
  recs !! i = Some rec ->
  (forall a, JsonDist.extract key rec <> JScalar a) ->
  (forall j r, (j < i)%nat -> recs !! j = Some r ->
               exists a, JsonDist.extract key r = JScalar a) ->
  JsonDist.compute_key_distribution json_path key out_dir output_name s
  = (Raise (TypeError ("unhashable type: '"
                       +:+ type_name (JsonDist.extract key rec) +:+ "'")), s).
Proof.
  intros Hfile Hi Hbad Hbefore.
  unfold JsonDist.compute_key_distribution, bind, json_load, lift.
  rewrite Hfile. by rewrite (hashable_first_bad key recs i rec).
Qed.

Lemma json_unhashable_value_raises_witness :
  JsonDist.compute_key_distribution "data/u.json" "k" "out" None Sample.json_unhashable_fs
  = (Raise (TypeError "unhashable type: 'list'"), Sample.json_unhashable_fs).
Proof.
  apply (json_unhashable_value_raises "data/u.json" "k" "out" None
           Sample.json_unhashable_fs Sample.json_unhashable_records 1
           (JDict [("k", JList [JScalar (SStr "x")])])).
  - reflexivity.
  - reflexivity.
  - intros a. discriminate.
  - intros [|j] r Hj Hr; [|lia]. injection Hr as <-. eexists. reflexivity.
Defined.



(** X4.  A run of an aggregator that returns has made the output directory,
    has written one file, at the path it returns (the output name, or
    [<stem>_<field>_distribution.csv], inside the output directory), and
    has left every other file as it was.  The file starts with the header
    [field, count, percent] and every row below it has three fields. *)
Theorem aggregator_writes_one_file
    (pd : api) (src field out_dir : string) (output_name : option string)
    (s s' : fs) (out_path : string) :
  JsonDist.compute_key_distribution src field out_dir output_name s
  = (Ok out_path, s')
  \/ CsvDist.compute_column_distribution pd src field out_dir output_name s
     = (Ok out_path, s') ->
  out_path
  = path_join out_dir
      match output_name with
      | Some n => n
      | None => path_stem src +:+ "_" +:+ field +:+ "_distribution.csv"
      end
  /\ dirs s' = {[out_dir]} ∪ dirs s
  /\ (forall q, q <> out_path -> files s' !! q = files s !! q)
  /\ exists rows,
       files s' !! out_path = Some (CsvText ([field; "count"; "percent"] :: rows))
       /\ Forall (fun row => length row = 3%nat) rows.
Proof.
  intros [Hrun|Hrun].
  - apply json_run_inv in Hrun as (recs & scalars & _ & _ & -> & ->).
    split_and!; [done|done|by intros; apply fs_after_other|].
    eexists. split; [apply fs_after_lookup|apply summary_rows_width].
  - apply csv_run_inv in Hrun as (rows & df & cells & _ & _ & _ & -> & ->).
    split_and!; [done|done|by intros; apply fs_after_other|].
    eexists. split; [apply fs_after_lookup|apply summary_rows_width].
Qed.

Lemma aggregator_writes_one_file_witness :
  dirs (JsonDist.compute_key_distribution "data/m.json" "k" "out" None
          Sample.json_fs).2 = {[ "out" ]} ∪ dirs Sample.json_fs
  /\ files (JsonDist.compute_key_distribution "data/m.json" "k" "out" None
              Sample.json_fs).2 !! "data/m.json"
     = files Sample.json_fs !! "data/m.json".
Proof.
  destruct (aggregator_writes_one_file PandasRef.pandas "data/m.json" "k" "out"
              None Sample.json_fs
              (JsonDist.compute_key_distribution "data/m.json" "k" "out" None
                 Sample.json_fs).2
              "out/m_k_distribution.csv")
    as (_ & Hdirs & Hframe & _).
  - left. vm_compute. reflexivity.
  - split; [exact Hdirs|]. apply Hframe. discriminate.
Defined.

(** X5.  With no output name, the summary of the source [dir/name.ext] is
    written to [out_dir/name_field_distribution.csv]: the stem drops the
    directory and the last suffix of the source. *)
Theorem default_summary_name
    (pd : api) (dir name ext field out_dir : string) (s s' : fs) (out_path : string) :
  name <> "" -> ext <> "" ->
  rsplit "/" name = None -> rsplit "/" ext = None -> rsplit "." ext = None ->
  let src := dir +:+ "/" +:+ name +:+ "." +:+ ext in
  JsonDist.compute_key_distribution src field out_dir None s = (Ok out_path, s')
  \/ CsvDist.compute_column_distribution pd src field out_dir None s
     = (Ok out_path, s') ->
  out_path = out_dir +:+ "/" +:+ name +:+ "_" +:+ field +:+ "_distribution.csv".
Proof.
  intros Hname Hext Hn He Hdot src Hrun.
  assert (path_stem src = name) as Hstem.
  { unfold path_stem, path_split, src.
    change ("/" +:+ name +:+ "." +:+ ext) with (String "/" (name +:+ String "." ext)).
    rewrite rsplit_last.
    - cbn [snd]. unfold name_stem. rewrite rsplit_last by done.
      rewrite decide_False; [done|]. by intros [?|?].
    - rewrite rsplit_app; [by rewrite Hn|].
      cbn [rsplit]. rewrite He. by rewrite decide_False. }
  assert (out_path = out_path_of src field out_dir None) as ->.
  { destruct Hrun as [Hrun|Hrun].
    - by apply json_run_inv in Hrun as (? & ? & _ & _ & -> & _).
    - by apply csv_run_inv in Hrun as (? & ? & ? & _ & _ & _ & -> & _). }
  unfold out_path_of, path_join. by rewrite Hstem.
Qed.

Lemma default_summary_name_witness :
  match (JsonDist.compute_key_distribution "data/m.json" "k" "out" None
           Sample.json_fs).1 with
  | Ok out_path => out_path
  | Raise _ => ""
  end = "out/m_k_distribution.csv".
Proof.
  apply (default_summary_name PandasRef.pandas "data" "m" "json" "k" "out"
           Sample.json_fs
           (JsonDist.compute_key_distribution "data/m.json" "k" "out" None
              Sample.json_fs).2);
    [discriminate|discriminate|reflexivity|reflexivity|reflexivity|].
  left. vm_compute. reflexivity.
Defined.

(** X6.  Running an aggregator again with the same arguments, when the summary
    is not written over the source, returns the same path and leaves the
    file system exactly as the first run left it. *)
Theorem aggregator_rerun_idempotent
    (pd : api) (src field out_dir : string) (output_name : option string)
    (s s1 : fs) (out_path : string) :
  out_path <> src ->
  (JsonDist.compute_key_distribution src field out_dir output_name s
   = (Ok out_path, s1) ->
   JsonDist.compute_key_distribution src field out_dir output_name s1
   = (Ok out_path, s1))
  /\
  (CsvDist.compute_column_distribution pd src field out_dir output_name s
   = (Ok out_path, s1) ->
   CsvDist.compute_column_distribution pd src field out_dir output_name s1
   = (Ok out_path, s1)).
Proof.
  intros Hne. split; intros Hrun.
  - apply json_run_inv in Hrun as (recs & scalars & Hfile & Hhash & -> & ->).
    erewrite json_run; [|by rewrite fs_after_other|done].
    by rewrite fs_after_again.
  - apply csv_run_inv in Hrun as (rows & df & cells & Hfile & Hread & Hcol & -> & ->).
    erewrite csv_run; [|by rewrite fs_after_other|done..].
    by rewrite fs_after_again.
Qed.

Lemma aggregator_rerun_idempotent_witness :
  let s1 := (JsonDist.compute_key_distribution "data/m.json" "k" "out" None
               Sample.json_fs).2 in
  JsonDist.compute_key_distribution "data/m.json" "k" "out" None s1
  = (Ok "out/m_k_distribution.csv", s1).
Proof.
  refine (proj1 (aggregator_rerun_idempotent PandasRef.pandas "data/m.json" "k"
                   "out" None Sample.json_fs _ "out/m_k_distribution.csv" _) _).
  - discriminate.
  - vm_compute. reflexivity.
Defined.

(** X7.  An empty source gives a summary that holds the header row only: the
    empty JSON list, and (for a [value_counts] that lists the counter's
    items) a CSV column without cells. *)
Theorem empty_source_header_only
    (pd : api) (src field out_dir : string) (output_name : option string)
    (s : fs) :
  (files s !! src = Some (JsonText (JList [])) ->
   exists out_path s',
     JsonDist.compute_key_distribution src field out_dir output_name s
     = (Ok out_path, s')
     /\ files s' !! out_path = Some (CsvText [[field; "count"; "percent"]]))
  /\
  (value_counts_ok pd ->
   forall rows df,
     files s !! src = Some (CsvText rows) ->
     read_csv pd rows = Ok df ->
     getitem df field = Ok [] ->
     exists out_path s',
       CsvDist.compute_column_distribution pd src field out_dir output_name s
       = (Ok out_path, s')
       /\ files s' !! out_path = Some (CsvText [[field; "count"; "percent"]])).
Proof.
  split.
  - intros Hfile. eexists _, _. split.
    + by apply (json_run _ _ _ _ _ [] []).
    + by rewrite fs_after_lookup.
  - intros Hpd rows df Hfile Hread Hcol. eexists _, _. split.
    + by eapply csv_run.
    + rewrite fs_after_lookup.
      pose proof (Hpd []) as Hperm. apply Permutation_nil_r in Hperm.
      by rewrite Hperm.
Qed.

Lemma empty_source_header_only_witness :
  (exists out_path s',
     JsonDist.compute_key_distribution "data/e.json" "k" "out" None Sample.json_empty_fs
     = (Ok out_path, s')
     /\ files s' !! out_path = Some (CsvText [["k"; "count"; "percent"]]))
  /\ (exists out_path s',
        CsvDist.compute_column_distribution PandasRef.pandas "data/h.csv"
          "species_name" "out" None Sample.csv_header_only_fs = (Ok out_path, s')
        /\ files s' !! out_path
           = Some (CsvText [["species_name"; "count"; "percent"]])).
Proof.
  split.
  - apply (proj1 (empty_source_header_only PandasRef.pandas "data/e.json" "k"
                    "out" None Sample.json_empty_fs)).
    reflexivity.
  - apply (proj2 (empty_source_header_only PandasRef.pandas "data/h.csv"
                    "species_name" "out" None Sample.csv_header_only_fs)
             pandas_value_counts_ok [["species_name"; "id"]]
             [("species_name", []); ("id", [])]); reflexivity.
Defined.

(** X8.  The value written in a row of the JSON summary is the first
    observation of its key: values that are equal as dictionary keys, as
    [True], [1] and [1.0] are, are merged under the one that occurs
    first. *)
Theorem json_row_value_is_first_seen
    (src field out_dir : string) (output_name : option string)
    (s s' : fs) (out_path : string) :
  JsonDist.compute_key_distribution src field out_dir output_name s
  = (Ok out_path, s') ->
  exists recs observations entries,
    files s !! src = Some (JsonText (JList recs))
    /\ map (JsonDist.extract field) recs = map JScalar observations
    /\ files s' !! out_path = Some (summary_file field entries)
    /\ Forall (fun r =>
                 exists i,
                   observations !! i = Some (entry_value r)
                   /\ forall j b, (j < i)%nat -> observations !! j = Some b ->
                                  ~ same_key b (entry_value r))
              entries.
Proof.
  intros (recs & scalars & Hfile & Hhash & -> & ->)%json_run_inv.
  apply hashable_Ok in Hhash.
  exists recs, scalars, (JsonDist.summary_entries (count_values scalars)).
  split_and!; [done..|apply fs_after_lookup|].
  apply Forall_forall. intros r Hr.
  apply (count_values_earliest r.1 scalars).
  rewrite <- (most_common_Permutation (count_values scalars)).
  rewrite <- json_entries_counts. apply (list_elem_of_fmap_2 fst _ _ Hr).
Qed.

Lemma json_row_value_is_first_seen_witness :
  exists recs observations entries,
    files Sample.json_fs !! "data/m.json" = Some (JsonText (JList recs))
    /\ map (JsonDist.extract "k") recs = map JScalar observations
    /\ files (JsonDist.compute_key_distribution "data/m.json" "k" "out" None
                Sample.json_fs).2 !! "out/m_k_distribution.csv"
       = Some (summary_file "k" entries)
    /\ Forall (fun r =>
                 exists i,
                   observations !! i = Some (entry_value r)
                   /\ forall j b, (j < i)%nat -> observations !! j = Some b ->
                                  ~ same_key b (entry_value r))
              entries.
Proof.
  apply (json_row_value_is_first_seen "data/m.json" "k" "out" None Sample.json_fs).
  vm_compute. reflexivity.
Defined.

(** X9.  The first row of the JSON summary is a most frequent value: no
    observation occurs more often than the count of the first row. *)
Theorem json_first_row_is_mode
    (src field out_dir : string) (output_name : option string)
    (s s' : fs) (out_path : string) :
  JsonDist.compute_key_distribution src field out_dir output_name s
  = (Ok out_path, s') ->
  exists recs observations entries,
    files s !! src = Some (JsonText (JList recs))
    /\ map (JsonDist.extract field) recs = map JScalar observations
    /\ files s' !! out_path = Some (summary_file field entries)
    /\ forall top a,
         head entries = Some top -> a ∈ observations ->
         occurrences a observations <= entry_count top.
Proof.
  intros (recs & scalars & Hfile & Hhash & -> & ->)%json_run_inv.
  apply hashable_Ok in Hhash.
  exists recs, scalars, (JsonDist.summary_entries (count_values scalars)).
  split_and!; [done..|apply fs_after_lookup|].
  intros top a Htop Ha.
  destruct (json_entries_partition scalars) as (_ & Hocc & _ & Hall).
  destruct (Hall a Ha) as (r & Hr & Hk).
  rewrite <- (occurrences_same_key _ _ _ Hk).
  rewrite <- (proj1 (Forall_forall _ _) Hocc r Hr).
  apply list_elem_of_lookup_1 in Hr as [j Hj].
  apply (most_common_first_lookup
           (JsonDist.summary_entries (count_values scalars)) 0 j top r
           (json_entries_most_common_first (count_values scalars))); [lia| |done].
  by rewrite <- head_lookup.
Qed.

Lemma json_first_row_is_mode_witness :
  exists recs observations entries,
    files Sample.json_fs !! "data/m.json" = Some (JsonText (JList recs))
    /\ map (JsonDist.extract "k") recs = map JScalar observations
    /\ files (JsonDist.compute_key_distribution "data/m.json" "k" "out" None
                Sample.json_fs).2 !! "out/m_k_distribution.csv"
       = Some (summary_file "k" entries)
    /\ forall top a,
         head entries = Some top -> a ∈ observations ->
         occurrences a observations <= entry_count top.
Proof.
  apply (json_first_row_is_mode "data/m.json" "k" "out" None Sample.json_fs).
  vm_compute. reflexivity.
Defined.

(** X10.  The order of the records decides only the order of the rows and the
    value that stands for a key: two JSON sources whose lists are
    permutations of each other are accepted alike, and their summaries
    hold the same keys with the same counts and the same percentages. *)
Theorem json_counts_ignore_record_order
    (src1 src2 field out1 out2 : string) (name1 name2 : option string)
    (s1 s2 s1' : fs) (recs1 recs2 : list json) (p1 : string) :
  files s1 !! src1 = Some (JsonText (JList recs1)) ->
  files s2 !! src2 = Some (JsonText (JList recs2)) ->
  recs1 ≡ₚ recs2 ->
  JsonDist.compute_key_distribution src1 field out1 name1 s1 = (Ok p1, s1') ->
  exists p2 s2' e1 e2,
    JsonDist.compute_key_distribution src2 field out2 name2 s2 = (Ok p2, s2')
    /\ files s1' !! p1 = Some (summary_file field e1)
    /\ files s2' !! p2 = Some (summary_file field e2)
    /\ map keyed_row e1 ≡ₚ map keyed_row e2.
Proof.
  intros Hf1 Hf2 Hperm Hrun.
  apply json_run_inv in Hrun as (recs & obs1 & Hf1' & Hhash & -> & ->).
  rewrite Hf1 in Hf1'. injection Hf1' as <-.
  apply hashable_Ok in Hhash.
  assert (map (JsonDist.extract field) recs2 ≡ₚ map JScalar obs1) as Hvals.
  { rewrite <- Hhash. apply Permutation_map. by symmetry. }
  apply Permutation_map_inv in Hvals as (obs2 & Hobs2 & Hperm2).
  eexists _, _, _, _. split_and!.
  - eapply json_run; [done|]. rewrite Hobs2. apply hashable_scalars.
  - apply fs_after_lookup.
  - apply fs_after_lookup.
  - rewrite !keyed_rows_json.
    rewrite <- (Permutation_length Hperm2).
    apply Permutation_map. apply key_counts_Permutation. exact Hperm2.
Qed.

Lemma json_counts_ignore_record_order_witness :
  exists p2 s2' e1 e2,
    JsonDist.compute_key_distribution "data/r.json" "k" "out" None Sample.json_shuffled_fs
    = (Ok p2, s2')
    /\ files (JsonDist.compute_key_distribution "data/m.json" "k" "out" None
                Sample.json_fs).2 !! "out/m_k_distribution.csv"
       = Some (summary_file "k" e1)
    /\ files s2' !! p2 = Some (summary_file "k" e2)
    /\ map keyed_row e1 ≡ₚ map keyed_row e2.
Proof.
  apply (json_counts_ignore_record_order "data/m.json" "data/r.json" "k" "out"
           "out" None None Sample.json_fs Sample.json_shuffled_fs _
           Sample.json_records Sample.json_shuffled_records).
  - reflexivity.
  - reflexivity.
  - apply (Permutation_rev Sample.json_records).
  - vm_compute. reflexivity.
Defined.

(** X11.  The CSV aggregator counts the missing cells ([NaN]) in one row of
    their own, whose value field is written [nan] and whose count is the
    number of missing cells (for a [value_counts] that lists the
    counter's items, as [dropna=False] makes it). *)
Theorem csv_nan_bucket
    (pd : api) (src field out_dir : string) (output_name : option string)
    (s s' : fs) (out_path : string) :
  value_counts_ok pd ->
  CsvDist.compute_column_distribution pd src field out_dir output_name s
  = (Ok out_path, s') ->
  exists rows df cells entries,
    files s !! src = Some (CsvText rows)
    /\ read_csv pd rows = Ok df
    /\ getitem df field = Ok cells
    /\ files s' !! out_path = Some (summary_file field entries)
    /\ (SFloat S754_nan ∈ cells ->
        exists r, r ∈ entries
                  /\ entry_value r = SFloat S754_nan
                  /\ entry_count r = occurrences (SFloat S754_nan) cells
                  /\ (forall a, same_key (SFloat S754_nan) a <-> a = SFloat S754_nan)
                  /\ head (writerow r) = Some "nan"
                  /\ forall r', r' ∈ entries ->
                                entry_value r' = SFloat S754_nan -> r' = r).
Proof.
  intros Hpd (rows & df & cells & Hfile & Hread & Hcol & -> & ->)%csv_run_inv.
  exists rows, df, cells, (CsvDist.summary_entries (value_counts pd cells)).
  split_and!; [done..|apply fs_after_lookup|].
  intros Hnan.
  destruct (csv_entries_partition pd cells Hpd) as (_ & Hocc & Hnd & Hall).
  destruct (Hall _ Hnan) as (r & Hr & Hk).
  assert (entry_value r = SFloat S754_nan) as Hv by (by apply key_of_NaN).
  exists r. split_and!; [done|done| | | |].
  - by rewrite (proj1 (Forall_forall _ _) Hocc r Hr), Hv.
  - intros a. unfold same_key. split; [|by intros ->].
    intros Ha. symmetry in Ha. by apply key_of_NaN in Ha.
  - unfold writerow. by rewrite Hv.
  - intros r' Hr' Hv'.
    apply (NoDup_fmap_elem_inj (fun r => key_of (entry_value r)) _ _ _ Hnd Hr' Hr).
    by rewrite Hv, Hv'.
Qed.

Lemma csv_nan_bucket_witness :
  value_counts_ok PandasRef.pandas
  /\ SFloat S754_nan ∈ [SStr "cat"; SFloat S754_nan; SStr "cat"; SFloat S754_nan]
  /\ exists rows df cells entries,
       files Sample.csv_gaps_fs !! "data/g.csv" = Some (CsvText rows)
       /\ read_csv PandasRef.pandas rows = Ok df
       /\ getitem df "species_name" = Ok cells
       /\ files (CsvDist.compute_column_distribution PandasRef.pandas "data/g.csv"
                   "species_name" "out" None Sample.csv_gaps_fs).2
            !! "out/g_species_name_distribution.csv"
          = Some (summary_file "species_name" entries)
       /\ (SFloat S754_nan ∈ cells ->
           exists r, r ∈ entries
                     /\ entry_value r = SFloat S754_nan
                     /\ entry_count r = occurrences (SFloat S754_nan) cells
                     /\ (forall a, same_key (SFloat S754_nan) a <-> a = SFloat S754_nan)
                     /\ head (writerow r) = Some "nan"
                     /\ forall r', r' ∈ entries ->
                                   entry_value r' = SFloat S754_nan -> r' = r).
Proof.
  split; [exact pandas_value_counts_ok|].
  split; [right; left|].
  apply (csv_nan_bucket PandasRef.pandas "data/g.csv" "species_name" "out" None
           Sample.csv_gaps_fs _ "out/g_species_name_distribution.csv"
           pandas_value_counts_ok).
  vm_compute. reflexivity.
Defined.

(** X12.  The two scripts agree: on a JSON list and a CSV column with the same
    observations, both aggregators return, and the rows of the two
    summaries are the same up to their order. *)
Theorem summaries_agree_across_scripts
    (pd : api) (json_path csv_path field : string)
    (json_out csv_out : string) (json_name csv_name : option string)
    (sj sc : fs) (recs : list json) (rows : list (list string))
    (df : DataFrame) (cells : list scalar) :
  value_counts_ok pd ->
  files sj !! json_path = Some (JsonText (JList recs)) ->
  files sc !! csv_path = Some (CsvText rows) ->
  read_csv pd rows = Ok df ->
  getitem df field = Ok cells ->
  map (JsonDist.extract field) recs = map JScalar cells ->
  exists pj sj' pc sc' ej ec,
    JsonDist.compute_key_distribution json_path field json_out json_name sj
    = (Ok pj, sj')
    /\ CsvDist.compute_column_distribution pd csv_path field csv_out csv_name sc
       = (Ok pc, sc')
    /\ files sj' !! pj = Some (summary_file field ej)
    /\ files sc' !! pc = Some (summary_file field ec)
    /\ ej ≡ₚ ec.
Proof.
  intros Hpd Hj Hc Hread Hcol Hobs.
  eexists _, _, _, _, _, _. split_and!.
  - eapply json_run; [done|]. rewrite Hobs. apply hashable_scalars.
  - by eapply csv_run.
  - apply fs_after_lookup.
  - apply fs_after_lookup.
  - rewrite json_entries_same_total, csv_entries_same_total.
    rewrite (total_count_Permutation _ _ (Hpd cells)).
    apply Permutation_map.
    rewrite most_common_Permutation. symmetry. apply Hpd.
Qed.

Lemma summaries_agree_across_scripts_witness :
  value_counts_ok PandasRef.pandas
  /\ exists pj sj' pc sc' ej ec,
       JsonDist.compute_key_distribution "data/s.json" "species_name" "out" None
         Sample.json_species_fs = (Ok pj, sj')
       /\ CsvDist.compute_column_distribution PandasRef.pandas "data/s.csv"
            "species_name" "out" None Sample.csv_fs = (Ok pc, sc')
       /\ files sj' !! pj = Some (summary_file "species_name" ej)
       /\ files sc' !! pc = Some (summary_file "species_name" ec)
       /\ ej ≡ₚ ec.
Proof.
  split; [exact pandas_value_counts_ok|].
  apply (summaries_agree_across_scripts PandasRef.pandas "data/s.json"
           "data/s.csv" "species_name" "out" "out" None None Sample.json_species_fs
           Sample.csv_fs Sample.json_species_records Sample.csv_rows
           [("species_name", [SStr "cat"; SStr "dog"; SStr "cat"; SStr "bird"]);
            ("id", [SInt 1; SInt 2; SInt 3; SInt 4])]
           [SStr "cat"; SStr "dog"; SStr "cat"; SStr "bird"]
           pandas_value_counts_ok); reflexivity.
Defined.

(** X13.  The percent column adds up to 100 within rounding: in a summary of
    fewer than [2^33] records, every percentage is a number of
    thousandths between 0 and 100000 printed with three decimals, and the
    sum of these numbers differs from 100000 by at most half a unit per
    row. *)
Theorem percent_column_sums_to_100
    (pd : api) (src field out_dir : string) (output_name : option string)
    (s s' : fs) (out_path : string) :
  value_counts_ok pd ->
  JsonDist.compute_key_distribution src field out_dir output_name s
  = (Ok out_path, s')
  \/ CsvDist.compute_column_distribution pd src field out_dir output_name s
     = (Ok out_path, s') ->
  exists entries,
    files s' !! out_path = Some (summary_file field entries)
    /\ (0 < sum_list (map entry_count entries) < 2 ^ 33 ->
        exists ns,
          Forall2 (fun r n => entry_percent r = fixed_point 3 n
                              /\ 0 <= n <= 100000) entries ns
          /\ 2 * Z.abs (sum_list ns - 100000) <= Z.of_nat (length entries)).
Proof.
  intros Hpd Hrun.
  destruct (run_entries _ _ _ _ _ _ _ _ Hpd Hrun) as (l & entries & Hfile & Hperm & Hpct).
  exists entries. split; [exact Hfile|]. intros Htotal.
  set (total := sum_list (map entry_count entries)) in *.
  pose proof (entries_count_bounds l entries Hperm) as Hbounds. fold total in Hbounds.
  destruct (rendered_sum entries total) as (ns & Hns & Hsum); [lia| |].
  - apply Forall_forall. intros r Hr.
    pose proof (proj1 (Forall_forall _ _) Hbounds r Hr) as Hc.
    split; [exact Hc|].
    rewrite (proj1 (Forall_forall _ _) Hpct r Hr). fold total.
    apply json_percent_renders; [exact Hc|apply Htotal].
  - exists ns. split; [exact Hns|]. fold total in Hsum.
    clearbody total. nia.
Qed.

Lemma percent_column_sums_to_100_witness :
  value_counts_ok PandasRef.pandas
  /\ exists entries,
       files (JsonDist.compute_key_distribution "data/m.json" "k" "out" None
                Sample.json_fs).2 !! "out/m_k_distribution.csv"
       = Some (summary_file "k" entries)
       /\ (0 < sum_list (map entry_count entries) < 2 ^ 33 ->
           exists ns,
             Forall2 (fun r n => entry_percent r = fixed_point 3 n
                                 /\ 0 <= n <= 100000) entries ns
             /\ 2 * Z.abs (sum_list ns - 100000) <= Z.of_nat (length entries)).
Proof.
  split; [exact pandas_value_counts_ok|].
  apply (percent_column_sums_to_100 PandasRef.pandas "data/m.json" "k" "out" None
           Sample.json_fs _ "out/m_k_distribution.csv" pandas_value_counts_ok).
  left. vm_compute. reflexivity.
Defined.

(** X14.  Within one summary of fewer than [2^33] records, a row with a larger
    count never shows a smaller percentage. *)
Theorem percent_monotone_in_count
    (pd : api) (src field out_dir : string) (output_name : option string)
    (s s' : fs) (out_path : string) :
  value_counts_ok pd ->
  JsonDist.compute_key_distribution src field out_dir output_name s
  = (Ok out_path, s')
  \/ CsvDist.compute_column_distribution pd src field out_dir output_name s
     = (Ok out_path, s') ->
  exists entries,
    files s' !! out_path = Some (summary_file field entries)
    /\ (sum_list (map entry_count entries) < 2 ^ 33 ->
        forall r1 r2,
          r1 ∈ entries -> r2 ∈ entries -> entry_count r1 <= entry_count r2 ->
          exists n1 n2,
            entry_percent r1 = fixed_point 3 n1
            /\ entry_percent r2 = fixed_point 3 n2
            /\ 0 <= n1 <= n2 /\ n2 <= 100000).
Proof.
  intros Hpd Hrun.
  destruct (run_entries _ _ _ _ _ _ _ _ Hpd Hrun) as (l & entries & Hfile & Hperm & Hpct).
  exists entries. split; [exact Hfile|]. intros Htotal r1 r2 Hr1 Hr2 Hle.
  set (total := sum_list (map entry_count entries)) in *.
  pose proof (entries_count_bounds l entries Hperm) as Hbounds. fold total in Hbounds.
  pose proof (proj1 (Forall_forall _ _) Hbounds r1 Hr1) as Hc1.
  pose proof (proj1 (Forall_forall _ _) Hbounds r2 Hr2) as Hc2.
  pose proof (proj1 (Forall_forall _ _) Hpct r1 Hr1) as Hp1.
  pose proof (proj1 (Forall_forall _ _) Hpct r2 Hr2) as Hp2.
  fold total in Hp1, Hp2. cbv beta in Hc1, Hc2.
  destruct (json_percent_renders (entry_count r1) total Hc1 Htotal)
    as (n1 & Hs1 & _ & Hn1).
  destruct (json_percent_renders (entry_count r2) total Hc2 Htotal)
    as (n2 & Hs2 & _ & Hn2).
  pose proof (nearest_percent_le _ _ _ Hc1 Hn1) as Hb1.
  pose proof (nearest_percent_le _ _ _ Hc2 Hn2) as Hb2.
  destruct (decide (entry_count r1 = entry_count r2)) as [Heq|Hne].
  - exists n1, n1. split_and!; [congruence| |lia..].
    rewrite Hp2, <- Heq. exact Hs1.
  - exists n1, n2. split_and!; [congruence|congruence|lia| |lia].
    apply (nearest_percent_mono (entry_count r1) (entry_count r2) total); [lia|lia|done..].
Qed.

Lemma percent_monotone_in_count_witness :
  value_counts_ok PandasRef.pandas
  /\ exists entries,
       files (CsvDist.compute_column_distribution PandasRef.pandas "data/s.csv"
                "species_name" "out" None Sample.csv_fs).2
         !! "out/s_species_name_distribution.csv"
       = Some (summary_file "species_name" entries)
       /\ (sum_list (map entry_count entries) < 2 ^ 33 ->
           forall r1 r2,
             r1 ∈ entries -> r2 ∈ entries -> entry_count r1 <= entry_count r2 ->
             exists n1 n2,
               entry_percent r1 = fixed_point 3 n1
               /\ entry_percent r2 = fixed_point 3 n2
               /\ 0 <= n1 <= n2 /\ n2 <= 100000).
Proof.
  split; [exact pandas_value_counts_ok|].
  apply (percent_monotone_in_count PandasRef.pandas "data/s.csv" "species_name"
           "out" None Sample.csv_fs _ "out/s_species_name_distribution.csv"
           pandas_value_counts_ok).
  right. vm_compute. reflexivity.
Defined.

(** X15.  When all observations are one and the same key, the summary has the
    header and one row: the first observation, the number of records and
    [100.000]. *)
Theorem single_value_is_100_percent
    (pd : api) (src field out_dir : string) (output_name : option string)
    (s : fs) (a : scalar) (others : list scalar) :
  Forall (same_key a) others ->
  Z.of_nat (length (a :: others)) < 2 ^ 33 ->
  let table :=
    CsvText [[field; "count"; "percent"];
             [csv_field a; str_int (Z.of_nat (length (a :: others))); "100.000"]] in
  (forall recs,
     files s !! src = Some (JsonText (JList recs)) ->
     map (JsonDist.extract field) recs = map JScalar (a :: others) ->
     exists out_path s',
       JsonDist.compute_key_distribution src field out_dir output_name s
       = (Ok out_path, s')
       /\ files s' !! out_path = Some table)
  /\
  (value_counts_ok pd ->
   forall rows df,
     files s !! src = Some (CsvText rows) ->
     read_csv pd rows = Ok df ->
     getitem df field = Ok (a :: others) ->
     exists out_path s',
       CsvDist.compute_column_distribution pd src field out_dir output_name s
       = (Ok out_path, s')
       /\ files s' !! out_path = Some table).
Proof.
  intros Hall Hlen table.
  assert (0 < Z.of_nat (length (a :: others))) as Hpos by (cbn [length]; lia).
  split.
  - intros recs Hfile Hobs. eexists _, _. split.
    + eapply json_run; [done|]. rewrite Hobs. apply hashable_scalars.
    + rewrite fs_after_lookup. unfold summary_file, table. do 2 f_equal.
      rewrite json_entries_same_total, count_values_single by done.
      cbn [most_common insert_by_count map total_count foldr snd].
      rewrite Z.add_0_r, percent_of_whole by lia. reflexivity.
  - intros Hpd rows df Hfile Hread Hcol. eexists _, _. split.
    + by eapply csv_run.
    + rewrite fs_after_lookup. unfold summary_file, table. do 2 f_equal.
      pose proof (Hpd (a :: others)) as Hperm.
      rewrite count_values_single in Hperm by done.
      apply Permutation_singleton_r in Hperm. rewrite Hperm.
      unfold CsvDist.summary_entries, sum_list. cbn [map foldr snd].
      rewrite Z.add_0_r.
      change (CsvDist.percent ?c ?t) with (JsonDist.percent c t).
      rewrite percent_of_whole by lia. reflexivity.
Qed.

Lemma single_value_is_100_percent_witness :
  exists out_path s',
    JsonDist.compute_key_distribution "data/one.json" "k" "out" None Sample.json_single_fs
    = (Ok out_path, s')
    /\ files s' !! out_path
       = Some (CsvText [["k"; "count"; "percent"]; ["a"; "3"; "100.000"]]).
Proof.
  apply (proj1 (single_value_is_100_percent PandasRef.pandas "data/one.json" "k"
                  "out" None Sample.json_single_fs (SStr "a") [SStr "a"; SStr "a"]
                  ltac:(repeat constructor) ltac:(vm_compute; reflexivity))
           Sample.json_single_records); reflexivity.
Defined.

(** X16.  A run of [plot_distribution] that returns has written one file, the
    chart, at the path it returns (the given one, or the summary path
    with the suffix [.png]), and has changed nothing else; the chart has
    the y label [count], a text above every bar that is the decimal of its
    height, and the fixed title of the script, which does not mention the
    column.  A run that raises has changed nothing. *)
Theorem bar_renderer_writes_one_chart
    (pd : api) (summary_csv : string) (value_column out_png : option string)
    (s : fs) :
  (forall p s',
     JsonDist.plot_distribution pd summary_csv value_column out_png s = (Ok p, s') ->
     bar_written JsonDist.DEFAULT_BAR_TITLE_TEMPLATE summary_csv value_column
       out_png s p s')
  /\
  (forall p s',
     CsvDist.plot_distribution pd summary_csv value_column out_png s = (Ok p, s') ->
     bar_written CsvDist.FOLDER_NAME summary_csv value_column out_png s p s')
  /\
  (forall e s',
     JsonDist.plot_distribution pd summary_csv value_column out_png s = (Raise e, s')
     \/ CsvDist.plot_distribution pd summary_csv value_column out_png s
        = (Raise e, s') ->
     s' = s).
Proof.
  split_and!.
  - intros p s'. apply json_bar_written.
  - intros p s'. apply csv_bar_written.
  - intros e s' [H|H]; [by eapply json_plot_raises|by eapply csv_plot_raises].
Qed.

Lemma bar_renderer_writes_one_chart_witness :
  bar_written JsonDist.DEFAULT_BAR_TITLE_TEMPLATE "out/d.csv" None None
    Sample.summary_fs "out/d.png"
    (JsonDist.plot_distribution PandasRef.pandas "out/d.csv" None None
       Sample.summary_fs).2
  /\ (CsvDist.plot_distribution PandasRef.pandas "out/one.csv" None None
        Sample.one_column_fs).2 = Sample.one_column_fs.
Proof.
  split.
  - apply (proj1 (bar_renderer_writes_one_chart PandasRef.pandas "out/d.csv" None
                    None Sample.summary_fs)).
    vm_compute. reflexivity.
  - apply (proj2 (proj2 (bar_renderer_writes_one_chart PandasRef.pandas
                           "out/one.csv" None None Sample.one_column_fs))
             (ValueError "out/one.csv must have at least two columns.")).
    right. vm_compute. reflexivity.
Defined.

(** X17.  [plot_distribution], given a value column that is not in the header
    of a summary with two columns or more, raises the [ValueError] that
    names the column and the summary, whether or not there is a [count]
    column, and writes nothing. *)
Theorem bar_renderer_rejects_missing_column
    (pd : api) (summary_csv c : string) (out_png : option string) (s : fs)
    (rows : list (list string)) (df : DataFrame) :
  files s !! summary_csv = Some (CsvText rows) ->
  read_csv pd rows = Ok df ->
  (2 <= length (columns df))%nat ->
  c ∉ columns df ->
  let missing : outcome string :=
    Raise (ValueError ("Column '" +:+ c +:+ "' not found in " +:+ summary_csv)) in
  JsonDist.plot_distribution pd summary_csv (Some c) out_png s = (missing, s)
  /\ CsvDist.plot_distribution pd summary_csv (Some c) out_png s = (missing, s).
Proof.
  intros Hfile Hread Hlen Hc missing.
  unfold JsonDist.plot_distribution, CsvDist.plot_distribution, bind, pd_read_csv.
  rewrite Hfile, Hread.
  assert ((length (columns df) <? 2)%nat = false) as -> by (apply Nat.ltb_ge; lia).
  cbn [ret]. by rewrite (bool_decide_eq_false_2 _ Hc).
Qed.

Lemma bar_renderer_rejects_missing_column_witness :
  JsonDist.plot_distribution PandasRef.pandas "out/d.csv" (Some "genus") None
    Sample.summary_fs
  = (Raise (ValueError "Column 'genus' not found in out/d.csv"), Sample.summary_fs)
  /\ CsvDist.plot_distribution PandasRef.pandas "out/d.csv" (Some "genus") None
       Sample.summary_fs
     = (Raise (ValueError "Column 'genus' not found in out/d.csv"),
        Sample.summary_fs).
Proof.
  apply (bar_renderer_rejects_missing_column PandasRef.pandas "out/d.csv" "genus"
           None Sample.summary_fs Sample.summary_rows
           [("species_name", [SStr "cat"; SStr "dog"; SStr "bird"]);
            ("count", [SInt 2; SInt 1; SInt 1]);
            ("percent", [SStr "50.000"; SStr "25.000"; SStr "25.000"])]).
  - reflexivity.
  - reflexivity.
  - cbn. lia.
  - refine (proj1 (bool_decide_eq_false _) _). reflexivity.
Defined.

(** X18.  A run of [compute_and_plot_distribution] that returns has made the
    output directory and has written the summary, then the bar chart, then
    the pie chart, at the three paths it returns, and nothing else.  The
    bar chart is never written over the summary, both charts show the
    counts of the same reading of the summary, and the legend of the pie
    chart is computed from the labels and heights of the bars. *)
Theorem pipeline_writes_three_outputs
    (pd : api) (src field out_dir : string)
    (output_name plot_name pie_name : option string)
    (s s' : fs) (summary bar pie : string) :
  (JsonDist.compute_and_plot_distribution pd src field out_dir output_name
     plot_name pie_name s = (Ok (summary, bar, pie), s') ->
   pipeline_written JsonDist.DEFAULT_BAR_TITLE_TEMPLATE
     JsonDist.DEFAULT_PIE_TITLE_TEMPLATE JsonDist.legend_labels src field out_dir output_name plot_name
     pie_name s summary bar pie s')
  /\
  (CsvDist.compute_and_plot_distribution pd src field out_dir output_name
     plot_name pie_name s = (Ok (summary, bar, pie), s') ->
   pipeline_written CsvDist.FOLDER_NAME CsvDist.FOLDER_NAME
    CsvDist.legend_labels src field out_dir
     output_name plot_name pie_name s summary bar pie s').
Proof.
  split; [apply json_pipeline_written|apply csv_pipeline_written].
Qed.

Lemma pipeline_writes_three_outputs_witness :
  pipeline_written JsonDist.DEFAULT_BAR_TITLE_TEMPLATE
    JsonDist.DEFAULT_PIE_TITLE_TEMPLATE JsonDist.legend_labels "data/m.json" "k" "out" None None None
    Sample.json_fs "out/m_k_distribution.csv" "out/m_k_distribution.png"
    "out/m_k_distribution.pie.png"
    (JsonDist.compute_and_plot_distribution PandasRef.pandas "data/m.json" "k"
       "out" None None None Sample.json_fs).2
  /\ pipeline_written CsvDist.FOLDER_NAME CsvDist.FOLDER_NAME
       CsvDist.legend_labels "data/s.csv"
       "species_name" "charts" (Some "d.csv") (Some "bar.png") (Some "pie.png")
       Sample.csv_fs "charts/d.csv" "charts/bar.png" "charts/pie.png"
       (CsvDist.compute_and_plot_distribution PandasRef.pandas "data/s.csv"
          "species_name" "charts" (Some "d.csv") (Some "bar.png") (Some "pie.png")
          Sample.csv_fs).2.
Proof.
  split.
  - apply (proj1 (pipeline_writes_three_outputs PandasRef.pandas "data/m.json"
                    "k" "out" None None None Sample.json_fs _ _ _ _)).
    vm_compute. reflexivity.
  - apply (proj2 (pipeline_writes_three_outputs PandasRef.pandas "data/s.csv"
                    "species_name" "charts" (Some "d.csv") (Some "bar.png")
                    (Some "pie.png") Sample.csv_fs _ _ _ _)).
    vm_compute. reflexivity.
Defined.

(** X19.  With no names given, [compute_and_plot_distribution] returns the
    paths [base.csv], [base.png] and [base.pie.png], for [base] the path
    [out_dir/<stem>_<field>_distribution]; they are three different files,
    and after the run they hold the summary, the bar chart and the pie
    chart. *)
Theorem default_names_give_three_files
    (pd : api) (src field out_dir : string) (s s' : fs)
    (r : string * string * string) :
  JsonDist.compute_and_plot_distribution pd src field out_dir None None None s
  = (Ok r, s')
  \/ CsvDist.compute_and_plot_distribution pd src field out_dir None None None s
     = (Ok r, s') ->
  let base :=
    path_join out_dir (path_stem src +:+ "_" +:+ field +:+ "_distribution") in
  r = (base +:+ ".csv", base +:+ ".png", base +:+ ".pie.png")
  /\ exists rows bc pc,
       files s' !! (base +:+ ".csv")
       = Some (CsvText ([field; "count"; "percent"] :: rows))
       /\ files s' !! (base +:+ ".png") = Some (BarPng bc)
       /\ files s' !! (base +:+ ".pie.png") = Some (PiePng pc)
       /\ pie_sizes pc = bar_y bc.
Proof.
  intros Hrun base. destruct r as [[summary bar] pie].
  assert (exists tb tp lg,
            pipeline_written tb tp lg src field out_dir None None None s
              summary bar pie s') as (tb & tp & lg & Hw).
  { destruct Hrun as [H|H]; eexists _, _, _;
      [by eapply json_pipeline_written|by eapply csv_pipeline_written]. }
  destruct Hw as (-> & -> & -> & _ & _ & rows & bc & pc & Hfiles & _ & _ & _ & _ & Hy & _).
  unfold bar_path_of, pie_path_of in *.
  rewrite !default_with_suffix in *. rewrite default_out_path in *.
  fold base in Hfiles |- *.
  assert (base +:+ ".csv" <> base +:+ ".png") as H1
    by (by intros ?%append_inv_head).
  assert (base +:+ ".csv" <> base +:+ ".pie.png") as H2
    by (by intros ?%append_inv_head).
  assert (base +:+ ".png" <> base +:+ ".pie.png") as H3
    by (by intros ?%append_inv_head).
  split; [done|]. exists rows, bc, pc. rewrite Hfiles. split_and!.
  - rewrite lookup_insert_ne by done. rewrite lookup_insert_ne by done.
    apply lookup_insert_eq.
  - rewrite lookup_insert_ne by done. apply lookup_insert_eq.
  - apply lookup_insert_eq.
  - done.
Qed.

Lemma default_names_give_three_files_witness :
  let s' := (JsonDist.compute_and_plot_distribution PandasRef.pandas
               "data/m.json" "k" "out" None None None Sample.json_fs).2 in
  exists rows bc pc,
    files s' !! "out/m_k_distribution.csv"
    = Some (CsvText (["k"; "count"; "percent"] :: rows))
    /\ files s' !! "out/m_k_distribution.png" = Some (BarPng bc)
    /\ files s' !! "out/m_k_distribution.pie.png" = Some (PiePng pc)
    /\ pie_sizes pc = bar_y bc.
Proof.
  refine (proj2 (default_names_give_three_files PandasRef.pandas "data/m.json"
                   "k" "out" Sample.json_fs _
                   ("out/m_k_distribution.csv", "out/m_k_distribution.png",
                    "out/m_k_distribution.pie.png") _)).
  left. vm_compute. reflexivity.
Defined.

(** X20.  When the summary path already ends in [.png] and no plot name is
    given, the bar chart is saved over the summary and the pie chart block
    cannot read the summary back: [compute_and_plot_distribution] never
    returns. *)
Theorem png_summary_name_never_succeeds
    (pd : api) (src field out_dir : string)
    (output_name pie_name : option string) (s : fs) :
  with_suffix (out_path_of src field out_dir output_name) ".png"
  = out_path_of src field out_dir output_name ->
  forall r s',
    JsonDist.compute_and_plot_distribution pd src field out_dir output_name
      None pie_name s <> (Ok r, s')
    /\ CsvDist.compute_and_plot_distribution pd src field out_dir output_name
         None pie_name s <> (Ok r, s').
Proof.
  intros Hsame [[summary bar] pie] s'. split; intros Hrun.
  - apply json_pipeline_written in Hrun as (-> & -> & _ & Hne & _). by apply Hne.
  - apply csv_pipeline_written in Hrun as (-> & -> & _ & Hne & _). by apply Hne.
Qed.

Lemma png_summary_name_never_succeeds_witness :
  JsonDist.compute_and_plot_distribution PandasRef.pandas "data/m.json" "k" "out"
    (Some "d.png") None None Sample.json_fs
  <> (Ok ("out/d.png", "out/d.png", "out/d.pie.png"), Sample.json_fs)
  /\ CsvDist.compute_and_plot_distribution PandasRef.pandas "data/m.json" "k" "out"
       (Some "d.png") None None Sample.json_fs
     <> (Ok ("out/d.png", "out/d.png", "out/d.pie.png"), Sample.json_fs).
Proof.
  apply (png_summary_name_never_succeeds PandasRef.pandas "data/m.json" "k" "out"
           (Some "d.png") None Sample.json_fs).
  reflexivity.
Defined.

(** X21.  When [compute_and_plot_distribution] raises, either the aggregator
    raised and nothing was written, or the summary was written and the
    file system is the one the aggregator left, with the bar chart added
    if it was the pie chart block that raised.  No pie chart is written by
    a run that raises. *)
Theorem pipeline_failure_leaves_partial_outputs
    (pd : api) (src field out_dir : string)
    (output_name plot_name pie_name : option string) (s s' : fs) (e : exn) :
  (JsonDist.compute_and_plot_distribution pd src field out_dir output_name
     plot_name pie_name s = (Raise e, s') ->
   (JsonDist.compute_key_distribution src field out_dir output_name s
    = (Raise e, s) /\ s' = s)
   \/ exists summary s1,
        JsonDist.compute_key_distribution src field out_dir output_name s
        = (Ok summary, s1)
        /\ (s' = s1
            \/ exists bc,
                 s' = Fs (<[bar_path_of summary out_dir plot_name := BarPng bc]>
                            (files s1)) (dirs s1)))
  /\
  (CsvDist.compute_and_plot_distribution pd src field out_dir output_name
     plot_name pie_name s = (Raise e, s') ->
   (CsvDist.compute_column_distribution pd src field out_dir output_name s
    = (Raise e, s) /\ s' = s)
   \/ exists summary s1,
        CsvDist.compute_column_distribution pd src field out_dir output_name s
        = (Ok summary, s1)
        /\ (s' = s1
            \/ exists bc,
                 s' = Fs (<[bar_path_of summary out_dir plot_name := BarPng bc]>
                            (files s1)) (dirs s1))).
Proof.
  split.
  - unfold JsonDist.compute_and_plot_distribution, bind at 1.
    destruct (JsonDist.compute_key_distribution _ _ _ _ s) as [[summary|e0] s1]
      eqn:Hsum.
    2:{ intros [= -> ->]. left. pose proof (json_run_raises _ _ _ _ _ _ _ Hsum).
        by subst. }
    intros Hrun. right. exists summary, s1. split; [done|].
    unfold bind at 1 in Hrun.
    destruct (JsonDist.plot_distribution _ _ _ _ s1) as [[bar|e1] s2] eqn:Hbar.
    2:{ injection Hrun as -> ->. left. by eapply json_plot_raises. }
    right. unfold bind at 1 in Hrun.
    destruct (JsonDist.plot_pie _ _ _ _ s2) as [[[]|e2] s3] eqn:Hpie; [done|].
    injection Hrun as -> ->. apply json_pie_raises in Hpie as ->.
    apply json_plot_inv in Hbar as (? & ? & ? & ? & ? & ? & _ & _ & _ & _ & _ & _ & _ & Hp & ->).
    rewrite bar_path_option in Hp. subst bar. by eexists.
  - unfold CsvDist.compute_and_plot_distribution, bind at 1.
    destruct (CsvDist.compute_column_distribution _ _ _ _ _ s) as [[summary|e0] s1]
      eqn:Hsum.
    2:{ intros [= -> ->]. left. pose proof (csv_run_raises _ _ _ _ _ _ _ _ Hsum).
        by subst. }
    intros Hrun. right. exists summary, s1. split; [done|].
    unfold bind at 1 in Hrun.
    destruct (CsvDist.plot_distribution _ _ _ _ s1) as [[bar|e1] s2] eqn:Hbar.
    2:{ injection Hrun as -> ->. left. by eapply csv_plot_raises. }
    right. unfold bind at 1 in Hrun.
    destruct (CsvDist.plot_pie _ _ _ _ s2) as [[[]|e2] s3] eqn:Hpie; [done|].
    injection Hrun as -> ->. apply csv_pie_raises in Hpie as ->.
    apply csv_plot_inv in Hbar as (? & ? & ? & ? & ? & ? & _ & _ & _ & _ & _ & _ & _ & Hp & ->).
    rewrite bar_path_option in Hp. subst bar. by eexists.
Qed.

Lemma pipeline_failure_leaves_partial_outputs_witness :
  (JsonDist.compute_key_distribution "data/u.json" "k" "out" None Sample.json_unhashable_fs
   = (Raise (TypeError "unhashable type: 'list'"), Sample.json_unhashable_fs)
   /\ Sample.json_unhashable_fs = Sample.json_unhashable_fs)
  \/ exists summary s1,
       JsonDist.compute_key_distribution "data/u.json" "k" "out" None
         Sample.json_unhashable_fs = (Ok summary, s1)
       /\ (Sample.json_unhashable_fs = s1
           \/ exists bc,
                Sample.json_unhashable_fs
                = Fs (<[bar_path_of summary "out" None := BarPng bc]> (files s1))
                     (dirs s1)).
Proof.
  apply (proj1 (pipeline_failure_leaves_partial_outputs PandasRef.pandas
                  "data/u.json" "k" "out" None None None Sample.json_unhashable_fs
                  Sample.json_unhashable_fs (TypeError "unhashable type: 'list'"))).
  vm_compute. reflexivity.
Defined.
